(** * webhook-bridge: the bridge core of the Minecraft <-> Discord relay

    A shallow embedding of [webhook-bridge.py]: the identity cache
    ([mc_uuid_to_username], [mc_username_to_uuid]), the presence tracker
    ([handle_tab_list], [handle_disconnect], [handle_join_game]) and the two
    relay directions ([handle_chat], the linked-account branch of
    [on_message]).

    The module-level globals of the script are the fields of one [State]
    record that every handler threads through a small state/error/trace
    monad.  What the handlers do to the outside world (HTTP requests, webhook
    posts, analytics records, packets written) is recorded, in order, in a
    trace of [Effect]s; what the outside world answers is read from a [World]
    record.  Calls to the [logging] module are not part of the trace.

    The libraries the script leans on are modelled as far as the handlers use
    them: Python strings as lists of code points, [bidict] as a pair of
    finite maps with the library's default policy on duplicates, [uuid.UUID]
    on the spellings of a uuid, the two patterns of [handle_chat] as the
    matchers they amount to.

    The file goes: the model; what is observed of a run; a scenario to
    evaluate the model on; facts about [bidict], about the monad and about
    each handler; the claims C1 to C10; the claims on the scenario.

    After the scenario come the text helper [strip_colour] and the Discord
    side of the script ([on_ready], the administrators' commands and the
    branch of [on_message] that decides who is relayed), run in a second
    monad whose trace also records the calls of the Discord API and the
    writes to the channel table; after the claims come further properties
    of the handlers, X1 to X28, and these properties on the scenario. *)

From Stdlib Require Import ZArith NArith String Ascii List Bool Lia.
From stdpp Require Import gmap list fin_maps.

Local Open Scope Z_scope.

(* ===================================================================== *)
(** ** Python strings *)
(* ===================================================================== *)

(** A Python [str] is a sequence of Unicode code points. *)
Abbreviation pystr := (list N).

Module PyStr.

(** A literal: one code point per character of an ASCII literal. *)
Definition py (s : string) : pystr := map N_of_ascii (list_ascii_of_string s).

(** [len(s)] *)
Definition len (s : pystr) : Z := Z.of_nat (length s).

(** [s[:k]]; a negative [k] counts from the end, as Python slices do. *)
Definition slice_to (k : Z) (s : pystr) : pystr :=
  if 0 <=? k then take (Z.to_nat k) s
  else take (Z.to_nat (len s + k)) s.

Fixpoint starts_with (p s : pystr) : bool :=
  match p, s with
  | [], _ => true
  | _ :: _, [] => false
  | a :: p', b :: s' => N.eqb a b && starts_with p' s'
  end.

(** [s.replace(old, new)] for a non-empty [old]: leftmost non-overlapping
    occurrences.  [skip] counts the characters of an occurrence that is
    being replaced and are still to be passed over. *)
Fixpoint replace_from (old new : pystr) (skip : nat) (s : pystr) : pystr :=
  match s with
  | [] => []
  | c :: s' =>
      match skip with
      | S k => replace_from old new k s'
      | O => if starts_with old s
             then new ++ replace_from old new (Nat.pred (length old)) s'
             else c :: replace_from old new O s'
      end
  end.

Definition replace (old new s : pystr) : pystr := replace_from old new O s.

(** [str.isspace] on one code point: what [str.strip()] removes. *)
Definition isspace (c : N) : bool :=
  ((9 <=? c) && (c <=? 13) || (28 <=? c) && (c <=? 32)
   || (c =? 133) || (c =? 160) || (c =? 5760)
   || (8192 <=? c) && (c <=? 8202)
   || (c =? 8232) || (c =? 8233) || (c =? 8239) || (c =? 8287)
   || (c =? 12288))%N.

Fixpoint lstrip (s : pystr) : pystr :=
  match s with
  | c :: s' => if isspace c then lstrip s' else s
  | [] => []
  end.

Definition rstrip (s : pystr) : pystr := rev (lstrip (rev s)).

(** [s.strip()] *)
Definition strip (s : pystr) : pystr := rstrip (lstrip s).

(** [s.lower()].  The case mapping is the one of the ASCII letters, which is
    all a Minecraft account name ([A-Za-z0-9_]) contains; other code points
    are left as they are. *)
Definition lower_char (c : N) : N :=
  if ((65 <=? c) && (c <=? 90))%N then (c + 32)%N else c.

Definition lower (s : pystr) : pystr := map lower_char s.

(** ["{}".format(x)] for a value that is a string or [None]. *)
Definition format_opt (x : option pystr) : pystr :=
  match x with
  | Some s => s
  | None => py "None"
  end.

(** [s.encode('utf-8').decode('ascii', 'replace')]: an ASCII character is
    kept, every byte of a longer UTF-8 sequence becomes U+FFFD.  A lone
    surrogate cannot be encoded ([UnicodeEncodeError], here [None]). *)
Definition utf8_width (c : N) : nat :=
  if (c <? 128)%N then 1%nat
  else if (c <? 2048)%N then 2%nat
  else if (c <? 65536)%N then 3%nat
  else 4%nat.

Definition is_surrogate (c : N) : bool := ((55296 <=? c) && (c <=? 57343))%N.

Definition ascii_replace_char (c : N) : option pystr :=
  if (c <? 128)%N then Some [c]
  else if is_surrogate c then None
  else Some (replicate (utf8_width c) 65533%N).

Fixpoint ascii_replace (s : pystr) : option pystr :=
  match s with
  | [] => Some []
  | c :: s' =>
      match ascii_replace_char c, ascii_replace s' with
      | Some x, Some r => Some (x ++ r)
      | _, _ => None
      end
  end.

(** [remove_emoji]: the character class of the source's pattern. *)
Definition is_emoji (c : N) : bool :=
  ((128512 <=? c) && (c <=? 128591)        (* U+1F600 - U+1F64F *)
   || (127744 <=? c) && (c <=? 128511)     (* U+1F300 - U+1F5FF *)
   || (128640 <=? c) && (c <=? 128767)     (* U+1F680 - U+1F6FF *)
   || (127456 <=? c) && (c <=? 127487)     (* U+1F1E0 - U+1F1FF *)
   || (129280 <=? c) && (c <=? 129791))%N. (* U+1F900 - U+1FAFF *)

Definition remove_emoji (s : pystr) : pystr :=
  List.filter (fun c => negb (is_emoji c)) s.

(** [escape_markdown]: the three replacements, backslash first. *)
Definition escape_markdown (s : pystr) : pystr :=
  let s := replace [92%N] [92%N; 92%N] s in
  let s := replace [95%N] [92%N; 95%N] s in
  let s := replace [42%N] [92%N; 42%N] s in
  s.

(** *** [uuid.UUID(hex)] followed by [str()] *)

Definition is_hex_digit (c : N) : bool :=
  ((48 <=? c) && (c <=? 57) || (65 <=? c) && (c <=? 70)
   || (97 <=? c) && (c <=? 102))%N.

Definition is_brace (c : N) : bool := ((c =? 123) || (c =? 125))%N.

Fixpoint lstrip_braces (s : pystr) : pystr :=
  match s with
  | c :: s' => if is_brace c then lstrip_braces s' else s
  | [] => []
  end.

Definition strip_braces (s : pystr) : pystr :=
  rev (lstrip_braces (rev (lstrip_braces s))).

(** The 32 hexadecimal digits of a UUID string: the [urn:] and [uuid:]
    prefixes, surrounding braces and the dashes are removed, as the
    constructor does; anything that is not then 32 hexadecimal digits is a
    [ValueError] ([None]).  (The other spellings [int(hex, 16)] would read,
    with a sign, underscores or blanks, are taken as errors.) *)
Definition uuid_hex (s : pystr) : option pystr :=
  let h := replace (py "uuid:") [] (replace (py "urn:") [] s) in
  let h := replace [45%N] [] (strip_braces h) in
  if (length h =? 32)%nat && forallb is_hex_digit h
  then Some (lower h) else None.

(** [str(uuid.UUID(s))]: the canonical 8-4-4-4-12 form, in lower case. *)
Definition uuid_str (s : pystr) : option pystr :=
  match uuid_hex s with
  | Some h =>
      Some (take 8 h ++ [45%N] ++ take 4 (drop 8 h) ++ [45%N]
            ++ take 4 (drop 12 h) ++ [45%N] ++ take 4 (drop 16 h)
            ++ [45%N] ++ drop 20 h)
  | None => None
  end.

End PyStr.
Import PyStr.

(* ===================================================================== *)
(** ** Exceptions *)
(* ===================================================================== *)

(** The exceptions the modelled code can meet.  Every one of them is an
    [Exception], so [except Exception] and a bare [except] catch them all. *)
Inductive Exn :=
| KeyError
| IndexError
| TypeError
| ValueError
| UnicodeEncodeError
| ValueDuplicationError
| KeyAndValueDuplicationError
| RequestException          (* requests: the request could not be made *)
| HTTPException.            (* discord.py: the request failed *)

(* ===================================================================== *)
(** ** [bidict]: the one-to-one mapping of the bidict library *)
(* ===================================================================== *)

Module Bidict.

(** A [bidict] keeps a forward and an inverse dictionary in step.  The
    [UUID_CACHE] and the player lists map a uuid (key) to a name (value);
    [b.inv] is the same object read from the values. *)
Record bidict := mk {
  fwdm : gmap pystr pystr;
  invm : gmap pystr pystr
}.

(** [bidict()] *)
Definition empty : bidict := mk ∅ ∅.

(** [b.inv] *)
Definition inverse (b : bidict) : bidict := mk (invm b) (fwdm b).

(** [k in b] and [v in b.inv] *)
Definition contains (k : pystr) (b : bidict) : bool :=
  bool_decide (is_Some (fwdm b !! k)).

Definition inv_contains (v : pystr) (b : bidict) : bool :=
  contains v (inverse b).

(** [b[k]] and [b.inv[v]]; [None] is a [KeyError]. *)
Definition getitem (k : pystr) (b : bidict) : option pystr := fwdm b !! k.

Definition inv_getitem (v : pystr) (b : bidict) : option pystr :=
  getitem v (inverse b).

(** [b[k] = v] under the library's default duplication policy: the very
    item already there is a no-op, a key already there is overwritten (its
    old value leaves the inverse), a value already there under another key
    raises. *)
Definition setitem (k v : pystr) (b : bidict) : Exn + bidict :=
  match fwdm b !! k, invm b !! v with
  | Some _, Some k' =>
      if bool_decide (k' = k) then inr b
      else inl KeyAndValueDuplicationError
  | None, Some _ => inl ValueDuplicationError
  | Some v', None => inr (mk (<[k := v]> (fwdm b)) (<[v := k]> (delete v' (invm b))))
  | None, None => inr (mk (<[k := v]> (fwdm b)) (<[v := k]> (invm b)))
  end.

(** [b.inv[v] = k] *)
Definition inv_setitem (v k : pystr) (b : bidict) : Exn + bidict :=
  match setitem v k (inverse b) with
  | inr b' => inr (inverse b')
  | inl e => inl e
  end.

(** [del b[k]] *)
Definition delitem (k : pystr) (b : bidict) : Exn + bidict :=
  match fwdm b !! k with
  | Some v => inr (mk (delete k (fwdm b)) (delete v (invm b)))
  | None => inl KeyError
  end.

(** [len(b)], [set(b.keys())], [b.copy()] *)
Definition len (b : bidict) : Z := Z.of_nat (size (fwdm b)).
Definition keys (b : bidict) : gset pystr := dom (fwdm b).
Definition copy (b : bidict) : bidict := b.

(** The two dictionaries mirror each other. *)
Definition wf (b : bidict) : Prop :=
  ∀ k v, fwdm b !! k = Some v ↔ invm b !! v = Some k.

(** The same, as a test that evaluates on a given bidict. *)
Definition wfb (b : bidict) : bool :=
  bool_decide (map_Forall (λ k v, invm b !! v = Some k) (fwdm b))
  && bool_decide (map_Forall (λ v k, fwdm b !! k = Some v) (invm b)).

End Bidict.

Abbreviation bidict := Bidict.bidict.

(* ===================================================================== *)
(** ** State, configuration, outside world, effects *)
(* ===================================================================== *)

(** The module-level globals the handlers read and write.  ([SESSION_TOKEN],
    [TAB_HEADER] and [TAB_FOOTER] are used by none of the modelled
    handlers.) *)
Record State := mkState {
  UUID_CACHE : bidict;
  WEBHOOKS : list pystr;
  BOT_USERNAME : pystr;
  NEXT_MESSAGE_TIME : Z;
  PREVIOUS_MESSAGE : pystr;
  PLAYER_LIST : bidict;
  PREVIOUS_PLAYER_LIST : bidict;
  ACCEPT_JOIN_EVENTS : bool
}.

Definition set_UUID_CACHE (c : bidict) (s : State) : State :=
  mkState c (WEBHOOKS s) (BOT_USERNAME s) (NEXT_MESSAGE_TIME s)
          (PREVIOUS_MESSAGE s) (PLAYER_LIST s) (PREVIOUS_PLAYER_LIST s)
          (ACCEPT_JOIN_EVENTS s).

Definition set_PLAYER_LIST (p : bidict) (s : State) : State :=
  mkState (UUID_CACHE s) (WEBHOOKS s) (BOT_USERNAME s) (NEXT_MESSAGE_TIME s)
          (PREVIOUS_MESSAGE s) p (PREVIOUS_PLAYER_LIST s)
          (ACCEPT_JOIN_EVENTS s).

Definition set_PREVIOUS_PLAYER_LIST (p : bidict) (s : State) : State :=
  mkState (UUID_CACHE s) (WEBHOOKS s) (BOT_USERNAME s) (NEXT_MESSAGE_TIME s)
          (PREVIOUS_MESSAGE s) (PLAYER_LIST s) p (ACCEPT_JOIN_EVENTS s).

Definition set_ACCEPT_JOIN_EVENTS (b : bool) (s : State) : State :=
  mkState (UUID_CACHE s) (WEBHOOKS s) (BOT_USERNAME s) (NEXT_MESSAGE_TIME s)
          (PREVIOUS_MESSAGE s) (PLAYER_LIST s) (PREVIOUS_PLAYER_LIST s) b.

Definition set_PREVIOUS_MESSAGE (m : pystr) (s : State) : State :=
  mkState (UUID_CACHE s) (WEBHOOKS s) (BOT_USERNAME s) (NEXT_MESSAGE_TIME s)
          m (PLAYER_LIST s) (PREVIOUS_PLAYER_LIST s) (ACCEPT_JOIN_EVENTS s).

Definition set_NEXT_MESSAGE_TIME (t : Z) (s : State) : State :=
  mkState (UUID_CACHE s) (WEBHOOKS s) (BOT_USERNAME s) t
          (PREVIOUS_MESSAGE s) (PLAYER_LIST s) (PREVIOUS_PLAYER_LIST s)
          (ACCEPT_JOIN_EVENTS s).

(** The fields of [config.json] the handlers read; [message_delay] is in the
    unit in which the clock is read. *)
Record Configuration := mkConfiguration {
  es_enabled : bool;
  message_delay : Z
}.

(** [requests.post] returns a response whatever its HTTP status, or raises
    when the request cannot be made. *)
Inductive PostResult :=
| Responded (status : Z)
| PostRaises.

(** What the outside world answers.  An answer depends on what is asked and
    not on when: the name service and the endpoints do not change during a
    run. *)
Record World := mkWorld {
  (** GET .../user/profiles/<uuid without dashes>/names: the ["name"]s of
      the history, oldest first; [None] when the request or the decoding of
      its answer raises. *)
  mojang_names : pystr -> option (list pystr);
  (** GET .../users/profiles/minecraft/<name>: the ["id"] of the answer;
      [None] when the request or the decoding raises. *)
  mojang_profile : pystr -> option pystr;
  (** [requests.post(webhook, json=...)] *)
  requests_post : pystr -> PostResult;
  (** [await webhook.send(...)] of discord.py: [false] when it raises. *)
  webhook_send : pystr -> bool;
  (** whether a private reply to the author is [Forbidden] *)
  reply_forbidden : bool
}.

Record Embed := mkEmbed { color : Z; title : pystr }.

(** The JSON body of a webhook post; [username] is [None] for a JSON null. *)
Record Payload := mkPayload {
  username : option pystr;
  avatar_url : pystr;
  content : pystr;
  embeds : option (list Embed)
}.

Inductive ConnectionReason := CONNECTED | DISCONNECTED | SEEN.

(** [ChatType] *)
Inductive ChatType := CHAT | SYSTEM | GAME_INFO.

Inductive Effect :=
| HttpGet (url : pystr)
    (* requests.get(url) *)
| WebhookPost (webhook : pystr) (payload : Payload)
    (* requests.post(webhook, json=payload) *)
| WebhookSend (webhook : pystr) (name avatar text : pystr)
    (* await webhook.send(username=, avatar_url=, content=) *)
| LogConnection (uuid : pystr) (reason : ConnectionReason) (count : option Z)
    (* el.log_connection *)
| LogChatMessage (uuid : option pystr) (display_name message unformatted : pystr)
    (* el.log_chat_message *)
| LogRawMessage (type : ChatType) (message : pystr)
    (* el.log_raw_message *)
| WritePacket (message : pystr)
    (* connection.write_packet of a ChatPacket *)
| DiscordSend (private : bool) (msg : pystr).
    (* await send_channel.send(msg): to the author's DM channel or to the
       channel of the message *)

(* ===================================================================== *)
(** ** The monad of the handlers *)
(* ===================================================================== *)

Inductive Res (A : Type) :=
| Ok (a : A)
| Raised (e : Exn).
Arguments Ok {A} a.
Arguments Raised {A} e.

(** A run ends with a value or an exception, in a state, having produced a
    trace. *)
Record Out (A : Type) := mkOut {
  result : Res A;
  final : State;
  trace : list Effect
}.
Arguments mkOut {A} _ _ _.
Arguments result {A} _.
Arguments final {A} _.
Arguments trace {A} _.

Definition M (A : Type) : Type := State -> Out A.

Definition ret {A} (a : A) : M A := fun s => mkOut (Ok a) s [].

Definition bind {A B} (m : M A) (f : A -> M B) : M B := fun s =>
  match m s with
  | mkOut (Ok a) s1 t1 =>
      match f a s1 with
      | mkOut r s2 t2 => mkOut r s2 (t1 ++ t2)
      end
  | mkOut (Raised e) s1 t1 => mkOut (Raised e) s1 t1
  end.

Definition raise {A} (e : Exn) : M A := fun s => mkOut (Raised e) s [].

Definition get : M State := fun s => mkOut (Ok s) s [].

Definition modify (f : State -> State) : M unit := fun s => mkOut (Ok tt) (f s) [].

Definition emit (e : Effect) : M unit := fun s => mkOut (Ok tt) s [e].

(** [try: body  except: handler] *)
Definition try_except {A} (body : M A) (handler : Exn -> M A) : M A := fun s =>
  match body s with
  | mkOut (Ok a) s1 t1 => mkOut (Ok a) s1 t1
  | mkOut (Raised e) s1 t1 =>
      match handler e s1 with
      | mkOut r s2 t2 => mkOut r s2 (t1 ++ t2)
      end
  end.

Notation "'let*' x ':=' m 'in' k" := (bind m (fun x => k))
  (at level 10, x name, m at level 100, k at level 200).
Notation "m '>>' k" := (bind m (fun _ => k))
  (at level 90, right associativity).

(** A value of the library, or the exception it raised. *)
Definition lift {A} (r : Exn + A) : M A :=
  match r with
  | inr a => ret a
  | inl e => raise e
  end.

(** An optional value whose absence raises [e]. *)
Definition unwrap {A} (e : Exn) (o : option A) : M A :=
  match o with
  | Some a => ret a
  | None => raise e
  end.

(** [if b: m] *)
Definition when (b : bool) (m : M unit) : M unit :=
  if b then m else ret tt.

(** [for x in l: body] *)
Fixpoint for_each {A} (l : list A) (body : A -> M unit) : M unit :=
  match l with
  | [] => ret tt
  | x :: l' => body x >> for_each l' body
  end.

(* ===================================================================== *)
(** ** Identity cache *)
(* ===================================================================== *)

Section Handlers.

Variable config : Configuration.
Variable world : World.

Definition names_url (short_uuid : pystr) : pystr :=
  py "https://api.mojang.com/user/profiles/" ++ short_uuid ++ py "/names".

Definition profile_url (name : pystr) : pystr :=
  py "https://api.mojang.com/users/profiles/minecraft/" ++ name.

(** [mc_uuid_to_username]: the value returned is [None] when the function
    falls off its [except] branch. *)
Definition mc_uuid_to_username (uuid : pystr) : M (option pystr) :=
  let* s := get in
  if negb (Bidict.contains uuid (UUID_CACHE s)) then
    try_except
      (let short_uuid := replace (py "-") [] uuid in
       let* _ := emit (HttpGet (names_url short_uuid)) in
       let* mojang_response := unwrap RequestException (mojang_names world short_uuid) in
       let* player_username :=
         if 1 <? Z.of_nat (length mojang_response)
         then unwrap IndexError (last mojang_response)   (* multiple name changes *)
         else unwrap IndexError (head mojang_response)   (* only one name *)
       in
       let* s := get in
       let* cache := lift (Bidict.setitem uuid player_username (UUID_CACHE s)) in
       modify (set_UUID_CACHE cache) >>
       ret (Some player_username))
      (fun _ => ret None)
  else
    let* name := unwrap KeyError (Bidict.getitem uuid (UUID_CACHE s)) in
    ret (Some name).

(** [mc_username_to_uuid] *)
Definition mc_username_to_uuid (name : pystr) : M (option pystr) :=
  let* s := get in
  if negb (Bidict.inv_contains name (UUID_CACHE s)) then
    try_except
      (let* _ := emit (HttpGet (profile_url name)) in
       let* player_uuid := unwrap RequestException (mojang_profile world name) in
       let* long_uuid := unwrap ValueError (uuid_str player_uuid) in
       let* s := get in
       let* cache := lift (Bidict.inv_setitem name long_uuid (UUID_CACHE s)) in
       modify (set_UUID_CACHE cache) >>
       ret (Some player_uuid))
      (fun _ => ret None)
  else
    let* uuid := unwrap KeyError (Bidict.inv_getitem name (UUID_CACHE s)) in
    ret (Some uuid).

(* ===================================================================== *)
(** ** Presence tracker *)
(* ===================================================================== *)

(** The actions of a [PlayerListItemPacket]; the handler looks at the two
    first kinds only. *)
Inductive Action :=
| AddPlayerAction (name uuid : pystr)
| RemovePlayerAction (uuid : pystr)
| OtherAction.

Definition face_url (player_uuid : option pystr) : pystr :=
  py "https://visage.surgeplay.com/face/160/" ++ format_opt player_uuid.

Definition join_payload (name player_uuid : pystr) : Payload :=
  mkPayload (Some name) (face_url (Some player_uuid)) []
            (Some [mkEmbed 65280 (py "**Joined the game**")]).

Definition leave_payload (name : option pystr) (player_uuid : pystr) : Payload :=
  mkPayload name (face_url (Some player_uuid)) []
            (Some [mkEmbed 16711680 (py "**Left the game**")]).

(** [requests.post(webhook, json=payload)] *)
Definition post (payload : Payload) (webhook : pystr) : M unit :=
  emit (WebhookPost webhook payload) >>
  match requests_post world webhook with
  | Responded _ => ret tt
  | PostRaises => raise RequestException
  end.

(** [for webhook in WEBHOOKS: post = requests.post(webhook, json=payload)] *)
Definition post_to_webhooks (payload : Payload) : M unit :=
  let* s := get in
  for_each (WEBHOOKS s) (post payload).

Definition log_connection (uuid : pystr) (reason : ConnectionReason)
    (count : option Z) : M unit :=
  emit (LogConnection uuid reason count).

(** [for idx, uuid in enumerate(diff): el.log_connection(...)] *)
Fixpoint log_disconnected (previous_len : Z) (idx : Z) (diff : list pystr) : M unit :=
  match diff with
  | [] => ret tt
  | uuid :: diff' =>
      log_connection uuid DISCONNECTED (Some (previous_len - (idx + 1))) >>
      log_disconnected previous_len (idx + 1) diff'
  end.

(** What the body of the loop tells the loop: go on with the next action, or
    leave the handler ([return]). *)
Inductive Ctl := Next | Return.

(** The body of the loop for an [AddPlayerAction].  The difference of the
    two key sets is gone through in the order of [elements]: Python leaves
    the order of a set open, and it decides only which [count] goes with
    which uuid. *)
Definition handle_add (name uuid : pystr) : M Ctl :=
  let* s := get in
  if negb (Bidict.inv_contains name (PLAYER_LIST s)) then
    let* players := lift (Bidict.inv_setitem name uuid (PLAYER_LIST s)) in
    modify (set_PLAYER_LIST players) >>
    let* s := get in
    (if negb (Bidict.inv_contains name (UUID_CACHE s)) then
       let* cache := lift (Bidict.inv_setitem name uuid (UUID_CACHE s)) in
       modify (set_UUID_CACHE cache)
     else ret tt) >>
    let* s := get in
    (* Initial tablist backfill *)
    if ACCEPT_JOIN_EVENTS s then
      post_to_webhooks (join_payload name uuid) >>
      when (es_enabled config)
        (log_connection uuid CONNECTED (Some (Bidict.len (PLAYER_LIST s)))) >>
      ret Return
    else
      (* The bot's name is sent last after the initial back-fill *)
      (if bool_decide (name = BOT_USERNAME s) then
         modify (set_ACCEPT_JOIN_EVENTS true) >>
         when (es_enabled config)
           (let diff := Bidict.keys (PREVIOUS_PLAYER_LIST s)
                        ∖ Bidict.keys (PLAYER_LIST s) in
            log_disconnected (Bidict.len (PREVIOUS_PLAYER_LIST s)) 0 (elements diff)) >>
         when (es_enabled config)
           (log_connection uuid CONNECTED (Some (Bidict.len (PLAYER_LIST s))))
       else ret tt) >>
      when (es_enabled config) (log_connection uuid SEEN None) >>
      ret Next
  else
    (* Sometimes we get a duplicate add packet on join idk why *)
    ret Return.

(** The body of the loop for a [RemovePlayerAction]. *)
Definition handle_remove (uuid : pystr) : M Ctl :=
  let* name := mc_uuid_to_username uuid in
  post_to_webhooks (leave_payload name uuid) >>
  let* s := get in
  let* cache := lift (Bidict.delitem uuid (UUID_CACHE s)) in
  modify (set_UUID_CACHE cache) >>
  let* s := get in
  let* players := lift (Bidict.delitem uuid (PLAYER_LIST s)) in
  modify (set_PLAYER_LIST players) >>
  let* s := get in
  when (es_enabled config)
    (log_connection uuid DISCONNECTED (Some (Bidict.len (PLAYER_LIST s)))) >>
  ret Next.

Definition handle_action (action : Action) : M Ctl :=
  match action with
  | AddPlayerAction name uuid => handle_add name uuid
  | RemovePlayerAction uuid => handle_remove uuid
  | OtherAction => ret Next
  end.

(** [for action in tab_list_packet.actions: ...] *)
Fixpoint handle_actions (actions : list Action) : M unit :=
  match actions with
  | [] => ret tt
  | action :: rest =>
      let* ctl := handle_action action in
      match ctl with
      | Next => handle_actions rest
      | Return => ret tt
      end
  end.

(** [handle_tab_list(tab_list_packet)] *)
Definition handle_tab_list (actions : list Action) : M unit :=
  handle_actions actions.

(** [handle_disconnect], as far as the globals go: the waiting and the
    reconnecting touch none of them. *)
Definition handle_disconnect : M unit :=
  let* s := get in
  modify (set_PREVIOUS_PLAYER_LIST (Bidict.copy (PLAYER_LIST s))) >>
  modify (set_ACCEPT_JOIN_EVENTS false) >>
  modify (set_PLAYER_LIST Bidict.empty).

(** [handle_join_game] *)
Definition handle_join_game : M unit :=
  modify (set_PLAYER_LIST Bidict.empty).

(* ===================================================================== *)
(** ** Game -> chat: [handle_chat] *)
(* ===================================================================== *)

(** A [ChatMessagePacket]: the raw JSON, the ["text"] of each component of
    its ["extra"] list as [json.loads] gives them ([None] for the list when
    the key is absent, [None] for a component without ["text"]) and the
    position. *)
Record ChatPacket := mkChatPacket {
  json_data : pystr;
  extra : option (list (option pystr));
  position : Z
}.

(** The text a lazy group takes before the first [sep] on the line, and
    what follows [sep]; the dot of a pattern does not match a newline. *)
Fixpoint lazy_until (sep s : pystr) : option (pystr * pystr) :=
  if starts_with sep s then Some ([], drop (length sep) s)
  else
    match s with
    | [] => None
    | c :: s' =>
        if (c =? 10)%N then None
        else match lazy_until sep s' with
             | Some (g, r) => Some (c :: g, r)
             | None => None
             end
    end.

(** What a greedy group takes: the rest of the line. *)
Fixpoint line_rest (s : pystr) : pystr :=
  match s with
  | [] => []
  | c :: s' => if (c =? 10)%N then [] else c :: line_rest s'
  end.

(** The first [re.match] of [handle_chat]: a [<], a lazy group, [> ] and a
    greedy group, anchored at the start of [chat_string]; groups 1 and 2. *)
Definition match_player_chat (chat_string : pystr) : option (pystr * pystr) :=
  match chat_string with
  | c :: s =>
      if (c =? 60)%N then
        match lazy_until (py "> ") s with
        | Some (g1, r) => Some (g1, line_rest r)
        | None => None
        end
      else None
  | [] => None
  end.

(** A literal prefix matched without regard to case ([re.I]). *)
Fixpoint starts_with_ci (p s : pystr) : option pystr :=
  match p, s with
  | [], _ => Some s
  | _ :: _, [] => None
  | a :: p', b :: s' =>
      if (lower_char a =? lower_char b)%N then starts_with_ci p' s' else None
  end.

(** The second [re.match] of [handle_chat]: the bot's name between [<] and
    [> ], a lazy group, a colon and a blank, a greedy group; groups 1 and 2.
    An account name has no character that is special in a pattern. *)
Definition match_bot_chat (bot chat_string : pystr) : option (pystr * pystr) :=
  match starts_with_ci (py "<" ++ bot ++ py "> ") chat_string with
  | Some s =>
      match lazy_until (py ": ") s with
      | Some (g1, r) => Some (g1, line_rest r)
      | None => None
      end
  | None => None
  end.

(** [ChatType(position)] *)
Definition chat_type (position : Z) : M ChatType :=
  if position =? 0 then ret CHAT
  else if position =? 1 then ret SYSTEM
  else if position =? 2 then ret GAME_INFO
  else raise ValueError.

Definition log_raw_message (packet : ChatPacket) : M unit :=
  let* type := chat_type (position packet) in
  emit (LogRawMessage type (json_data packet)).

(** [chat_string += chat_component["text"]] over the components *)
Fixpoint concat_text (components : list (option pystr)) (chat_string : pystr) : M pystr :=
  match components with
  | [] => ret chat_string
  | chat_component :: rest =>
      let* text := unwrap KeyError chat_component in
      concat_text rest (chat_string ++ text)
  end.

Definition chat_payload (name : pystr) (player_uuid : option pystr)
    (message : pystr) : Payload :=
  mkPayload (Some name) (face_url player_uuid) message None.

Definition handle_chat (chat_packet : ChatPacket) : M unit :=
  match extra chat_packet with
  | None => ret tt
  | Some components =>
      let* chat_string := concat_text components [] in
      (* Handle chat message *)
      match match_player_chat chat_string with
      | Some (name, original_message) =>
          let* player_uuid := mc_username_to_uuid name in
          let* s := get in
          if bool_decide (lower name = lower (BOT_USERNAME s)) then
            (* Don't relay our own messages *)
            when (es_enabled config)
              (match match_bot_chat (lower (BOT_USERNAME s)) chat_string with
               | Some (display_name, message) =>
                   let* uuid := mc_username_to_uuid display_name in
                   emit (LogChatMessage uuid display_name message chat_string) >>
                   log_raw_message chat_packet
               | None => ret tt
               end)
          else
            let message :=
              escape_markdown (remove_emoji
                (replace (py "@") (py "@" ++ [8203%N]) (strip original_message))) in
            post_to_webhooks (chat_payload name player_uuid message) >>
            when (es_enabled config)
              (emit (LogChatMessage player_uuid name original_message chat_string)) >>
            when (es_enabled config) (log_raw_message chat_packet)
      | None =>
          when (es_enabled config) (log_raw_message chat_packet)
      end
  end.

(* ===================================================================== *)
(** ** Chat -> game: the linked-account branch of [on_message] *)
(* ===================================================================== *)

(** What the branch reads of the Discord message. *)
Record Message := mkMessage {
  clean_content : pystr;
  author_mention : pystr;
  guild_channel : bool      (* isinstance(message.channel, GuildChannel) *)
}.

(** The reply of the blocked branch: the [try], its [except Forbidden] and
    the [finally: return] that lets nothing out. *)
Definition rate_limited_reply (message : Message) : M unit :=
  let msg := py "Your message " ++ [34%N] ++ clean_content message ++ [34%N]
             ++ py " has been rate-limited." in
  emit (DiscordSend (guild_channel message) msg) >>
  when (reply_forbidden world)
    (emit (DiscordSend false
             (author_mention message ++ py ", please allow private messages from this bot."))).

(** [await webhook.send(...)] *)
Definition send (name avatar text webhook : pystr) : M unit :=
  emit (WebhookSend webhook name avatar text) >>
  if webhook_send world webhook then ret tt else raise HTTPException.

(** The webhooks of one registered channel, as (name, url); [None] when
    listing them raises. *)
Definition send_to_channel (name avatar text : pystr)
    (channel : option (list (pystr * pystr))) : M unit :=
  let* webhooks := unwrap HTTPException channel in
  for_each webhooks (fun webhook =>
    if bool_decide (fst webhook = py "_minecraft")
    then send name avatar text (snd webhook)
    else ret tt).

(** Lines 621-635: the text for the game and the text for the channels, cut
    at the same place when name and text are over the 256 characters of a
    chat message; [None] when the handler returns because no text is
    left. *)
Definition message_forms (name replaced content : pystr) : option (pystr * pystr) :=
  (* Max chat message length: 256, bot username does not count towards this *)
  let padding := 2 + len name in
  let message_to_send := strip (remove_emoji replaced) in
  let message_to_discord := escape_markdown content in
  let total_len := padding + len message_to_send in
  if 256 <? total_len
  then Some (slice_to (256 - padding) message_to_send,
             slice_to (256 - padding) message_to_discord)
  else if len message_to_send <=? 0 then None
  else Some (message_to_send, message_to_discord).

(** Lines 642-643: the condition under which the message is not relayed. *)
Definition rate_limited (s : State) (message_to_send : pystr) (now : Z) : bool :=
  bool_decide (message_to_send = PREVIOUS_MESSAGE s)
  || (now <? NEXT_MESSAGE_TIME s).

(** Lines 616-679 of [on_message]: a message in a relay-enabled channel
    whose author has the linked account [minecraft_uuid].  [channels] is
    what the channel table and the platform list; [now_gate] and
    [now_relay] are the two readings of [datetime.now(timezone.utc)]. *)
Definition on_message_linked (message : Message) (minecraft_uuid : pystr)
    (channels : list (option (list (pystr * pystr))))
    (now_gate now_relay : Z) : M unit :=
  let* minecraft_username := mc_uuid_to_username minecraft_uuid in
  let* name := unwrap TypeError minecraft_username in
  let* replaced := unwrap UnicodeEncodeError (ascii_replace (clean_content message)) in
  match message_forms name replaced (clean_content message) with
  | None => ret tt
  | Some (message_to_send, message_to_discord) =>
      let* s := get in
      if rate_limited s message_to_send now_gate
      then rate_limited_reply message
      else
        modify (set_PREVIOUS_MESSAGE message_to_send) >>
        modify (set_NEXT_MESSAGE_TIME (now_relay + message_delay config)) >>
        for_each channels
          (send_to_channel name (face_url (Some minecraft_uuid)) message_to_discord) >>
        emit (WritePacket (name ++ py ": " ++ message_to_send))
  end.

End Handlers.


(* ===================================================================== *)
(** ** What a run shows: traces, loops, outcomes *)
(* ===================================================================== *)

(** [o], with [t] emitted before it. *)
Definition after {A} (t : list Effect) (o : Out A) : Out A :=
  mkOut (result o) (final o) (t ++ trace o).

(** The trace of a loop that leaves the state alone and that a failing
    body stops. *)
Fixpoint loop_trace {A} (ok : A → bool) (tr : A → list Effect) (l : list A)
    : list Effect :=
  match l with
  | [] => []
  | x :: l' => tr x ++ if ok x then loop_trace ok tr l' else []
  end.

(** The kinds of effect the claims tell apart. *)
Definition http_get (e : Effect) : Prop := ∃ url, e = HttpGet url.

Definition webhook_post (e : Effect) : Prop := ∃ w p, e = WebhookPost w p.

Definition join_post (e : Effect) : Prop :=
  ∃ w name uuid, e = WebhookPost w (join_payload name uuid).

Definition analytics (e : Effect) : Prop :=
  match e with
  | LogConnection _ _ _ | LogChatMessage _ _ _ _ | LogRawMessage _ _ => True
  | _ => False
  end.

(** [e] is the analytics record that [uuid] disconnected. *)
Definition is_disconnected (uuid : pystr) (e : Effect) : bool :=
  match e with
  | LogConnection u DISCONNECTED _ => bool_decide (u = uuid)
  | _ => false
  end.

Fixpoint count_disconnected (uuid : pystr) (t : list Effect) : nat :=
  match t with
  | [] => 0
  | e :: t' => (if is_disconnected uuid e then 1 else 0) + count_disconnected uuid t'
  end.

(** The analytics records of the loop over the players gone. *)
Fixpoint disconnected_logs (previous_len idx : Z) (diff : list pystr) : list Effect :=
  match diff with
  | [] => []
  | uuid :: diff' =>
      LogConnection uuid DISCONNECTED (Some (previous_len - (idx + 1)))
      :: disconnected_logs previous_len (idx + 1) diff'
  end.

(** The cache after the second step of an [AddPlayerAction]. *)
Definition cache_after_add (name uuid : pystr) (cache : bidict) : Exn + bidict :=
  if Bidict.inv_contains name cache then inr cache
  else Bidict.inv_setitem name uuid cache.

(** The name the answer of the name service gives. *)
Definition current_name (mojang_response : list pystr) : option pystr :=
  if 1 <? Z.of_nat (length mojang_response)
  then last mojang_response else head mojang_response.

(** What no action of a tab-list packet changes, and the flag that no
    action resets. *)
Definition kept (s s' : State) : Prop :=
  WEBHOOKS s' = WEBHOOKS s
  ∧ BOT_USERNAME s' = BOT_USERNAME s
  ∧ PREVIOUS_PLAYER_LIST s' = PREVIOUS_PLAYER_LIST s
  ∧ NEXT_MESSAGE_TIME s' = NEXT_MESSAGE_TIME s
  ∧ PREVIOUS_MESSAGE s' = PREVIOUS_MESSAGE s
  ∧ (ACCEPT_JOIN_EVENTS s = true → ACCEPT_JOIN_EVENTS s' = true).

(** The three bidicts of a state are one-to-one. *)
Definition state_wf (s : State) : Prop :=
  Bidict.wf (UUID_CACHE s)
  ∧ Bidict.wf (PLAYER_LIST s)
  ∧ Bidict.wf (PREVIOUS_PLAYER_LIST s).

(** The actions of a backfill: the players the server lists, as (name,
    uuid). *)
Definition adds (players : list (pystr * pystr)) : list Action :=
  (λ p, AddPlayerAction p.1 p.2) <$> players.

(** The string the components of a chat packet spell; [None] when one has
    no text. *)
Fixpoint chat_string_of (components : list (option pystr)) (chat_string : pystr)
    : option pystr :=
  match components with
  | [] => Some chat_string
  | Some text :: rest => chat_string_of rest (chat_string ++ text)
  | None :: _ => None
  end.

Definition is_minecraft_hook (webhook : pystr * pystr) : bool :=
  bool_decide (webhook.1 = py "_minecraft").

Definition hook_sends (name avatar text : pystr) (webhook : pystr * pystr)
    : list Effect :=
  if is_minecraft_hook webhook then [WebhookSend webhook.2 name avatar text] else [].

Section Observations.

Variable world : World.

(** The webhooks a fan-out of [requests.post] reaches: all of them up to
    the first whose post raises, that one included. *)
Fixpoint attempted (webhooks : list pystr) : list pystr :=
  match webhooks with
  | [] => []
  | x :: rest =>
      x :: match requests_post world x with
           | Responded _ => attempted rest
           | PostRaises => []
           end
  end.

Definition responds (webhook : pystr) : bool :=
  match requests_post world webhook with
  | Responded _ => true
  | PostRaises => false
  end.

Definition all_respond (webhooks : list pystr) : bool := forallb responds webhooks.

(** The same for the sends of [on_message], channel by channel. *)
Definition hook_ok (webhook : pystr * pystr) : bool :=
  negb (is_minecraft_hook webhook) || webhook_send world webhook.2.

Definition channel_ok (channel : option (list (pystr * pystr))) : bool :=
  match channel with
  | Some webhooks => forallb hook_ok webhooks
  | None => false
  end.

Definition channel_sends (name avatar text : pystr)
    (channel : option (list (pystr * pystr))) : list Effect :=
  match channel with
  | Some webhooks => loop_trace hook_ok (hook_sends name avatar text) webhooks
  | None => []
  end.


End Observations.

(* ===================================================================== *)
(** ** A server, its players and two relay channels *)
(* ===================================================================== *)

Module Scenario.

Definition bot : pystr := py "Bridge".
Definition bot_uuid : pystr := py "8667ba71-b85a-4004-af54-457a9734eed7".
Definition alice : pystr := py "alice".
Definition alice_uuid : pystr := py "069a79f4-44e9-4726-a5be-fca90e38aaf5".
(** the same uuid as the name service spells it *)
Definition alice_raw : pystr := py "069a79f444e94726a5befca90e38aaf5".
(** the name alice has changed to *)
Definition alicia : pystr := py "alicia".
Definition bob : pystr := py "bob".
Definition bob_uuid : pystr := py "61699b2e-d327-4a01-9f1e-0ea8c3f06bc6".
Definition bob_raw : pystr := py "61699b2ed3274a019f1e0ea8c3f06bc6".

Definition hook1 : pystr := py "https://discord.test/api/webhooks/1/one".
Definition hook2 : pystr := py "https://discord.test/api/webhooks/2/two".

(** [bidict(items)] for items with distinct keys and distinct values *)
Definition bidict_of (items : list (pystr * pystr)) : bidict :=
  Bidict.mk (list_to_map items) (list_to_map (prod_swap <$> items)).

(** analytics off, analytics on *)
Definition quiet : Configuration := mkConfiguration false 1.
Definition logged : Configuration := mkConfiguration true 1.

(** Every endpoint answers; the name service knows bob. *)
Definition online : World :=
  mkWorld (λ _, None)
          (λ name, if bool_decide (name = bob) then Some bob_raw else None)
          (λ _, Responded 204) (λ _, true) false.

(** The first channel's endpoint cannot be reached. *)
Definition hook1_down : World :=
  mkWorld (λ _, None) (λ _, None)
          (λ w, if bool_decide (w = hook1) then PostRaises else Responded 204)
          (λ w, negb (bool_decide (w = hook1))) false.

(** alice has changed her name: the name service now answers for
    [alicia], with alice's uuid. *)
Definition renamed : World :=
  mkWorld (λ u, if bool_decide (u = alice_raw) then Some [alice; alicia] else None)
          (λ name, if bool_decide (name = alicia) then Some alice_raw else None)
          (λ _, Responded 204) (λ _, true) false.

Definition players : bidict := bidict_of [(alice_uuid, alice); (bot_uuid, bot)].

(** The bridge in its session, alice and itself in the tab list. *)
Definition active : State :=
  mkState players [hook1; hook2] bot 0 [] players Bidict.empty true.

(** The backfill after a connect has listed alice; the bot's own name has
    not come yet. *)
Definition backfilling : State :=
  mkState (bidict_of [(alice_uuid, alice)]) [hook1; hook2] bot 0 []
          (bidict_of [(alice_uuid, alice)]) Bidict.empty false.


(** Where [reconnect] stands when the tab-list packet arrives. *)
Definition reconnected : State := final ((handle_disconnect >> handle_join_game) active).

(** The two relay channels, each with its webhook. *)
Definition channels : list (option (list (pystr * pystr))) :=
  [Some [(py "_minecraft", hook1)]; Some [(py "_minecraft", hook2)]].

Definition hi : Message := mkMessage (py "hi") (py "<@42>") true.

(** 300 letters *)
Definition long_message : Message := mkMessage (replicate 300 97%N) (py "<@42>") true.

(** blanks only *)
Definition blank_message : Message := mkMessage (py "   ") (py "<@42>") true.

(** What the server shows of a message the bridge sent for alice, and of a
    message alice typed in the game (the JSON without its quotes). *)
Definition own_chat : ChatPacket :=
  mkChatPacket (py "{extra: [{text: <bridge> alice: hi}], text: }")
               (Some [Some (py "<bridge> alice: hi")]) 0.

Definition alice_chat : ChatPacket :=
  mkChatPacket (py "{extra: [{text: <alice> hello}], text: }")
               (Some [Some (py "<alice> hello")]) 0.

End Scenario.

(* ===================================================================== *)
(** ** More of the script: text helpers *)
(* ===================================================================== *)

(** [strip_colour]: every match of a section sign followed by one character
    is removed; the dot of the pattern does not match a newline, so a
    section sign before a newline, or at the very end, stays. *)
Fixpoint strip_colour (s : pystr) : pystr :=
  match s with
  | [] => []
  | c :: rest =>
      if (c =? 167)%N then
        match rest with
        | [] => [c]
        | d :: rest' =>
            if (d =? 10)%N then c :: d :: strip_colour rest'
            else strip_colour rest'
        end
      else c :: strip_colour rest
  end.

(** What [escape_markdown] makes of one character. *)
Definition escaped_char (c : N) : pystr :=
  if ((c =? 92) || (c =? 95) || (c =? 42))%N then [92%N; c] else [c].

(** An ASCII blank: the characters [str.strip] removes that are still there
    after the decoding as ASCII. *)
Definition ascii_blank (c : N) : bool := (c <? 128)%N && isspace c.

(** An ASCII character or U+FFFD, the replacement character. *)
Definition ascii_or_replacement (c : N) : bool := ((c <? 128) || (c =? 65533))%N.

(** Every [@] of [s] has a zero-width space after it: Discord reads no
    mention from [s]. *)
Fixpoint mentions_broken (s : pystr) : bool :=
  match s with
  | [] => true
  | c :: rest =>
      (if (c =? 64)%N
       then match rest with
            | d :: _ => (d =? 8203)%N
            | [] => false
            end
       else true)
      && mentions_broken rest
  end.

(** A colour code: a section sign with a character other than a newline
    after it. *)
Fixpoint has_colour_code (s : pystr) : bool :=
  match s with
  | [] => false
  | c :: rest =>
      (if (c =? 167)%N
       then match rest with
            | d :: _ => negb (d =? 10)%N
            | [] => false
            end
       else false)
      || has_colour_code rest
  end.

(** The content of the post of [handle_chat] for what a player typed. *)
Definition relay_text (original_message : pystr) : pystr :=
  escape_markdown (remove_emoji
    (replace (py "@") (py "@" ++ [8203%N]) (strip original_message))).

(* ===================================================================== *)
(** ** More of what a run shows *)
(* ===================================================================== *)

(** A bidict with the item [(uuid, name)] entered, and with it taken out. *)
Definition with_item (uuid name : pystr) (b : bidict) : bidict :=
  Bidict.mk (<[uuid := name]> (Bidict.fwdm b)) (<[name := uuid]> (Bidict.invm b)).

Definition without_item (uuid name : pystr) (b : bidict) : bidict :=
  Bidict.mk (delete uuid (Bidict.fwdm b)) (delete name (Bidict.invm b)).

(** The posts of one payload to a list of webhooks. *)
Definition posts_to (webhooks : list pystr) (payload : Payload) : list Effect :=
  (λ x, WebhookPost x payload) <$> webhooks.

(* ===================================================================== *)
(** ** The Discord side: [on_ready] and more of [on_message] *)
(* ===================================================================== *)

(** What these handlers do to the outside world besides the effects above:
    calls of the Discord API and writes to the table of the registered
    channels.  What the table holds is read from the arguments of a
    handler, as the answers of the outside world are. *)
Inductive Call :=
| Did (e : Effect)
    (* an effect of the handlers above *)
| MessageDelete
    (* await message.delete() *)
| CreateWebhook (channel : Z)
    (* await <channel>.create_webhook(name="_minecraft") *)
| AddChannel (channel : Z)
    (* session.add(DiscordChannel(channel)); session.commit() *)
| DeleteChannel (channel : Z).
    (* session.query(DiscordChannel).filter_by(channel_id=channel).delete();
       session.commit() *)

(** What Discord answers to these calls. *)
Record Platform := mkPlatform {
  (** [await message.delete()]: [false] when it raises *)
  message_delete : bool;
  (** [create_webhook] in a channel: the url of the webhook created, [None]
      when the call raises *)
  create_webhook : Z -> option pystr;
  (** [await message.channel.send(msg)] outside a [try]: [false] when it
      raises *)
  channel_send : bool
}.

(** A run of a handler of the Discord side. *)
Record Run (A : Type) := mkRun {
  outcome : Res A;
  state_after : State;
  calls : list Call
}.
Arguments mkRun {A} _ _ _.
Arguments outcome {A} _.
Arguments state_after {A} _.
Arguments calls {A} _.

Definition D (A : Type) : Type := State -> Run A.

Definition pure {A} (a : A) : D A := fun s => mkRun (Ok a) s [].

Definition and_then {A B} (m : D A) (f : A -> D B) : D B := fun s =>
  match m s with
  | mkRun (Ok a) s1 t1 =>
      match f a s1 with
      | mkRun r s2 t2 => mkRun r s2 (t1 ++ t2)
      end
  | mkRun (Raised e) s1 t1 => mkRun (Raised e) s1 t1
  end.

Definition throw {A} (e : Exn) : D A := fun s => mkRun (Raised e) s [].

Definition update (f : State -> State) : D unit := fun s => mkRun (Ok tt) (f s) [].

Definition call (c : Call) : D unit := fun s => mkRun (Ok tt) s [c].

(** A handler of the game side, run from the Discord side. *)
Definition core {A} (m : M A) : D A := fun s =>
  match m s with
  | mkOut r s1 t1 => mkRun r s1 (Did <$> t1)
  end.

Notation "'let+' x ':=' m 'in' k" := (and_then m (fun x => k))
  (at level 10, x name, m at level 100, k at level 200).
Notation "m '>>>' k" := (and_then m (fun _ => k))
  (at level 90, right associativity).

(** [for x in l: body] *)
Fixpoint each {A} (l : list A) (body : A -> D unit) : D unit :=
  match l with
  | [] => pure tt
  | x :: l' => body x >>> each l' body
  end.

Definition set_WEBHOOKS (w : list pystr) (s : State) : State :=
  mkState (UUID_CACHE s) w (BOT_USERNAME s) (NEXT_MESSAGE_TIME s)
          (PREVIOUS_MESSAGE s) (PLAYER_LIST s) (PREVIOUS_PLAYER_LIST s)
          (ACCEPT_JOIN_EVENTS s).

(** [WEBHOOKS.append(url)] *)
Definition append_webhook (url : pystr) : D unit :=
  update (fun s => set_WEBHOOKS (WEBHOOKS s ++ [url]) s).

Section DiscordSide.

Variable config : Configuration.
Variable world : World.
Variable platform : Platform.
(** [config.admin_users] *)
Variable admin_users : list Z.

(** [await message.delete()] *)
Definition delete_message : D unit :=
  call MessageDelete >>>
  if message_delete platform then pure tt else throw HTTPException.

(** [await <channel>.create_webhook(name="_minecraft")]: the url of the
    webhook. *)
Definition create_hook (channel : Z) : D pystr :=
  call (CreateWebhook channel) >>>
  match create_webhook platform channel with
  | Some url => pure url
  | None => throw HTTPException
  end.

(** [await message.channel.send(msg)], outside a [try] *)
Definition channel_reply (msg : pystr) : D unit :=
  call (Did (DiscordSend false msg)) >>>
  if channel_send platform then pure tt else throw HTTPException.

(** A reply in a [try] with its [except Forbidden] and its [finally:
    return], as in [rate_limited_reply]: to the author's DM channel when
    [to_dm], to the channel of the message otherwise. *)
Definition private_reply (to_dm : bool) (mention msg : pystr) : M unit :=
  emit (DiscordSend to_dm msg) >>
  when (reply_forbidden world)
    (emit (DiscordSend false
             (mention ++ py ", please allow private messages from this bot."))).

(** *** [on_ready] *)

(** [for webhook in channel_webhooks: ...]: the webhooks of a channel as
    (name, url); the value is [found]. *)
Fixpoint collect_hooks (channel_webhooks : list (pystr * pystr)) (found : bool)
    : D bool :=
  match channel_webhooks with
  | [] => pure found
  | webhook :: rest =>
      if bool_decide (fst webhook = py "_minecraft")
      then append_webhook (snd webhook) >>> collect_hooks rest true
      else collect_hooks rest found
  end.

(** The body of the loop over the registered channels: the id of a channel
    and its webhooks, [None] when listing them raises.  The channel is one
    the client knows: [get_channel] finds it. *)
Definition on_ready_channel (channel : Z * option (list (pystr * pystr))) : D unit :=
  let+ channel_webhooks :=
    match snd channel with
    | Some webhooks => pure webhooks
    | None => throw HTTPException
    end in
  let+ found := collect_hooks channel_webhooks false in
  if negb found then
    (* Create the hook *)
    let+ _ := create_hook (fst channel) in pure tt
  else pure tt.

(** [on_ready]; [channels] is what the channel table holds. *)
Definition on_ready (channels : list (Z * option (list (pystr * pystr)))) : D unit :=
  update (set_WEBHOOKS []) >>>
  each channels on_ready_channel.

(** *** [on_message]: the commands of the administrators *)

(** Lines 483-520, [mc!chathere].  A channel of a message is a guild channel
    or a private one; [registered] tells whether the channel table has a
    row for [this_channel]. *)
Definition chathere (message : Message) (author_id this_channel : Z)
    (registered : bool) : D unit :=
  if negb (guild_channel message) then
    channel_reply (py "Sorry, this command is only available in public channels.")
  else if negb (bool_decide (author_id ∈ admin_users)) then
    delete_message >>>
    core (private_reply true (author_mention message)
            (py "Sorry, you do not have permission to execute that command!"))
  else if negb registered then
    call (AddChannel this_channel) >>>
    let+ url := create_hook this_channel in
    append_webhook url >>>
    channel_reply
      (py "The bot will now start chatting here! To stop this, run `mc!stopchathere`.")
  else
    channel_reply
      (py "The bot is already chatting in this channel! To stop this, run `mc!stopchathere`.").

(** Lines 522-559, [mc!stopchathere]; [deleted] is the number of rows the
    deletion removes.  The loop [for webhook in message.channel] iterates
    over the channel itself, which is not iterable: a [TypeError]. *)
Definition stopchathere (message : Message) (author_id this_channel : Z)
    (deleted : Z) : D unit :=
  if negb (guild_channel message) then
    channel_reply (py "Sorry, this command is only available in public channels.")
  else if negb (bool_decide (author_id ∈ admin_users)) then
    delete_message >>>
    core (private_reply true (author_mention message)
            (py "Sorry, you do not have permission to execute that command!"))
  else
    call (DeleteChannel this_channel) >>>
    (throw TypeError : D unit) >>>
    if deleted <? 1
    then channel_reply (py "The bot was not chatting here!")
    else channel_reply (py "The bot will no longer here!").

(** *** [on_message]: who is relayed *)

(** Lines 608-704: a message that is no command.  [channel_should_chat]
    tells whether the channel table has a row for the channel of the
    message; [discord_user] is the account of the author in the account
    table, with the uuid of its Minecraft account, if any. *)
Definition on_message_chat (message : Message) (author_bot : bool)
    (channel_should_chat : bool) (discord_user : option (option pystr))
    (channels : list (option (list (pystr * pystr))))
    (now_gate now_relay : Z) : D unit :=
  if negb author_bot then
    if channel_should_chat then
      delete_message >>>
      match discord_user with
      | Some (Some minecraft_uuid) =>
          core (on_message_linked config world message minecraft_uuid channels
                  now_gate now_relay)
      | Some None => pure tt
      | None =>
          core (private_reply (guild_channel message) (author_mention message)
                  (py "Unable to send chat message: there is no Minecraft account linked to this discord account,"
                   ++ py "please run `mc!register`."))
      end
    else pure tt
  else pure tt.

End DiscordSide.

(** The urls [on_ready] takes from the webhooks of a channel. *)
Definition minecraft_urls (webhooks : list (pystr * pystr)) : list pystr :=
  snd <$> List.filter is_minecraft_hook webhooks.

(** The urls it takes from the channels listed, and the channels it creates
    a webhook in. *)
Fixpoint listed_urls (channels : list (Z * option (list (pystr * pystr))))
    : list pystr :=
  match channels with
  | [] => []
  | (_, Some webhooks) :: rest => minecraft_urls webhooks ++ listed_urls rest
  | (_, None) :: rest => listed_urls rest
  end.

Fixpoint lacking (channels : list (Z * option (list (pystr * pystr)))) : list Z :=
  match channels with
  | [] => []
  | (id, Some webhooks) :: rest =>
      if existsb is_minecraft_hook webhooks then lacking rest else id :: lacking rest
  | (_, None) :: rest => lacking rest
  end.

(** The calls that relay a message of Discord. *)
Definition relays (c : Call) : Prop :=
  match c with
  | Did (WritePacket _) | Did (WebhookSend _ _ _ _) => True
  | _ => False
  end.

(** The calls that change what is registered: the channel table and the
    webhooks of a channel. *)
Definition registers (c : Call) : Prop :=
  match c with
  | CreateWebhook _ | AddChannel _ | DeleteChannel _ => True
  | _ => False
  end.

(* ===================================================================== *)
(** ** More of the scenario: the bridge at its start, the Discord side *)
(* ===================================================================== *)

Module Guild.
Import Scenario.

(** The bridge before its first session: nothing cached, nobody listed. *)
Definition starting : State :=
  mkState Bidict.empty [hook1; hook2] bot 0 [] Bidict.empty Bidict.empty false.

(** The name service knows alice, under her uuid without its dashes. *)
Definition named : World :=
  mkWorld (λ u, if bool_decide (u = alice_raw) then Some [alice] else None)
          (λ _, None) (λ _, Responded 204) (λ _, true) false.

(** What the server says when alice joins, and a message of alice that
    pings everyone. *)
Definition server_chat : ChatPacket :=
  mkChatPacket (py "{extra: [{text: alice joined the game}], text: }")
               (Some [Some (py "alice joined the game")]) 1.

Definition ping_chat : ChatPacket :=
  mkChatPacket (py "{extra: [{text: <alice> @everyone hi}], text: }")
               (Some [Some (py "<alice> @everyone hi")]) 0.


(** A lone surrogate in the text. *)
Definition broken : Message := mkMessage [104%N; 55357%N] (py "<@42>") true.

Definition hook3 : pystr := py "https://discord.test/api/webhooks/3/three".

(** Discord does what it is asked; a webhook created is [hook3]. *)
Definition discord : Platform := mkPlatform true (λ _, Some hook3) true.

(** No webhook can be created. *)
Definition no_webhooks : Platform := mkPlatform true (λ _, None) true.

(** The channel table, with what each channel lists: the first channel has
    its webhook, the second a webhook of another name only. *)
Definition registered_channels : list (Z * option (list (pystr * pystr))) :=
  [(1, Some [(py "_minecraft", hook1)]); (2, Some [(py "Captain Hook", hook2)])].

(** [config.admin_users] *)
Definition admins : list Z := [42].

End Guild.

(* ===================================================================== *)
(** ** Facts about [bidict] *)
(* ===================================================================== *)

Module BidictFacts.
Import Bidict.

Lemma wf_empty : wf empty.
Proof. intros k v; cbn. by rewrite !lookup_empty. Qed.

Lemma wf_inverse b : wf b → wf (inverse b).
Proof. intros H k v; cbn. symmetry. apply H. Qed.

Lemma wfb_wf b : wfb b = true → wf b.
Proof.
  unfold wfb. intros [H1 H2]%andb_prop.
  apply bool_decide_eq_true_1 in H1, H2.
  intros k v; split; intros H.
  - exact (H1 k v H).
  - exact (H2 v k H).
Qed.

Lemma setitem_wf k v b b' : wf b → setitem k v b = inr b' → wf b'.
Proof.
  intros Hwf. unfold setitem.
  destruct (fwdm b !! k) as [v'|] eqn:Hk, (invm b !! v) as [k'|] eqn:Hv.
  - case_bool_decide; [|intros [=]]. by intros [= <-].
  - intros [= <-] k0 v0; cbn.
    destruct (decide (k0 = k)) as [->|Hk0], (decide (v0 = v)) as [->|Hv0];
      simplify_map_eq; try done.
    + split; [by intros [= ->]|]. intros H.
      destruct (decide (v0 = v')) as [->|?]; simplify_map_eq.
      apply Hwf in H. congruence.
    + split; [|by intros [= ->]]. intros H. apply Hwf in H. congruence.
    + destruct (decide (v0 = v')) as [->|?]; simplify_map_eq.
      * split; [|done]. intros H. apply Hwf in H, Hk. congruence.
      * apply Hwf.
  - intros [=].
  - intros [= <-] k0 v0; cbn.
    destruct (decide (k0 = k)) as [->|Hk0], (decide (v0 = v)) as [->|Hv0];
      simplify_map_eq; try done.
    all: split; intros H; simplify_eq; try (apply Hwf in H; congruence).
    all: by apply Hwf.
Qed.

Lemma inv_setitem_wf v k b b' : wf b → inv_setitem v k b = inr b' → wf b'.
Proof.
  intros Hwf. unfold inv_setitem.
  destruct (setitem v k (inverse b)) as [e|b1] eqn:H; [intros [=]|].
  intros [= <-]. apply wf_inverse. eapply setitem_wf; [|exact H].
  by apply wf_inverse.
Qed.

Lemma delitem_wf k b b' : wf b → delitem k b = inr b' → wf b'.
Proof.
  intros Hwf. unfold delitem.
  destruct (fwdm b !! k) as [v|] eqn:Hk; [|intros [=]].
  intros [= <-] k0 v0; cbn.
  destruct (decide (k0 = k)) as [->|Hk0], (decide (v0 = v)) as [->|Hv0];
    simplify_map_eq; try done.
  all: split; intros H; simplify_eq; try (apply Hwf in H; congruence).
  all: try (apply Hwf in H, Hk; congruence).
  all: by apply Hwf.
Qed.

Lemma getitem_inv_getitem k v b :
  wf b → getitem k b = Some v → inv_getitem v b = Some k.
Proof. intros Hwf H. by apply Hwf. Qed.

End BidictFacts.

(* ===================================================================== *)
(** ** Running the monad *)
(* ===================================================================== *)

Lemma after_nil {A} (o : Out A) : after [] o = o.
Proof. by destruct o. Qed.

Section MonadFacts.
Context {A B C : Type}.

Lemma bind_run (m : M A) (f : A → M B) s a s1 t1 :
  m s = mkOut (Ok a) s1 t1 → bind m f s = after t1 (f a s1).
Proof. intros H. unfold bind, after. rewrite H. by destruct (f a s1). Qed.

Lemma bind_run_raised (m : M A) (f : A → M B) s e s1 t1 :
  m s = mkOut (Raised e) s1 t1 → bind m f s = mkOut (Raised e) s1 t1.
Proof. intros H. unfold bind. by rewrite H. Qed.

Lemma bind_ret (a : A) (f : A → M B) s : bind (ret a) f s = f a s.
Proof. erewrite bind_run by reflexivity. apply after_nil. Qed.

Lemma bind_raise e (f : A → M B) s : bind (raise e) f s = mkOut (Raised e) s [].
Proof. reflexivity. Qed.

Lemma bind_lift_inr (a : A) (f : A → M B) s : bind (lift (inr a)) f s = f a s.
Proof. apply bind_ret. Qed.

Lemma bind_lift_inl e (f : A → M B) s : bind (lift (inl e)) f s = mkOut (Raised e) s [].
Proof. reflexivity. Qed.

Lemma bind_unwrap_Some e (a : A) (f : A → M B) s : bind (unwrap e (Some a)) f s = f a s.
Proof. apply bind_ret. Qed.

Lemma bind_unwrap_None e (f : A → M B) s :
  bind (unwrap e None) f s = mkOut (Raised e) s [].
Proof. reflexivity. Qed.

Lemma bind_assoc (m : M A) (f : A → M B) (g : B → M C) s :
  bind (bind m f) g s = bind m (λ a, bind (f a) g) s.
Proof.
  unfold bind. destruct (m s) as [[a|e] s1 t1]; [|done].
  destruct (f a s1) as [[b|e] s2 t2]; [|done].
  destruct (g b s2) as [r s3 t3]. by rewrite app_assoc.
Qed.

End MonadFacts.

Section MonadFacts1.
Context {B : Type}.

Lemma bind_get (f : State → M B) s : bind get f s = f s s.
Proof. erewrite bind_run by reflexivity. apply after_nil. Qed.

Lemma bind_modify g (f : unit → M B) s : bind (modify g) f s = f tt (g s).
Proof. erewrite bind_run by reflexivity. apply after_nil. Qed.

Lemma bind_emit e (f : unit → M B) s : bind (emit e) f s = after [e] (f tt s).
Proof. by erewrite bind_run by reflexivity. Qed.

Lemma bind_when_false (m : M unit) (f : unit → M B) s :
  bind (when false m) f s = f tt s.
Proof. apply bind_ret. Qed.

End MonadFacts1.

(** One step of a run: the equation of the first operation of a bind. *)
Ltac mstep :=
  first
    [ rewrite bind_assoc
    | rewrite bind_ret
    | rewrite bind_get
    | rewrite bind_modify
    | rewrite bind_emit
    | rewrite bind_raise
    | rewrite bind_lift_inr
    | rewrite bind_lift_inl
    | rewrite bind_unwrap_Some
    | rewrite bind_unwrap_None
    | rewrite bind_when_false ];
  cbv beta.

Ltac mrun := repeat mstep.

(** Fields of states built by the setters. *)
Ltac sstate :=
  cbn [UUID_CACHE WEBHOOKS BOT_USERNAME NEXT_MESSAGE_TIME PREVIOUS_MESSAGE
       PLAYER_LIST PREVIOUS_PLAYER_LIST ACCEPT_JOIN_EVENTS
       set_UUID_CACHE set_PLAYER_LIST set_PREVIOUS_PLAYER_LIST
       set_ACCEPT_JOIN_EVENTS set_PREVIOUS_MESSAGE set_NEXT_MESSAGE_TIME] in *.

(** Fields of outcomes built by the operations. *)
Ltac sout :=
  unfold after, ret, raise, emit, modify, get;
  cbn [result final trace app when].

Ltac case_if :=
  match goal with
  | |- context [if ?b then _ else _] => destruct b eqn:?
  end.

Ltac case_lift :=
  match goal with
  | |- context [lift ?r] => destruct r eqn:?
  | |- context [unwrap _ ?r] => destruct r eqn:?
  end.

Section Runs.
Context (config : Configuration) (world : World).

Lemma for_each_post payload webhooks s :
  for_each webhooks (post world payload) s =
  mkOut (if all_respond world webhooks then Ok tt else Raised RequestException) s
        ((λ x, WebhookPost x payload) <$> attempted world webhooks).
Proof.
  induction webhooks as [|x rest IH]; [reflexivity|].
  cbn [for_each]. unfold post at 1. mrun.
  cbn [attempted all_respond forallb]. unfold responds at 1.
  destruct (requests_post world x); mrun; [|reflexivity].
  rewrite IH. reflexivity.
Qed.

Lemma post_to_webhooks_run payload s :
  post_to_webhooks world payload s =
  mkOut (if all_respond world (WEBHOOKS s) then Ok tt else Raised RequestException) s
        ((λ x, WebhookPost x payload) <$> attempted world (WEBHOOKS s)).
Proof. unfold post_to_webhooks. mrun. apply for_each_post. Qed.

Lemma log_disconnected_run n idx diff s :
  log_disconnected n idx diff s = mkOut (Ok tt) s (disconnected_logs n idx diff).
Proof.
  revert idx. induction diff as [|u diff IH]; intros idx; [reflexivity|].
  cbn [log_disconnected disconnected_logs]. unfold log_connection. mrun.
  by rewrite IH.
Qed.

Lemma bind_post_to_webhooks {B} payload (f : unit → M B) s :
  bind (post_to_webhooks world payload) f s =
  if all_respond world (WEBHOOKS s)
  then after ((λ x, WebhookPost x payload) <$> attempted world (WEBHOOKS s)) (f tt s)
  else mkOut (Raised RequestException) s
             ((λ x, WebhookPost x payload) <$> attempted world (WEBHOOKS s)).
Proof.
  destruct (all_respond world (WEBHOOKS s)) eqn:H.
  - apply bind_run. by rewrite post_to_webhooks_run, H.
  - apply bind_run_raised. by rewrite post_to_webhooks_run, H.
Qed.

Lemma bind_log_disconnected {B} n idx diff (f : unit → M B) s :
  bind (log_disconnected n idx diff) f s = after (disconnected_logs n idx diff) (f tt s).
Proof. apply bind_run, log_disconnected_run. Qed.

(** Steps of a run through the loops as well. *)
Ltac mauto :=
  repeat first
    [ mstep
    | rewrite bind_post_to_webhooks
    | rewrite bind_log_disconnected
    | progress unfold log_connection
    | progress cbn [when]
    | progress sstate ].

Lemma set_UUID_CACHE_same s : set_UUID_CACHE (UUID_CACHE s) s = s.
Proof. by destruct s. Qed.

(** What an [AddPlayerAction] does once the name is known to be new. *)
Lemma handle_add_new name uuid s :
  Bidict.inv_contains name (PLAYER_LIST s) = false →
  handle_add config world name uuid s =
  match Bidict.inv_setitem name uuid (PLAYER_LIST s) with
  | inl e => mkOut (Raised e) s []
  | inr players =>
      let s1 := set_PLAYER_LIST players s in
      match cache_after_add name uuid (UUID_CACHE s) with
      | inl e => mkOut (Raised e) s1 []
      | inr cache =>
          let s2 := set_UUID_CACHE cache s1 in
          if ACCEPT_JOIN_EVENTS s then
            let posts := (λ x, WebhookPost x (join_payload name uuid))
                           <$> attempted world (WEBHOOKS s) in
            if all_respond world (WEBHOOKS s) then
              mkOut (Ok Return) s2
                (posts ++ if es_enabled config
                          then [LogConnection uuid CONNECTED (Some (Bidict.len players))]
                          else [])
            else mkOut (Raised RequestException) s2 posts
          else if bool_decide (name = BOT_USERNAME s) then
            mkOut (Ok Next) (set_ACCEPT_JOIN_EVENTS true s2)
              (if es_enabled config
               then disconnected_logs (Bidict.len (PREVIOUS_PLAYER_LIST s)) 0
                      (elements (Bidict.keys (PREVIOUS_PLAYER_LIST s) ∖ Bidict.keys players))
                    ++ [LogConnection uuid CONNECTED (Some (Bidict.len players));
                        LogConnection uuid SEEN None]
               else [])
          else
            mkOut (Ok Next) s2
              (if es_enabled config then [LogConnection uuid SEEN None] else [])
      end
  end.
Proof.
  intros Hnew. unfold handle_add, cache_after_add. mrun. rewrite Hnew. cbn [negb].
  destruct (Bidict.inv_setitem name uuid (PLAYER_LIST s)) as [e|players]; mauto;
    [done|].
  destruct (Bidict.inv_contains name (UUID_CACHE s)); cbn [negb]; mauto.
  - replace (set_UUID_CACHE (UUID_CACHE s) (set_PLAYER_LIST players s))
      with (set_PLAYER_LIST players s) by (by destruct s).
    destruct (ACCEPT_JOIN_EVENTS s); mauto.
    + destruct (all_respond world (WEBHOOKS s)); [|done].
      destruct (es_enabled config); mauto; sout; by rewrite ?app_nil_r.
    + destruct (bool_decide (name = BOT_USERNAME s)), (es_enabled config);
        mauto; sout; try done.
  - destruct (Bidict.inv_setitem name uuid (UUID_CACHE s)) as [e|cache]; mauto;
      [done|].
    destruct (ACCEPT_JOIN_EVENTS s); mauto.
    + destruct (all_respond world (WEBHOOKS s)); [|done].
      destruct (es_enabled config); mauto; sout; by rewrite ?app_nil_r.
    + destruct (bool_decide (name = BOT_USERNAME s)), (es_enabled config);
        mauto; sout; try done.
Qed.

(** A name already in the player list ends the handler. *)
Lemma handle_add_duplicate name uuid s :
  Bidict.inv_contains name (PLAYER_LIST s) = true →
  handle_add config world name uuid s = mkOut (Ok Return) s [].
Proof. intros H. unfold handle_add. mrun. by rewrite H. Qed.

(** *** The identity cache *)

Lemma contains_getitem k b :
  Bidict.contains k b = true ↔ ∃ v, Bidict.getitem k b = Some v.
Proof. unfold Bidict.contains, Bidict.getitem. by rewrite bool_decide_eq_true. Qed.

Lemma contains_false k b :
  Bidict.contains k b = false ↔ Bidict.getitem k b = None.
Proof.
  unfold Bidict.contains, Bidict.getitem.
  rewrite bool_decide_eq_false, <- eq_None_not_Some. done.
Qed.

Lemma mc_uuid_to_username_hit uuid name s :
  Bidict.getitem uuid (UUID_CACHE s) = Some name →
  mc_uuid_to_username world uuid s = mkOut (Ok (Some name)) s [].
Proof.
  intros H. unfold mc_uuid_to_username. mrun.
  assert (Bidict.contains uuid (UUID_CACHE s) = true) as ->
    by (apply contains_getitem; eauto).
  cbn [negb]. rewrite H. by mrun.
Qed.

Lemma mc_uuid_to_username_miss uuid s :
  Bidict.contains uuid (UUID_CACHE s) = false →
  mc_uuid_to_username world uuid s =
  let short_uuid := replace (py "-") [] uuid in
  let get := [HttpGet (names_url short_uuid)] in
  match mojang_names world short_uuid with
  | None => mkOut (Ok None) s get
  | Some mojang_response =>
      match current_name mojang_response with
      | None => mkOut (Ok None) s get
      | Some player_username =>
          match Bidict.setitem uuid player_username (UUID_CACHE s) with
          | inl _ => mkOut (Ok None) s get
          | inr cache => mkOut (Ok (Some player_username)) (set_UUID_CACHE cache s) get
          end
      end
  end.
Proof.
  intros H. unfold mc_uuid_to_username, current_name. mrun. rewrite H. cbn [negb].
  unfold try_except. mrun.
  destruct (mojang_names world _) as [resp|]; mrun; [|done].
  destruct (1 <? Z.of_nat (length resp)).
  - destruct (last resp); mrun; [|done].
    destruct (Bidict.setitem _ _ _); by mrun.
  - destruct (head resp); mrun; [|done].
    destruct (Bidict.setitem _ _ _); by mrun.
Qed.

(** A lookup by uuid never raises, touches the cache only and emits
    requests to the name service only. *)
Lemma mc_uuid_to_username_total uuid s :
  ∃ r cache t,
    mc_uuid_to_username world uuid s = mkOut (Ok r) (set_UUID_CACHE cache s) t
    ∧ Forall http_get t.
Proof.
  destruct (Bidict.contains uuid (UUID_CACHE s)) eqn:H.
  - apply contains_getitem in H as [name H].
    exists (Some name), (UUID_CACHE s), [].
    rewrite (mc_uuid_to_username_hit _ _ _ H), set_UUID_CACHE_same. done.
  - rewrite (mc_uuid_to_username_miss _ _ H). cbv zeta.
    assert (Forall http_get [HttpGet (names_url (replace (py "-") [] uuid))])
      by (repeat constructor; by eexists).
    destruct (mojang_names world _) as [resp|];
      [destruct (current_name resp) as [n|];
       [destruct (Bidict.setitem uuid n (UUID_CACHE s)) as [e|cache] eqn:Hs|]|].
    all: try (eexists None, (UUID_CACHE s), _; rewrite set_UUID_CACHE_same; done).
    by eexists (Some n), cache, _.
Qed.

Lemma mc_username_to_uuid_hit name uuid s :
  Bidict.inv_getitem name (UUID_CACHE s) = Some uuid →
  mc_username_to_uuid world name s = mkOut (Ok (Some uuid)) s [].
Proof.
  intros H. unfold mc_username_to_uuid. mrun.
  assert (Bidict.inv_contains name (UUID_CACHE s) = true) as ->
    by (apply contains_getitem; eauto).
  cbn [negb]. rewrite H. by mrun.
Qed.

Lemma mc_username_to_uuid_miss name s :
  Bidict.inv_contains name (UUID_CACHE s) = false →
  mc_username_to_uuid world name s =
  let get := [HttpGet (profile_url name)] in
  match mojang_profile world name with
  | None => mkOut (Ok None) s get
  | Some player_uuid =>
      match uuid_str player_uuid with
      | None => mkOut (Ok None) s get
      | Some long_uuid =>
          match Bidict.inv_setitem name long_uuid (UUID_CACHE s) with
          | inl _ => mkOut (Ok None) s get
          | inr cache => mkOut (Ok (Some player_uuid)) (set_UUID_CACHE cache s) get
          end
      end
  end.
Proof.
  intros H. unfold mc_username_to_uuid. mrun. rewrite H. cbn [negb].
  unfold try_except. mrun.
  destruct (mojang_profile world name) as [raw|]; mrun; [|done].
  destruct (uuid_str raw); mrun; [|done].
  destruct (Bidict.inv_setitem _ _ _); by mrun.
Qed.

Lemma mc_username_to_uuid_total name s :
  ∃ r cache t,
    mc_username_to_uuid world name s = mkOut (Ok r) (set_UUID_CACHE cache s) t
    ∧ Forall http_get t.
Proof.
  destruct (Bidict.inv_contains name (UUID_CACHE s)) eqn:H.
  - apply contains_getitem in H as [uuid H].
    exists (Some uuid), (UUID_CACHE s), [].
    rewrite (mc_username_to_uuid_hit _ _ _ H), set_UUID_CACHE_same. done.
  - rewrite (mc_username_to_uuid_miss _ _ H). cbv zeta.
    assert (Forall http_get [HttpGet (profile_url name)])
      by (repeat constructor; by eexists).
    destruct (mojang_profile world name) as [raw|];
      [destruct (uuid_str raw) as [long|];
       [destruct (Bidict.inv_setitem name long (UUID_CACHE s)) as [e|cache] eqn:Hs|]|].
    all: try (eexists None, (UUID_CACHE s), _; rewrite set_UUID_CACHE_same; done).
    by eexists (Some raw), cache, _.
Qed.

(** *** The presence tracker *)

(** What a [RemovePlayerAction] does, given what the lookup of the name
    did. *)
Lemma handle_remove_run uuid s name cache t :
  mc_uuid_to_username world uuid s = mkOut (Ok name) (set_UUID_CACHE cache s) t →
  handle_remove config world uuid s =
  let posts := (λ x, WebhookPost x (leave_payload name uuid))
                 <$> attempted world (WEBHOOKS s) in
  if all_respond world (WEBHOOKS s) then
    match Bidict.delitem uuid cache with
    | inl e => mkOut (Raised e) (set_UUID_CACHE cache s) (t ++ posts)
    | inr cache' =>
        match Bidict.delitem uuid (PLAYER_LIST s) with
        | inl e => mkOut (Raised e) (set_UUID_CACHE cache' s) (t ++ posts)
        | inr players =>
            mkOut (Ok Next) (set_PLAYER_LIST players (set_UUID_CACHE cache' s))
              (t ++ posts ++
               if es_enabled config
               then [LogConnection uuid DISCONNECTED (Some (Bidict.len players))]
               else [])
        end
    end
  else mkOut (Raised RequestException) (set_UUID_CACHE cache s) (t ++ posts).
Proof.
  intros Hname. unfold handle_remove. rewrite (bind_run _ _ _ _ _ _ Hname).
  mauto. destruct (all_respond world (WEBHOOKS s)); [|by sout].
  mauto. destruct (Bidict.delitem uuid cache) as [e|cache']; mauto;
    [sout; by rewrite app_nil_r|].
  destruct (Bidict.delitem uuid (PLAYER_LIST s)) as [e|players]; mauto;
    [sout; by rewrite app_nil_r|].
  destruct (es_enabled config); mauto; by sout.
Qed.

Lemma handle_add_kept name uuid s :
  kept s (final (handle_add config world name uuid s)).
Proof.
  destruct (Bidict.inv_contains name (PLAYER_LIST s)) eqn:Hdup.
  - by rewrite handle_add_duplicate.
  - rewrite handle_add_new by done. cbv zeta.
    destruct (Bidict.inv_setitem name uuid (PLAYER_LIST s)); [done|].
    destruct (cache_after_add name uuid (UUID_CACHE s)); [done|].
    destruct (ACCEPT_JOIN_EVENTS s) eqn:Hacc.
    + by destruct (all_respond world (WEBHOOKS s)).
    + by destruct (bool_decide _).
Qed.

Lemma handle_remove_kept uuid s :
  kept s (final (handle_remove config world uuid s)).
Proof.
  destruct (mc_uuid_to_username_total uuid s) as (name & cache & t & Hrun & _).
  rewrite (handle_remove_run _ _ _ _ _ Hrun). cbv zeta.
  destruct (all_respond world (WEBHOOKS s)); [|done].
  destruct (Bidict.delitem uuid cache); [done|].
  by destruct (Bidict.delitem uuid (PLAYER_LIST s)).
Qed.

Lemma handle_action_kept action s :
  kept s (final (handle_action config world action s)).
Proof.
  destruct action as [name uuid|uuid|]; cbn [handle_action].
  - apply handle_add_kept.
  - apply handle_remove_kept.
  - done.
Qed.

(** While join events are accepted, an [AddPlayerAction] never lets the loop
    go on. *)
Lemma handle_add_active name uuid s :
  ACCEPT_JOIN_EVENTS s = true →
  result (handle_add config world name uuid s) ≠ Ok Next.
Proof.
  intros Hacc.
  destruct (Bidict.inv_contains name (PLAYER_LIST s)) eqn:Hdup.
  - by rewrite handle_add_duplicate.
  - rewrite handle_add_new by done. cbv zeta. rewrite Hacc.
    destruct (Bidict.inv_setitem name uuid (PLAYER_LIST s)); [done|].
    destruct (cache_after_add name uuid (UUID_CACHE s)); [done|].
    by destruct (all_respond world (WEBHOOKS s)).
Qed.

(** The loop, one action at a time. *)
Lemma handle_actions_cons action rest s :
  handle_actions config world (action :: rest) s =
  match handle_action config world action s with
  | mkOut (Ok Next) s1 t1 => after t1 (handle_actions config world rest s1)
  | mkOut (Ok Return) s1 t1 => mkOut (Ok tt) s1 t1
  | mkOut (Raised e) s1 t1 => mkOut (Raised e) s1 t1
  end.
Proof.
  cbn [handle_actions].
  destruct (handle_action config world action s) as [[[]|e] s1 t1] eqn:H.
  - by rewrite (bind_run _ _ _ _ _ _ H).
  - rewrite (bind_run _ _ _ _ _ _ H). unfold after, ret; cbn. by rewrite app_nil_r.
  - by rewrite (bind_run_raised _ _ _ _ _ _ H).
Qed.

Lemma disconnected_logs_elem n idx diff e :
  e ∈ disconnected_logs n idx diff →
  ∃ uuid count, e = LogConnection uuid DISCONNECTED count ∧ uuid ∈ diff.
Proof.
  revert idx. induction diff as [|u diff IH]; intros idx; cbn.
  - by intros ?%elem_of_nil.
  - intros [->|H]%elem_of_cons.
    + eexists _, _. split; [done|]. by left.
    + destruct (IH _ H) as (u' & c & -> & Hin). eexists _, _. split; [done|]. by right.
Qed.

(** While join events are not accepted, an [AddPlayerAction] posts nothing,
    and the flag is set by the bot's own name only. *)
Lemma handle_add_backfill name uuid s :
  ACCEPT_JOIN_EVENTS s = false →
  (∀ e, e ∈ trace (handle_add config world name uuid s) → ¬ webhook_post e)
  ∧ (name ≠ BOT_USERNAME s →
     ACCEPT_JOIN_EVENTS (final (handle_add config world name uuid s)) = false).
Proof.
  intros Hacc.
  destruct (Bidict.inv_contains name (PLAYER_LIST s)) eqn:Hdup.
  { rewrite handle_add_duplicate by done. cbn. split; [|done].
    by intros e ?%elem_of_nil. }
  rewrite handle_add_new by done. cbv zeta. rewrite Hacc.
  destruct (Bidict.inv_setitem name uuid (PLAYER_LIST s)) as [err|players]; cbn.
  { split; [|done]. by intros e ?%elem_of_nil. }
  destruct (cache_after_add name uuid (UUID_CACHE s)) as [err|cache]; cbn.
  { split; [|done]. by intros e ?%elem_of_nil. }
  case_bool_decide as Hbot; cbn; (split; [|done]); intros e He (w & p & ->);
    destruct (es_enabled config).
  - apply elem_of_app in He as [He|He].
    + by apply disconnected_logs_elem in He as (? & ? & ? & _).
    + apply elem_of_cons in He as [He|He]; [done|].
      by apply list_elem_of_singleton in He.
  - by apply elem_of_nil in He.
  - by apply list_elem_of_singleton in He.
  - by apply elem_of_nil in He.
Qed.

Lemma handle_remove_accept uuid s :
  ACCEPT_JOIN_EVENTS (final (handle_remove config world uuid s)) = ACCEPT_JOIN_EVENTS s.
Proof.
  destruct (mc_uuid_to_username_total uuid s) as (name & cache & t & Hrun & _).
  rewrite (handle_remove_run _ _ _ _ _ Hrun). cbv zeta.
  destruct (all_respond world (WEBHOOKS s)); [|done].
  destruct (Bidict.delitem uuid cache); [done|].
  by destruct (Bidict.delitem uuid (PLAYER_LIST s)).
Qed.

Lemma handle_remove_no_join uuid s e :
  e ∈ trace (handle_remove config world uuid s) → ¬ join_post e.
Proof.
  destruct (mc_uuid_to_username_total uuid s) as (name & cache & t & Hrun & Ht).
  rewrite (handle_remove_run _ _ _ _ _ Hrun). cbv zeta.
  intros He (w & n & u & ->).
  assert (WebhookPost w (join_payload n u) ∈
            t ++ ((λ x, WebhookPost x (leave_payload name uuid))
                    <$> attempted world (WEBHOOKS s))
              ++ [LogConnection uuid DISCONNECTED None] → False) as Hno.
  { intros [H|[H|H]%elem_of_app]%elem_of_app.
    - rewrite Forall_forall in Ht. by destruct (Ht _ H).
    - apply list_elem_of_fmap in H as (x & [=] & _).
    - by apply list_elem_of_singleton in H. }
  destruct (all_respond world (WEBHOOKS s)).
  2:{ cbn in He. apply Hno. rewrite app_assoc. apply elem_of_app. by left. }
  destruct (Bidict.delitem uuid cache) as [?|?].
  { cbn in He. apply Hno. rewrite app_assoc. apply elem_of_app. by left. }
  destruct (Bidict.delitem uuid (PLAYER_LIST s)) as [?|?].
  { cbn in He. apply Hno. rewrite app_assoc. apply elem_of_app. by left. }
  cbn in He. rewrite app_assoc in He. apply elem_of_app in He as [He|He].
  - apply Hno. rewrite app_assoc. apply elem_of_app. by left.
  - destruct (es_enabled config).
    + by apply list_elem_of_singleton in He.
    + by apply elem_of_nil in He.
Qed.

Lemma handle_actions_backfill actions s e :
  ACCEPT_JOIN_EVENTS s = false →
  (∀ uuid, AddPlayerAction (BOT_USERNAME s) uuid ∉ actions) →
  e ∈ trace (handle_actions config world actions s) → ¬ join_post e.
Proof.
  revert s. induction actions as [|action rest IH]; intros s Hacc Hbot.
  { by intros ?%elem_of_nil. }
  rewrite handle_actions_cons.
  assert (∀ e, e ∈ trace (handle_action config world action s) → ¬ join_post e)
    as Hhere.
  { destruct action as [name uuid|uuid|]; cbn [handle_action].
    - intros e' He' (w & n & u & ->).
      apply (proj1 (handle_add_backfill name uuid s Hacc) _ He'). by eexists _, _.
    - apply handle_remove_no_join.
    - by intros e' ?%elem_of_nil. }
  assert (ACCEPT_JOIN_EVENTS (final (handle_action config world action s)) = false)
    as Hacc'.
  { destruct action as [name uuid|uuid|]; cbn [handle_action].
    - apply handle_add_backfill; [done|]. intros ->. apply (Hbot uuid). by left.
    - by rewrite handle_remove_accept.
    - done. }
  pose proof (handle_action_kept action s) as (_ & Hb & _).
  destruct (handle_action config world action s) as [[[]|err] s1 t1];
    cbn in *; try apply Hhere.
  intros [He|He]%elem_of_app; [by apply Hhere|].
  apply (IH s1); [done| |done].
  intros uuid Hin. rewrite Hb in Hin. apply (Hbot uuid). by right.
Qed.

Lemma handle_remove_posts uuid s w rest :
  WEBHOOKS s = w :: rest →
  ∃ name, WebhookPost w (leave_payload name uuid)
          ∈ trace (handle_remove config world uuid s).
Proof.
  intros Hw.
  destruct (mc_uuid_to_username_total uuid s) as (name & cache & t & Hrun & _).
  exists name. rewrite (handle_remove_run _ _ _ _ _ Hrun). cbv zeta.
  rewrite Hw. cbn [attempted fmap list_fmap].
  set (posts := _ :: (_ <$> _)).
  assert (∀ l, WebhookPost w (leave_payload name uuid) ∈ t ++ posts ++ l) as Hin.
  { intros l. apply elem_of_app. right. apply elem_of_app. left. by left. }
  assert (WebhookPost w (leave_payload name uuid) ∈ t ++ posts) as Hin'.
  { apply elem_of_app. right. by left. }
  destruct (all_respond world (w :: rest)); [|done].
  destruct (Bidict.delitem uuid cache); [done|].
  destruct (Bidict.delitem uuid (PLAYER_LIST s)); [done|]. apply Hin.
Qed.

(** *** Players gone while the bridge was away *)

Lemma count_disconnected_app uuid t1 t2 :
  count_disconnected uuid (t1 ++ t2) =
  (count_disconnected uuid t1 + count_disconnected uuid t2)%nat.
Proof. induction t1 as [|e t1 IH]; cbn; [done|]. rewrite IH. lia. Qed.




(** *** The cache keeps what it holds *)

Lemma inv_contains_false v b :
  Bidict.inv_contains v b = false ↔ Bidict.invm b !! v = None.
Proof. unfold Bidict.inv_contains. by rewrite contains_false. Qed.

Lemma inv_setitem_duplicate v k b v0 :
  Bidict.inv_contains v b = false →
  Bidict.getitem k b = Some v0 →
  Bidict.inv_setitem v k b = inl ValueDuplicationError.
Proof.
  rewrite inv_contains_false. unfold Bidict.inv_setitem, Bidict.setitem, Bidict.getitem.
  cbn. by intros -> ->.
Qed.

Lemma inv_setitem_fresh v k b :
  Bidict.inv_contains v b = false →
  Bidict.contains k b = false →
  Bidict.inv_setitem v k b =
  inr (Bidict.mk (<[k := v]> (Bidict.fwdm b)) (<[v := k]> (Bidict.invm b))).
Proof.
  rewrite inv_contains_false, contains_false.
  unfold Bidict.inv_setitem, Bidict.setitem, Bidict.getitem.
  cbn. by intros -> ->.
Qed.

(** A lookup by name that cannot store what the service answers returns
    nothing and leaves the state as it is. *)
Lemma mc_username_to_uuid_duplicate name raw long old s :
  Bidict.inv_contains name (UUID_CACHE s) = false →
  mojang_profile world name = Some raw →
  uuid_str raw = Some long →
  Bidict.getitem long (UUID_CACHE s) = Some old →
  mc_username_to_uuid world name s = mkOut (Ok None) s [HttpGet (profile_url name)].
Proof.
  intros Hnew Hraw Hlong Hold. rewrite mc_username_to_uuid_miss by done. cbv zeta.
  rewrite Hraw, Hlong. by erewrite inv_setitem_duplicate.
Qed.

(** An [AddPlayerAction] never changes the cache when its uuid is cached
    under another name. *)
Lemma handle_add_cache_kept name uuid old s :
  Bidict.getitem uuid (UUID_CACHE s) = Some old →
  name ≠ old →
  UUID_CACHE (final (handle_add config world name uuid s)) = UUID_CACHE s.
Proof.
  intros Hold Hne.
  destruct (Bidict.inv_contains name (PLAYER_LIST s)) eqn:Hdup.
  { by rewrite handle_add_duplicate. }
  rewrite handle_add_new by done. cbv zeta.
  destruct (Bidict.inv_setitem name uuid (PLAYER_LIST s)) as [err|players];
    [by cbn|].
  unfold cache_after_add.
  destruct (Bidict.inv_contains name (UUID_CACHE s)) eqn:Hin.
  - destruct (ACCEPT_JOIN_EVENTS s).
    + by destruct (all_respond world (WEBHOOKS s)).
    + by destruct (bool_decide (name = BOT_USERNAME s)).
  - by erewrite inv_setitem_duplicate.
Qed.

(** With the name in no player list and the uuid cached under another name,
    the action raises. *)
Lemma handle_add_renamed name uuid old s :
  Bidict.getitem uuid (UUID_CACHE s) = Some old →
  Bidict.inv_contains name (UUID_CACHE s) = false →
  Bidict.inv_contains name (PLAYER_LIST s) = false →
  result (handle_add config world name uuid s) = Raised ValueDuplicationError.
Proof.
  intros Hold Hin Hdup. rewrite handle_add_new by done. cbv zeta.
  destruct (Bidict.inv_setitem name uuid (PLAYER_LIST s)) as [err|players] eqn:Hset.
  - revert Hset. apply inv_contains_false in Hdup.
    unfold Bidict.inv_setitem, Bidict.setitem. cbn. rewrite Hdup.
    destruct (Bidict.fwdm (PLAYER_LIST s) !! uuid); by intros [= <-].
  - unfold cache_after_add. rewrite Hin. by erewrite inv_setitem_duplicate.
Qed.



(** *** Loops that leave the state alone *)

Lemma for_each_stateless {A} (body : A → M unit) (ok : A → bool)
    (tr : A → list Effect) (e : Exn) (l : list A) (s : State) :
  (∀ x s, body x s = mkOut (if ok x then Ok tt else Raised e) s (tr x)) →
  for_each l body s =
  mkOut (if forallb ok l then Ok tt else Raised e) s (loop_trace ok tr l).
Proof.
  intros Hbody. induction l as [|x l IH]; [done|]. cbn [for_each forallb loop_trace].
  destruct (ok x) eqn:Hx.
  - erewrite bind_run by (by rewrite Hbody, Hx). rewrite IH. done.
  - erewrite bind_run_raised by (by rewrite Hbody, Hx). cbn. by rewrite app_nil_r.
Qed.

Lemma loop_trace_stops {A} (ok : A → bool) (tr : A → list Effect) l1 x l2 :
  ok x = false →
  loop_trace ok tr (l1 ++ x :: l2) = loop_trace ok tr (l1 ++ [x]).
Proof.
  intros Hx. induction l1 as [|y l1 IH]; cbn; [by rewrite Hx|]. by rewrite IH.
Qed.


(** *** Chat -> game *)

Lemma send_to_channel_run name avatar text channel s :
  send_to_channel world name avatar text channel s =
  mkOut (if channel_ok world channel then Ok tt else Raised HTTPException) s
        (channel_sends world name avatar text channel).
Proof.
  unfold send_to_channel. destruct channel as [webhooks|]; mrun; [|done].
  apply for_each_stateless. intros [hook url] s'.
  unfold hook_ok, hook_sends, is_minecraft_hook, send. cbn [fst snd].
  case_bool_decide; cbn [negb orb]; [|done]. mrun.
  by destruct (webhook_send world url).
Qed.

Lemma fan_out_run name avatar text channels s :
  for_each channels (send_to_channel world name avatar text) s =
  mkOut (if forallb (channel_ok world) channels then Ok tt else Raised HTTPException) s
        (loop_trace (channel_ok world) (channel_sends world name avatar text) channels).
Proof. apply for_each_stateless. intros. apply send_to_channel_run. Qed.



(** The name a lookup returned is the name the cache holds afterwards. *)
Lemma mc_uuid_to_username_cached uuid name s :
  result (mc_uuid_to_username world uuid s) = Ok (Some name) →
  Bidict.getitem uuid (UUID_CACHE (final (mc_uuid_to_username world uuid s))) = Some name.
Proof.
  destruct (Bidict.contains uuid (UUID_CACHE s)) eqn:H.
  - apply contains_getitem in H as [n H].
    rewrite (mc_uuid_to_username_hit _ _ _ H). cbn. congruence.
  - rewrite (mc_uuid_to_username_miss _ _ H). cbv zeta.
    destruct (mojang_names world _) as [resp|]; [|done].
    destruct (current_name resp) as [n|]; [|done].
    destruct (Bidict.setitem uuid n (UUID_CACHE s)) as [err|cache] eqn:Hset; [done|].
    cbn. intros [= <-]. revert Hset. apply contains_false in H.
    unfold Bidict.setitem, Bidict.getitem in *. rewrite H.
    destruct (Bidict.invm (UUID_CACHE s) !! n); [done|].
    intros [= <-]. cbn. by rewrite lookup_insert_eq.
Qed.





(** *** Game -> chat *)

Lemma concat_text_run components chat_string s :
  concat_text components chat_string s =
  mkOut (match chat_string_of components chat_string with
         | Some full => Ok full
         | None => Raised KeyError
         end) s [].
Proof.
  revert chat_string. induction components as [|[text|] rest IH]; intros acc;
    cbn [concat_text chat_string_of]; mrun; [done| |done].
  apply IH.
Qed.

Lemma log_raw_message_trace packet s e :
  e ∈ trace (log_raw_message packet s) → analytics e.
Proof.
  unfold log_raw_message, chat_type.
  repeat case_if; mrun; sout; cbn;
    first [by intros ->%list_elem_of_singleton | by intros ?%elem_of_nil].
Qed.

(** *** The bidicts stay one-to-one *)

Lemma mc_uuid_to_username_wf uuid s :
  state_wf s → state_wf (final (mc_uuid_to_username world uuid s)).
Proof.
  intros (Hcache & Hplayers & Hprevious).
  destruct (Bidict.contains uuid (UUID_CACHE s)) eqn:H.
  - apply contains_getitem in H as [n H]. by rewrite (mc_uuid_to_username_hit _ _ _ H).
  - rewrite (mc_uuid_to_username_miss _ _ H). cbv zeta.
    destruct (mojang_names world _) as [resp|]; [|by unfold state_wf; cbn].
    destruct (current_name resp) as [n|]; [|by unfold state_wf; cbn].
    destruct (Bidict.setitem uuid n (UUID_CACHE s)) as [err|cache] eqn:Hset;
      [by unfold state_wf; cbn|].
    unfold state_wf; cbn. split; [|done].
    exact (BidictFacts.setitem_wf _ _ _ _ Hcache Hset).
Qed.

Lemma mc_username_to_uuid_wf name s :
  state_wf s → state_wf (final (mc_username_to_uuid world name s)).
Proof.
  intros (Hcache & Hplayers & Hprevious).
  destruct (Bidict.inv_contains name (UUID_CACHE s)) eqn:H.
  - apply contains_getitem in H as [u H]. by rewrite (mc_username_to_uuid_hit _ _ _ H).
  - rewrite (mc_username_to_uuid_miss _ _ H). cbv zeta.
    destruct (mojang_profile world name) as [raw|]; [|by unfold state_wf; cbn].
    destruct (uuid_str raw) as [long|]; [|by unfold state_wf; cbn].
    destruct (Bidict.inv_setitem name long (UUID_CACHE s)) as [err|cache] eqn:Hset;
      [by unfold state_wf; cbn|].
    unfold state_wf; cbn. split; [|done].
    exact (BidictFacts.inv_setitem_wf _ _ _ _ Hcache Hset).
Qed.

Lemma handle_add_wf name uuid s :
  state_wf s → state_wf (final (handle_add config world name uuid s)).
Proof.
  intros (Hcache & Hplayers & Hprevious).
  destruct (Bidict.inv_contains name (PLAYER_LIST s)) eqn:Hdup.
  { by rewrite handle_add_duplicate. }
  rewrite handle_add_new by done. cbv zeta.
  destruct (Bidict.inv_setitem name uuid (PLAYER_LIST s)) as [err|players] eqn:Hset;
    [by unfold state_wf; cbn|].
  assert (Bidict.wf players)
    by exact (BidictFacts.inv_setitem_wf _ _ _ _ Hplayers Hset).
  destruct (cache_after_add name uuid (UUID_CACHE s)) as [err|cache] eqn:Hadd;
    [by unfold state_wf; cbn|].
  assert (Bidict.wf cache).
  { unfold cache_after_add in Hadd.
    destruct (Bidict.inv_contains name (UUID_CACHE s)); [by injection Hadd as <-|].
    exact (BidictFacts.inv_setitem_wf _ _ _ _ Hcache Hadd). }
  destruct (ACCEPT_JOIN_EVENTS s).
  - by destruct (all_respond world (WEBHOOKS s)); unfold state_wf; cbn.
  - by destruct (bool_decide (name = BOT_USERNAME s)); unfold state_wf; cbn.
Qed.

Lemma handle_remove_wf uuid s :
  state_wf s → state_wf (final (handle_remove config world uuid s)).
Proof.
  intros Hwf. pose proof (mc_uuid_to_username_wf uuid s Hwf) as Hwf'.
  destruct Hwf as (Hcache & Hplayers & Hprevious).
  destruct (mc_uuid_to_username_total uuid s) as (name & cache & t & Hrun & _).
  rewrite Hrun in Hwf'. destruct Hwf' as (Hcache' & _). cbn in Hcache'.
  rewrite (handle_remove_run _ _ _ _ _ Hrun). cbv zeta.
  destruct (all_respond world (WEBHOOKS s)); [|by unfold state_wf; cbn].
  destruct (Bidict.delitem uuid cache) as [err|cache'] eqn:Hdel;
    [by unfold state_wf; cbn|].
  assert (Bidict.wf cache') by exact (BidictFacts.delitem_wf _ _ _ Hcache' Hdel).
  destruct (Bidict.delitem uuid (PLAYER_LIST s)) as [err|players] eqn:Hdel';
    [by unfold state_wf; cbn|].
  unfold state_wf; cbn. split; [done|]. split; [|done].
  exact (BidictFacts.delitem_wf _ _ _ Hplayers Hdel').
Qed.

(** Whatever a tab-list packet carries and however its handling ends, the
    bidicts are one-to-one afterwards. *)
Lemma handle_tab_list_wf actions s :
  state_wf s → state_wf (final (handle_tab_list config world actions s)).
Proof.
  unfold handle_tab_list. revert s.
  induction actions as [|action rest IH]; intros s Hwf; [done|].
  rewrite handle_actions_cons.
  assert (state_wf (final (handle_action config world action s))) as Hstep.
  { destruct action as [name uuid|uuid|]; cbn [handle_action].
    - by apply handle_add_wf.
    - by apply handle_remove_wf.
    - done. }
  destruct (handle_action config world action s) as [[[]|err] s1 t1];
    try by unfold state_wf; cbn.
  cbn. by apply IH.
Qed.

Lemma handle_disconnect_wf s : state_wf s → state_wf (final (handle_disconnect s)).
Proof.
  intros (Hcache & Hplayers & Hprevious). unfold handle_disconnect. mrun.
  unfold state_wf; cbn. split; [done|]. split; [apply BidictFacts.wf_empty|done].
Qed.

Lemma handle_join_game_wf s : state_wf s → state_wf (final (handle_join_game s)).
Proof.
  intros (Hcache & Hplayers & Hprevious).
  unfold state_wf; cbn. split; [done|]. split; [apply BidictFacts.wf_empty|done].
Qed.

End Runs.

(* ===================================================================== *)
(** ** The presence tracker: join and leave notifications *)
(* ===================================================================== *)

Section Presence.
Context (config : Configuration) (world : World).

(** C1, in the form the code satisfies.  A join notification is posted only
    while join events are accepted: an AddPlayerAction processed while they
    are not posts to no webhook at all, and a packet processed from such a
    state that does not carry the bridge's own name posts no join
    notification.  A leave notification is not gated: a RemovePlayerAction
    posts it to the first webhook at least (and to the webhooks after it,
    as long as no post raises), also while join events are not accepted. *)
Theorem C1_join_posts_gated_leave_posts_not (s : State) :
  ACCEPT_JOIN_EVENTS s = false →
  (∀ name uuid e,
     e ∈ trace (handle_action config world (AddPlayerAction name uuid) s) →
     ¬ webhook_post e)
  ∧ (∀ actions e,
       (∀ uuid, AddPlayerAction (BOT_USERNAME s) uuid ∉ actions) →
       e ∈ trace (handle_tab_list config world actions s) → ¬ join_post e)
  ∧ (∀ uuid w rest,
       WEBHOOKS s = w :: rest →
       ∃ name, WebhookPost w (leave_payload name uuid)
               ∈ trace (handle_action config world (RemovePlayerAction uuid) s)).
Proof.
  intros Hacc. split; [|split].
  - intros name uuid. cbn [handle_action].
    by apply handle_add_backfill.
  - intros actions e Hbot. by apply handle_actions_backfill.
  - intros uuid w rest Hw. cbn [handle_action]. by eapply handle_remove_posts.
Qed.


(** A name already in the player list ends the handling of the packet,
    whatever follows in it. *)
Lemma handle_tab_list_duplicate (name uuid : pystr) (rest : list Action) (s : State) :
  Bidict.inv_contains name (PLAYER_LIST s) = true →
  handle_tab_list config world (AddPlayerAction name uuid :: rest) s =
  mkOut (Ok tt) s [].
Proof.
  intros Hdup. unfold handle_tab_list. rewrite handle_actions_cons.
  cbn [handle_action]. by rewrite handle_add_duplicate.
Qed.

(** C9.  While join events are accepted, an AddPlayerAction ends the
    handling of the packet: what follows it in the packet changes
    nothing. *)
Theorem C9_active_add_ends_the_packet
    (pre rest : list Action) (name uuid : pystr) (s : State) :
  ACCEPT_JOIN_EVENTS s = true →
  handle_tab_list config world (pre ++ AddPlayerAction name uuid :: rest) s =
  handle_tab_list config world (pre ++ [AddPlayerAction name uuid]) s.
Proof.
  unfold handle_tab_list. revert s.
  induction pre as [|action pre IH]; intros s Hacc; cbn [app].
  - rewrite !handle_actions_cons. cbn [handle_action].
    pose proof (handle_add_active config world name uuid s Hacc) as Hnext.
    destruct (handle_add config world name uuid s) as [[[]|e] s1 t1]; by cbn in *.
  - rewrite !handle_actions_cons.
    pose proof (handle_action_kept config world action s) as (_ & _ & _ & _ & _ & Hkeep).
    destruct (handle_action config world action s) as [[[]|e] s1 t1]; try done.
    cbn in Hkeep. by rewrite IH by auto.
Qed.

End Presence.

(** C6, at the failing input: alice is in the player list; the packet adds
    her again and then adds bob.  The handler returns at the first action:
    nothing is raised, the state is as it was, and bob is not added. *)
Theorem C6_duplicate_add_drops_the_rest_of_the_packet :
  let out := handle_tab_list Scenario.quiet Scenario.online
               [AddPlayerAction Scenario.alice Scenario.alice_uuid;
                AddPlayerAction Scenario.bob Scenario.bob_uuid]
               Scenario.active in
  result out = Ok tt
  ∧ final out = Scenario.active
  ∧ trace out = []
  ∧ Bidict.inv_contains Scenario.bob (PLAYER_LIST (final out)) = false.
Proof.
  cbv zeta. rewrite handle_tab_list_duplicate by (vm_compute; reflexivity).
  cbn [result final trace]. split; [done|]. split; [done|]. split; [done|].
  vm_compute. reflexivity.
Qed.

(* ===================================================================== *)
(** ** The identity cache *)
(* ===================================================================== *)

Section Cache.
Context (config : Configuration) (world : World).

(** C4, in the form the code satisfies.  For an identity with a cache entry,
    the name the cache gives resolves back to the identity, with no request
    made.  The entry is never overwritten: when the name service gives the
    identity for another name, [mc_username_to_uuid] stores nothing and
    returns nothing; an AddPlayerAction with another name for the identity
    leaves the cache as it is, and raises when the name is new to the cache
    and to the player list.  The old name keeps resolving both ways. *)
Theorem C4_round_trip_and_entry_kept (s : State) (uuid name : pystr) :
  Bidict.wf (UUID_CACHE s) →
  Bidict.getitem uuid (UUID_CACHE s) = Some name →
  mc_uuid_to_username world uuid s = mkOut (Ok (Some name)) s []
  ∧ mc_username_to_uuid world name s = mkOut (Ok (Some uuid)) s []
  ∧ (∀ new_name raw,
       Bidict.inv_contains new_name (UUID_CACHE s) = false →
       mojang_profile world new_name = Some raw →
       uuid_str raw = Some uuid →
       mc_username_to_uuid world new_name s =
       mkOut (Ok None) s [HttpGet (profile_url new_name)])
  ∧ (∀ new_name,
       new_name ≠ name →
       UUID_CACHE (final (handle_action config world
                            (AddPlayerAction new_name uuid) s)) = UUID_CACHE s)
  ∧ (∀ new_name,
       Bidict.inv_contains new_name (UUID_CACHE s) = false →
       Bidict.inv_contains new_name (PLAYER_LIST s) = false →
       result (handle_action config world (AddPlayerAction new_name uuid) s)
       = Raised ValueDuplicationError).
Proof.
  intros Hwf Hname. split; [|split; [|split; [|split]]].
  - by apply mc_uuid_to_username_hit.
  - apply mc_username_to_uuid_hit. by apply BidictFacts.getitem_inv_getitem.
  - intros new_name raw Hnew Hraw Hlong.
    by eapply mc_username_to_uuid_duplicate.
  - intros new_name Hne. cbn [handle_action]. by eapply handle_add_cache_kept.
  - intros new_name Hcache Hplayers. cbn [handle_action].
    by eapply handle_add_renamed.
Qed.


End Cache.

(* ===================================================================== *)
(** ** The relay, both ways *)
(* ===================================================================== *)

Section Relay.
Context (config : Configuration) (world : World).

Lemma all_respond_spec webhooks :
  all_respond world webhooks = true ↔
  ∀ x, x ∈ webhooks → ∃ status, requests_post world x = Responded status.
Proof.
  unfold all_respond. rewrite forallb_forall. unfold responds. split.
  - intros H x Hx%list_elem_of_In. specialize (H x Hx).
    destruct (requests_post world x); [by eexists|done].
  - intros H x Hx%list_elem_of_In. by destruct (H x Hx) as [status ->].
Qed.

Lemma attempted_all webhooks :
  all_respond world webhooks = true → attempted world webhooks = webhooks.
Proof.
  induction webhooks as [|x rest IH]; cbn; [done|].
  intros [Hx Hrest]%andb_prop. unfold responds in Hx.
  destruct (requests_post world x); [|done]. by rewrite IH.
Qed.

Lemma attempted_stops before w rest :
  all_respond world before = true →
  requests_post world w = PostRaises →
  attempted world (before ++ w :: rest) = before ++ [w]
  ∧ all_respond world (before ++ w :: rest) = false.
Proof.
  intros Hbefore Hw. unfold all_respond in *.
  induction before as [|x before IH]; cbn.
  - unfold responds. by rewrite Hw.
  - cbn in Hbefore. apply andb_prop in Hbefore as [Hx Hbefore].
    destruct (IH Hbefore) as [-> ->]. rewrite Hx. unfold responds in Hx.
    by destruct (requests_post world x).
Qed.

(** C7, in the form the code satisfies.  The fan-outs isolate no call.  Over
    [WEBHOOKS], a post that is answered, whatever the status of the answer,
    lets the posts after it be made; a post that raises ends the loop and
    the handler, and the webhooks after it are not attempted.  In
    [on_message] a channel whose webhooks cannot be listed or whose send
    raises ends the loop in the same way. *)
Theorem C7_fan_out_ends_at_the_first_raise (payload : Payload) (s : State) :
  ((∀ x, x ∈ WEBHOOKS s → ∃ status, requests_post world x = Responded status) →
   post_to_webhooks world payload s =
   mkOut (Ok tt) s ((λ x, WebhookPost x payload) <$> WEBHOOKS s))
  ∧ (∀ before w rest,
       WEBHOOKS s = before ++ w :: rest →
       (∀ x, x ∈ before → ∃ status, requests_post world x = Responded status) →
       requests_post world w = PostRaises →
       post_to_webhooks world payload s =
       mkOut (Raised RequestException) s
             ((λ x, WebhookPost x payload) <$> (before ++ [w])))
  ∧ (∀ name avatar text before channel rest,
       forallb (channel_ok world) before = true →
       channel_ok world channel = false →
       for_each (before ++ channel :: rest)
                (send_to_channel world name avatar text) s =
       mkOut (Raised HTTPException) s
             (loop_trace (channel_ok world) (channel_sends world name avatar text)
                         (before ++ [channel]))).
Proof.
  split; [|split].
  - intros Hall%all_respond_spec.
    by rewrite post_to_webhooks_run, Hall, attempted_all.
  - intros before w rest Hw Hbefore%all_respond_spec Hraise.
    rewrite post_to_webhooks_run, Hw.
    by destruct (attempted_stops before w rest Hbefore Hraise) as [-> ->].
  - intros name avatar text before channel rest Hbefore Hchannel.
    rewrite fan_out_run, loop_trace_stops by done.
    rewrite forallb_app. cbn. by rewrite Hchannel, andb_false_r.
Qed.

(** C8.  A chat event of the shape of a player's message whose speaker is,
    whatever the case of the letters, the bridge's own account is posted to
    no webhook: what the handler does is look identities up and write
    analytics records. *)
Theorem C8_own_messages_are_not_relayed
    (packet : ChatPacket) (components : list (option pystr))
    (chat_string name message : pystr) (s : State) :
  extra packet = Some components →
  chat_string_of components [] = Some chat_string →
  match_player_chat chat_string = Some (name, message) →
  lower name = lower (BOT_USERNAME s) →
  ∀ e, e ∈ trace (handle_chat config world packet s) →
       ¬ webhook_post e ∧ (http_get e ∨ analytics e).
Proof.
  intros Hextra Hstring Hmatch Hown.
  enough (∀ e, e ∈ trace (handle_chat config world packet s) →
               http_get e ∨ analytics e) as Hkind.
  { intros e He. split; [|by apply Hkind]. intros (w & p & ->).
    by destruct (Hkind _ He) as [[url [=]]|[]]. }
  unfold handle_chat. rewrite Hextra.
  erewrite bind_run by (by rewrite concat_text_run, Hstring).
  rewrite after_nil, Hmatch.
  destruct (mc_username_to_uuid_total world name s) as (r & cache & t & Hrun & Ht).
  rewrite (bind_run _ _ _ _ _ _ Hrun). mrun. sstate.
  rewrite bool_decide_eq_true_2 by done.
  rewrite Forall_forall in Ht.
  destruct (es_enabled config); cbn [when].
  2:{ unfold after, ret; cbn. rewrite app_nil_r. auto. }
  destruct (match_bot_chat _ _) as [[display_name text]|].
  2:{ unfold after, ret; cbn. rewrite app_nil_r. auto. }
  destruct (mc_username_to_uuid_total world display_name (set_UUID_CACHE cache s))
    as (r2 & cache2 & t2 & Hrun2 & Ht2).
  rewrite Forall_forall in Ht2.
  rewrite (bind_run _ _ _ _ _ _ Hrun2). mrun. unfold after; cbn.
  intros e [He|[He|[->|He]%elem_of_cons]%elem_of_app]%elem_of_app; auto.
  - by right.
  - right. by eapply log_raw_message_trace.
Qed.

End Relay.

Section Throttle.
Context (config : Configuration) (world : World).




(** What the lookup of the linked account's name leaves behind. *)
Lemma linked_name_run uuid name s :
  result (mc_uuid_to_username world uuid s) = Ok (Some name) →
  ∃ cache t,
    mc_uuid_to_username world uuid s =
    mkOut (Ok (Some name)) (set_UUID_CACHE cache s) t
    ∧ Forall http_get t
    ∧ Bidict.getitem uuid cache = Some name.
Proof.
  intros Hname. pose proof (mc_uuid_to_username_cached world uuid name s Hname) as Hc.
  destruct (mc_uuid_to_username_total world uuid s) as (r & cache & t & Hrun & Ht).
  rewrite Hrun in Hname, Hc. cbn in Hname, Hc. injection Hname as ->.
  by exists cache, t.
Qed.



End Throttle.

(* ===================================================================== *)
(** ** The claims on the scenario *)
(* ===================================================================== *)

Section OnTheScenario.
Import Scenario.

(** *** The model on small inputs *)

Example uuid_str_of_digits : uuid_str alice_raw = Some alice_uuid.
Proof. vm_compute. reflexivity. Qed.

Example uuid_str_of_braces_and_capitals :
  uuid_str (py "{069A79F4-44E9-4726-A5BE-FCA90E38AAF5}") = Some alice_uuid.
Proof. vm_compute. reflexivity. Qed.

Example uuid_str_of_too_few_digits : uuid_str (py "069a79f4") = None.
Proof. vm_compute. reflexivity. Qed.

Example escape_markdown_backslash_first :
  escape_markdown (py "a_b*c\d") = py "a\_b\*c\\d".
Proof. vm_compute. reflexivity. Qed.

Example strip_keeps_inner_blanks : strip (py "  hi there ") = py "hi there".
Proof. vm_compute. reflexivity. Qed.

Example slice_to_negative : slice_to (-2) (py "hello") = py "hel".
Proof. vm_compute. reflexivity. Qed.

Example ascii_replace_two_bytes : ascii_replace [233%N] = Some [65533%N; 65533%N].
Proof. vm_compute. reflexivity. Qed.

Example remove_emoji_face : remove_emoji (py "a" ++ [128512%N] ++ py "b") = py "ab".
Proof. vm_compute. reflexivity. Qed.

Example match_player_chat_of_a_player :
  match_player_chat (py "<alice> hello") = Some (alice, py "hello").
Proof. vm_compute. reflexivity. Qed.

Example match_player_chat_of_the_server :
  match_player_chat (py "alice joined the game") = None.
Proof. vm_compute. reflexivity. Qed.

Example match_bot_chat_of_a_relayed_message :
  match_bot_chat (lower bot) (py "<Bridge> alice: hi") = Some (alice, py "hi").
Proof. vm_compute. reflexivity. Qed.

Example join_announced_while_active :
  trace (handle_tab_list quiet online [AddPlayerAction bob bob_uuid] active)
  = [WebhookPost hook1 (join_payload bob bob_uuid);
     WebhookPost hook2 (join_payload bob bob_uuid)].
Proof. vm_compute. reflexivity. Qed.

Example join_silent_while_backfilling :
  trace (handle_tab_list quiet online [AddPlayerAction bob bob_uuid] backfilling) = [].
Proof. vm_compute. reflexivity. Qed.

Example blank_message_dropped :
  let out := on_message_linked quiet online blank_message alice_uuid channels
               10 10 active in
  result out = Ok tt ∧ trace out = []
  ∧ PREVIOUS_MESSAGE (final out) = PREVIOUS_MESSAGE active.
Proof. cbv zeta. repeat split; vm_compute; reflexivity. Qed.

Example long_message_cut_to_fit :
  let out := on_message_linked quiet online long_message alice_uuid channels
               10 10 active in
  trace out
  = [WebhookSend hook1 alice (face_url (Some alice_uuid)) (replicate 249 97%N);
     WebhookSend hook2 alice (face_url (Some alice_uuid)) (replicate 249 97%N);
     WritePacket (py "alice: " ++ replicate 249 97%N)].
Proof. vm_compute. reflexivity. Qed.

(** During a backfill a RemovePlayerAction is announced on both channels. *)
Lemma C1_leave_posted_while_backfilling :
  ACCEPT_JOIN_EVENTS backfilling = false
  ∧ trace (handle_tab_list quiet online [RemovePlayerAction alice_uuid] backfilling)
    = [WebhookPost hook1 (leave_payload (Some alice) alice_uuid);
       WebhookPost hook2 (leave_payload (Some alice) alice_uuid)].
Proof. split; vm_compute; reflexivity. Qed.

Lemma C1_witness :
  ACCEPT_JOIN_EVENTS backfilling = false
  ∧ ((∀ name uuid e,
        e ∈ trace (handle_action quiet online (AddPlayerAction name uuid) backfilling) →
        ¬ webhook_post e)
     ∧ (∀ actions e,
          (∀ uuid, AddPlayerAction (BOT_USERNAME backfilling) uuid ∉ actions) →
          e ∈ trace (handle_tab_list quiet online actions backfilling) → ¬ join_post e)
     ∧ (∀ uuid w rest,
          WEBHOOKS backfilling = w :: rest →
          ∃ name, WebhookPost w (leave_payload name uuid)
                  ∈ trace (handle_action quiet online (RemovePlayerAction uuid)
                             backfilling))).
Proof.
  split; [reflexivity|].
  apply (C1_join_posts_gated_leave_posts_not quiet online backfilling). reflexivity.
Defined.





(** alice is cached; the name service now knows her as alicia.  Neither a
    lookup of the new name nor the backfill that lists her under it changes
    what the cache answers. *)
Lemma C4_renamed_identity_keeps_its_old_name :
  let looked_up := mc_username_to_uuid renamed alicia active in
  let listed := handle_tab_list quiet renamed [AddPlayerAction alicia alice_uuid]
                  reconnected in
  result looked_up = Ok None
  ∧ result (mc_uuid_to_username renamed alice_uuid (final looked_up)) = Ok (Some alice)
  ∧ result (mc_username_to_uuid renamed alice (final looked_up)) = Ok (Some alice_uuid)
  ∧ result listed = Raised ValueDuplicationError
  ∧ result (mc_uuid_to_username renamed alice_uuid (final listed)) = Ok (Some alice)
  ∧ result (mc_username_to_uuid renamed alice (final listed)) = Ok (Some alice_uuid).
Proof. cbv zeta. repeat split; vm_compute; reflexivity. Qed.

Lemma C4_witness :
  Bidict.wf (UUID_CACHE active)
  ∧ Bidict.getitem alice_uuid (UUID_CACHE active) = Some alice
  ∧ (mc_uuid_to_username renamed alice_uuid active = mkOut (Ok (Some alice)) active []
     ∧ mc_username_to_uuid renamed alice active = mkOut (Ok (Some alice_uuid)) active []
     ∧ (∀ new_name raw,
          Bidict.inv_contains new_name (UUID_CACHE active) = false →
          mojang_profile renamed new_name = Some raw →
          uuid_str raw = Some alice_uuid →
          mc_username_to_uuid renamed new_name active =
          mkOut (Ok None) active [HttpGet (profile_url new_name)])
     ∧ (∀ new_name,
          new_name ≠ alice →
          UUID_CACHE (final (handle_action quiet renamed
                               (AddPlayerAction new_name alice_uuid) active))
          = UUID_CACHE active)
     ∧ (∀ new_name,
          Bidict.inv_contains new_name (UUID_CACHE active) = false →
          Bidict.inv_contains new_name (PLAYER_LIST active) = false →
          result (handle_action quiet renamed
                    (AddPlayerAction new_name alice_uuid) active)
          = Raised ValueDuplicationError)).
Proof.
  assert (Bidict.wf (UUID_CACHE active)) as Hwf
    by (apply BidictFacts.wfb_wf; vm_compute; reflexivity).
  split; [exact Hwf|]. split; [vm_compute; reflexivity|].
  apply (C4_round_trip_and_entry_kept quiet renamed active alice_uuid alice Hwf).
  vm_compute; reflexivity.
Defined.


(** The first channel's endpoint is down: the message of alice is posted to
    it and to no other, though the second would have answered. *)
Lemma C7_second_channel_not_attempted :
  let out := handle_chat quiet hook1_down alice_chat active in
  WEBHOOKS active = [hook1; hook2]
  ∧ requests_post hook1_down hook2 = Responded 204
  ∧ result out = Raised RequestException
  ∧ trace out = [WebhookPost hook1 (chat_payload alice (Some alice_uuid) (py "hello"))].
Proof. cbv zeta. repeat split; vm_compute; reflexivity. Qed.

Lemma C7_witness :
  WEBHOOKS active = [] ++ hook1 :: [hook2]
  ∧ requests_post hook1_down hook1 = PostRaises
  ∧ post_to_webhooks hook1_down (chat_payload alice (Some alice_uuid) (py "hello")) active
    = mkOut (Raised RequestException) active
        ((λ x, WebhookPost x (chat_payload alice (Some alice_uuid) (py "hello")))
           <$> ([] ++ [hook1])).
Proof.
  split; [reflexivity|]. split; [vm_compute; reflexivity|].
  apply (proj1 (proj2 (C7_fan_out_ends_at_the_first_raise hook1_down
                         (chat_payload alice (Some alice_uuid) (py "hello")) active))
           [] hook1 [hook2]).
  - reflexivity.
  - by intros x ?%elem_of_nil.
  - vm_compute; reflexivity.
Defined.

Lemma C8_witness :
  extra own_chat = Some [Some (py "<bridge> alice: hi")]
  ∧ chat_string_of [Some (py "<bridge> alice: hi")] [] = Some (py "<bridge> alice: hi")
  ∧ match_player_chat (py "<bridge> alice: hi") = Some (py "bridge", py "alice: hi")
  ∧ lower (py "bridge") = lower (BOT_USERNAME active)
  ∧ ∀ e, e ∈ trace (handle_chat logged online own_chat active) →
         ¬ webhook_post e ∧ (http_get e ∨ analytics e).
Proof.
  split; [reflexivity|]. split; [vm_compute; reflexivity|].
  split; [vm_compute; reflexivity|]. split; [vm_compute; reflexivity|].
  apply (C8_own_messages_are_not_relayed logged online own_chat
           [Some (py "<bridge> alice: hi")] (py "<bridge> alice: hi")
           (py "bridge") (py "alice: hi") active); vm_compute; reflexivity.
Defined.

Lemma C9_witness :
  ACCEPT_JOIN_EVENTS active = true
  ∧ handle_tab_list quiet online
      ([RemovePlayerAction alice_uuid]
         ++ AddPlayerAction bob bob_uuid :: [AddPlayerAction alice alice_uuid]) active
    = handle_tab_list quiet online
        ([RemovePlayerAction alice_uuid] ++ [AddPlayerAction bob bob_uuid]) active.
Proof.
  split; [reflexivity|].
  apply (C9_active_add_ends_the_packet quiet online
           [RemovePlayerAction alice_uuid] [AddPlayerAction alice alice_uuid]
           bob bob_uuid active).
  reflexivity.
Defined.



End OnTheScenario.

(* ===================================================================== *)
(** ** Text helpers, character by character *)
(* ===================================================================== *)

Lemma replace_char c new s :
  replace [c] new s = s ≫= (λ x, if (c =? x)%N then new else [x]).
Proof.
  unfold replace. induction s as [|x s IH]; [done|].
  cbn [replace_from starts_with length Nat.pred]. rewrite bind_cons, andb_true_r.
  destruct (c =? x)%N; by rewrite IH.
Qed.

Lemma escape_markdown_bind s : escape_markdown s = s ≫= escaped_char.
Proof.
  unfold escape_markdown. cbv zeta. rewrite !replace_char.
  induction s as [|x s IH]; [done|].
  rewrite !bind_cons. rewrite !bind_app, IH. f_equal.
  unfold escaped_char. rewrite !(N.eqb_sym x).
  destruct (92 =? x)%N eqn:E1.
  { apply N.eqb_eq in E1 as <-. reflexivity. }
  cbn [mbind list_bind app]; rewrite ?app_nil_r.
  destruct (95 =? x)%N eqn:E2.
  { apply N.eqb_eq in E2 as <-. reflexivity. }
  cbn [mbind list_bind app]; rewrite ?app_nil_r.
  destruct (42 =? x)%N eqn:E3; [|done].
  by apply N.eqb_eq in E3 as <-.
Qed.

(** X1.  [escape_markdown] works character by character: a backslash, an
    underscore and an asterisk each get one backslash before them, every
    other character is kept, and nothing else is added (the backslashes
    added for [_] and [*] are not escaped again).  So the escaping of a
    concatenation is the concatenation of the escapings, and the result is
    longer than the input by the number of the three characters in it. *)
Theorem X1_escape_markdown_character_by_character (s t : pystr) :
  escape_markdown s = s ≫= escaped_char
  ∧ escape_markdown (s ++ t) = escape_markdown s ++ escape_markdown t
  ∧ length (escape_markdown s)
    = (length s
       + length (List.filter (λ c, (c =? 92) || (c =? 95) || (c =? 42))%N s))%nat.
Proof.
  split; [apply escape_markdown_bind|]. split.
  - rewrite !escape_markdown_bind. apply bind_app.
  - rewrite escape_markdown_bind.
    induction s as [|x s IH]; [done|].
    rewrite bind_cons, length_app, IH. cbn [List.filter length]. unfold escaped_char.
    destruct (_ || _)%N; cbn [length]; lia.
Qed.

(** *** After the decoding as ASCII *)

Lemma ascii_replace_char_spec c x :
  ascii_replace_char c = Some x →
  forallb ascii_or_replacement x = true
  ∧ length x = utf8_width c
  ∧ (forallb isspace x = true ↔ ascii_blank c = true).
Proof.
  unfold ascii_replace_char, ascii_blank, utf8_width.
  destruct (c <? 128)%N eqn:Hc.
  - intros [= <-]. cbn. unfold ascii_or_replacement. rewrite Hc. cbn.
    by rewrite andb_true_r.
  - destruct (is_surrogate c); [done|]. intros [= <-].
    split; [|split].
    + by repeat case_match.
    + by rewrite length_replicate.
    + by repeat case_match.
Qed.

Lemma ascii_replace_spec s r :
  ascii_replace s = Some r →
  forallb ascii_or_replacement r = true
  ∧ length r = sum_list (utf8_width <$> s)
  ∧ (forallb isspace r = true ↔ forallb ascii_blank s = true).
Proof.
  revert r. induction s as [|c s IH]; intros r; cbn [ascii_replace].
  { by intros [= <-]. }
  destruct (ascii_replace_char c) as [x|] eqn:Hx; [|done].
  destruct (ascii_replace s) as [r'|]; [|done]. intros [= <-].
  destruct (ascii_replace_char_spec _ _ Hx) as (H1 & H2 & H3).
  destruct (IH _ eq_refl) as (IH1 & IH2 & IH3).
  rewrite !forallb_app, length_app. cbn [fmap list_fmap sum_list forallb].
  rewrite H1, IH1, H2, IH2. split; [done|]. split; [done|].
  rewrite !andb_true_iff. by rewrite H3, IH3.
Qed.

Lemma remove_emoji_plain r :
  forallb ascii_or_replacement r = true → remove_emoji r = r.
Proof.
  unfold remove_emoji. induction r as [|c r IH]; [done|]. cbn [forallb List.filter].
  intros [Hc Hr]%andb_prop. rewrite (IH Hr).
  assert (is_emoji c = false) as ->; [|done].
  unfold ascii_or_replacement in Hc. apply orb_prop in Hc as [Hc%N.ltb_lt|Hc%N.eqb_eq].
  - unfold is_emoji.
    rewrite !(proj2 (N.leb_gt _ c)) by lia. done.
  - by subst c.
Qed.

(** X2.  In the text for the game, [remove_emoji] has nothing left to
    remove: after [encode('utf-8').decode('ascii', 'replace')] every
    character is an ASCII character or U+FFFD, a character outside ASCII
    (an emoji as well) having become as many U+FFFD as its UTF-8 encoding
    has bytes. *)
Theorem X2_nothing_left_for_remove_emoji (s r : pystr) :
  ascii_replace s = Some r →
  remove_emoji r = r
  ∧ forallb ascii_or_replacement r = true
  ∧ length r = sum_list (utf8_width <$> s).
Proof.
  intros (H1 & H2 & _)%ascii_replace_spec. split; [|done].
  by apply remove_emoji_plain.
Qed.

(** *** [strip] *)

Lemma lstrip_nil l : lstrip l = [] ↔ forallb isspace l = true.
Proof.
  induction l as [|c l IH]; [done|]. cbn [lstrip forallb].
  destruct (isspace c); [done|]. cbn. split; [done|intros [=]].
Qed.

Lemma lstrip_head l :
  forallb isspace (lstrip l) = true → lstrip l = [].
Proof.
  induction l as [|c l IH]; [done|]. cbn [lstrip].
  destruct (isspace c) eqn:Hc; [done|]. cbn [forallb]. by rewrite Hc.
Qed.

Lemma forallb_rev {A} (f : A → bool) l : forallb f (rev l) = forallb f l.
Proof.
  induction l as [|x l IH]; [done|]. cbn [rev forallb].
  rewrite forallb_app, IH. cbn. by rewrite andb_true_r, andb_comm.
Qed.

Lemma rstrip_nil l : rstrip l = [] ↔ forallb isspace l = true.
Proof.
  unfold rstrip. rewrite <- (forallb_rev isspace l), <- lstrip_nil.
  split; [|by intros ->].
  intros H. apply (f_equal (@rev N)) in H. by rewrite rev_involutive in H.
Qed.

Lemma strip_nil l : strip l = [] ↔ forallb isspace l = true.
Proof.
  unfold strip. rewrite rstrip_nil. split.
  - intros H%lstrip_head. by apply lstrip_nil.
  - intros H%lstrip_nil. by rewrite H.
Qed.

(** X3.  Which messages are dropped.  For a sender whose name fits, the
    text of a message is dropped (no text is left for the game) exactly
    when every character of it is an ASCII blank.  A blank outside ASCII,
    such as a no-break space, is not stripped: it has become U+FFFD by
    then, and the message is relayed. *)
Theorem X3_dropped_exactly_when_all_ascii_blanks (name content replaced : pystr) :
  ascii_replace content = Some replaced →
  2 + len name ≤ 256 →
  message_forms name replaced content = None ↔ forallb ascii_blank content = true.
Proof.
  intros Hrep Hname.
  destruct (ascii_replace_spec _ _ Hrep) as (Hplain & _ & Hblank).
  unfold message_forms. cbv zeta. rewrite (remove_emoji_plain _ Hplain).
  rewrite <- Hblank, <- strip_nil.
  destruct (strip replaced) as [|c l] eqn:Hs.
  - change (len []) with 0. rewrite (proj2 (Z.ltb_ge _ _)) by lia. done.
  - destruct (256 <? _); [done|]. unfold len. cbn [length].
    rewrite (proj2 (Z.leb_gt _ _)) by lia. done.
Qed.

(** *** [strip_colour] *)

Lemma strip_colour_other c s :
  (c =? 167)%N = false → strip_colour (c :: s) = c :: strip_colour s.
Proof. intros H. cbn [strip_colour]. by rewrite H. Qed.

Lemma strip_colour_code d s :
  (d =? 10)%N = false → strip_colour (167%N :: d :: s) = strip_colour s.
Proof. intros H. cbn [strip_colour]. by rewrite H. Qed.

Lemma strip_colour_newline s :
  strip_colour (167%N :: 10%N :: s) = 167%N :: 10%N :: strip_colour s.
Proof. reflexivity. Qed.

(** The three ways a text starts, for an induction that follows the
    matches of the pattern. *)
Lemma strip_colour_ind (P : pystr → Prop) :
  P [] → P [167%N] →
  (∀ d s, (d =? 10)%N = false → P s → P (167%N :: d :: s)) →
  (∀ s, P s → P (167%N :: 10%N :: s)) →
  (∀ c s, (c =? 167)%N = false → P s → P (c :: s)) →
  ∀ s, P s.
Proof.
  intros Hnil Hone Hcode Hnl Hother s.
  enough (∀ n s, (length s ≤ n)%nat → P s) as H by (by apply (H (length s))).
  clear s. intros n. induction n as [|n IH]; intros [|c s] Hlen; cbn in Hlen;
    try lia; try done.
  destruct (c =? 167)%N eqn:Hc.
  - apply N.eqb_eq in Hc as ->. destruct s as [|d s]; [done|]. cbn in Hlen.
    destruct (d =? 10)%N eqn:Hd.
    + apply N.eqb_eq in Hd as ->. apply Hnl, IH. lia.
    + apply Hcode; [done|]. apply IH. lia.
  - apply Hother; [done|]. apply IH. lia.
Qed.

Lemma has_colour_code_other c s :
  (c =? 167)%N = false → has_colour_code (c :: s) = has_colour_code s.
Proof. intros H. cbn [has_colour_code]. by rewrite H. Qed.

Lemma strip_colour_clean s : has_colour_code (strip_colour s) = false.
Proof.
  induction s as [| |d s Hd IH|s IH|c s Hc IH] using strip_colour_ind.
  - done.
  - done.
  - by rewrite strip_colour_code.
  - rewrite strip_colour_newline. cbn [has_colour_code].
    change (167 =? 167)%N with true. change (10 =? 10)%N with true.
    change (10 =? 167)%N with false. cbn. done.
  - by rewrite strip_colour_other, has_colour_code_other.
Qed.

Lemma strip_colour_id s : has_colour_code s = false → strip_colour s = s.
Proof.
  induction s as [| |d s Hd IH|s IH|c s Hc IH] using strip_colour_ind.
  - done.
  - done.
  - cbn [has_colour_code]. change (167 =? 167)%N with true. by rewrite Hd.
  - rewrite strip_colour_newline. cbn [has_colour_code].
    change (167 =? 167)%N with true. change (10 =? 10)%N with true.
    change (10 =? 167)%N with false. cbn [negb orb]. by intros ->%IH.
  - rewrite strip_colour_other, has_colour_code_other by done. by intros ->%IH.
Qed.

Lemma strip_colour_length s : (length (strip_colour s) ≤ length s)%nat.
Proof.
  induction s as [| |d s Hd IH|s IH|c s Hc IH] using strip_colour_ind.
  - done.
  - done.
  - rewrite strip_colour_code by done. cbn [length]. lia.
  - rewrite strip_colour_newline. cbn [length]. lia.
  - rewrite strip_colour_other by done. cbn [length]. lia.
Qed.

(** X4.  [strip_colour] leaves no colour code: in its result a section sign
    is followed by a newline or by nothing.  So it changes nothing when
    applied again, it leaves a text without colour codes as it is, and its
    result is never longer than the text. *)
Theorem X4_strip_colour_leaves_no_colour_code (s : pystr) :
  has_colour_code (strip_colour s) = false
  ∧ strip_colour (strip_colour s) = strip_colour s
  ∧ (has_colour_code s = false → strip_colour s = s)
  ∧ (length (strip_colour s) ≤ length s)%nat.
Proof.
  pose proof (strip_colour_clean s) as Hclean.
  split; [done|]. split; [by apply strip_colour_id|].
  split; [apply strip_colour_id|apply strip_colour_length].
Qed.

(** *** Mentions *)

Lemma mentions_broken_other c s :
  c ≠ 64%N → mentions_broken (c :: s) = mentions_broken s.
Proof. intros H. cbn. by rewrite (proj2 (N.eqb_neq _ _) H). Qed.

Lemma mentions_broken_at s :
  mentions_broken (64%N :: 8203%N :: s) = mentions_broken s.
Proof. reflexivity. Qed.

Lemma relay_text_mentions_broken s :
  mentions_broken
    (escape_markdown (remove_emoji (replace (py "@") (py "@" ++ [8203%N]) s))) = true.
Proof.
  rewrite escape_markdown_bind. change (py "@") with [64%N].
  rewrite replace_char. unfold remove_emoji.
  induction s as [|c s IH]; [done|]. rewrite bind_cons.
  destruct (64 =? c)%N eqn:Hc.
  - cbn [app List.filter]. change (is_emoji 64) with false.
    change (is_emoji 8203) with false. cbn [negb].
    rewrite !bind_cons. change (escaped_char 64) with [64%N].
    change (escaped_char 8203) with [8203%N]. cbn [app].
    by rewrite mentions_broken_at.
  - cbn [app List.filter]. destruct (negb (is_emoji c)); [|done].
    rewrite bind_cons. unfold escaped_char at 1.
    apply N.eqb_neq in Hc.
    destruct (_ || _)%N; cbn [app];
      rewrite !mentions_broken_other by (try done; congruence); done.
Qed.

(* ===================================================================== *)
(** ** More on the identity cache *)
(* ===================================================================== *)

Section MoreCache.
Context (world : World).

(** X5.  Neither lookup raises, whatever the name service answers and
    whatever the cache holds: the value is a result or [None], no global
    but [UUID_CACHE] changes, and at most one request is made, to the
    address of the identity asked for. *)
Theorem X5_lookups_never_raise (uuid name : pystr) (s : State) :
  (∃ r cache t,
     mc_uuid_to_username world uuid s = mkOut (Ok r) (set_UUID_CACHE cache s) t
     ∧ (t = [] ∨ t = [HttpGet (names_url (replace (py "-") [] uuid))]))
  ∧ (∃ r cache t,
       mc_username_to_uuid world name s = mkOut (Ok r) (set_UUID_CACHE cache s) t
       ∧ (t = [] ∨ t = [HttpGet (profile_url name)])).
Proof.
  split.
  - destruct (Bidict.contains uuid (UUID_CACHE s)) eqn:H.
    + apply contains_getitem in H as [n H].
      exists (Some n), (UUID_CACHE s), [].
      rewrite (mc_uuid_to_username_hit _ _ _ _ H), set_UUID_CACHE_same. auto.
    + rewrite (mc_uuid_to_username_miss _ _ _ H). cbv zeta.
      destruct (mojang_names world _) as [resp|];
        [destruct (current_name resp) as [n|];
         [destruct (Bidict.setitem uuid n (UUID_CACHE s)) as [e|cache]|]|].
      all: try (eexists None, (UUID_CACHE s), _; rewrite set_UUID_CACHE_same; solve [auto]).
      eexists (Some n), cache, _. auto.
  - destruct (Bidict.inv_contains name (UUID_CACHE s)) eqn:H.
    + apply contains_getitem in H as [u H].
      exists (Some u), (UUID_CACHE s), [].
      rewrite (mc_username_to_uuid_hit _ _ _ _ H), set_UUID_CACHE_same. auto.
    + rewrite (mc_username_to_uuid_miss _ _ _ H). cbv zeta.
      destruct (mojang_profile world name) as [raw|];
        [destruct (uuid_str raw) as [long|];
         [destruct (Bidict.inv_setitem name long (UUID_CACHE s)) as [e|cache]|]|].
      all: try (eexists None, (UUID_CACHE s), _; rewrite set_UUID_CACHE_same; solve [auto]).
      eexists (Some raw), cache, _. auto.
Qed.

(** X6.  A name that [mc_uuid_to_username] has returned is cached: a later
    call for the same uuid, in the state the first call left, makes no
    request and returns the same name, whatever the name service would
    answer by then. *)
Theorem X6_resolved_name_is_not_asked_for_again
    (later : World) (uuid name : pystr) (s : State) :
  result (mc_uuid_to_username world uuid s) = Ok (Some name) →
  let s1 := final (mc_uuid_to_username world uuid s) in
  mc_uuid_to_username later uuid s1 = mkOut (Ok (Some name)) s1 [].
Proof.
  intros Hname s1. apply mc_uuid_to_username_hit.
  by apply mc_uuid_to_username_cached.
Qed.

(** X7.  A failed lookup is not remembered.  When a lookup returns [None]
    it has made its request and left the state as it was, so that the next
    call for the same identity makes the request again. *)
Theorem X7_failed_lookup_is_not_remembered (uuid name : pystr) (s : State) :
  (result (mc_uuid_to_username world uuid s) = Ok None →
   mc_uuid_to_username world uuid s =
   mkOut (Ok None) s [HttpGet (names_url (replace (py "-") [] uuid))])
  ∧ (result (mc_username_to_uuid world name s) = Ok None →
     mc_username_to_uuid world name s =
     mkOut (Ok None) s [HttpGet (profile_url name)]).
Proof.
  split.
  - destruct (Bidict.contains uuid (UUID_CACHE s)) eqn:H.
    + apply contains_getitem in H as [n H].
      by rewrite (mc_uuid_to_username_hit _ _ _ _ H).
    + rewrite (mc_uuid_to_username_miss _ _ _ H). cbv zeta.
      destruct (mojang_names world _) as [resp|]; [|done].
      destruct (current_name resp) as [n|]; [|done].
      by destruct (Bidict.setitem uuid n (UUID_CACHE s)).
  - destruct (Bidict.inv_contains name (UUID_CACHE s)) eqn:H.
    + apply contains_getitem in H as [u H].
      by rewrite (mc_username_to_uuid_hit _ _ _ _ H).
    + rewrite (mc_username_to_uuid_miss _ _ _ H). cbv zeta.
      destruct (mojang_profile world name) as [raw|]; [|done].
      destruct (uuid_str raw) as [long|]; [|done].
      by destruct (Bidict.inv_setitem name long (UUID_CACHE s)).
Qed.

Lemma setitem_value_taken k v other b :
  Bidict.contains k b = false →
  Bidict.inv_getitem v b = Some other →
  Bidict.setitem k v b = inl ValueDuplicationError.
Proof.
  rewrite contains_false. unfold Bidict.inv_getitem, Bidict.setitem, Bidict.getitem.
  cbn. by intros -> ->.
Qed.

(** X8.  The cache holds a name for one uuid only.  When the name service
    gives, for a uuid that is not cached, a name that the cache holds for
    another uuid, [mc_uuid_to_username] returns [None] and stores nothing:
    the [ValueDuplicationError] of the bidict is swallowed.  This is what a
    uuid spelled without its dashes meets once the dashed spelling is
    cached. *)
Theorem X8_name_cached_for_another_uuid
    (uuid other name : pystr) (mojang_response : list pystr) (s : State) :
  Bidict.contains uuid (UUID_CACHE s) = false →
  Bidict.inv_getitem name (UUID_CACHE s) = Some other →
  mojang_names world (replace (py "-") [] uuid) = Some mojang_response →
  current_name mojang_response = Some name →
  mc_uuid_to_username world uuid s =
  mkOut (Ok None) s [HttpGet (names_url (replace (py "-") [] uuid))].
Proof.
  intros Hnew Hname Hresp Hcur. rewrite mc_uuid_to_username_miss by done. cbv zeta.
  rewrite Hresp, Hcur. by erewrite setitem_value_taken.
Qed.

End MoreCache.

(* ===================================================================== *)
(** ** More on the presence tracker *)
(* ===================================================================== *)

Section MorePresence.
Context (config : Configuration) (world : World).

Lemma len_with_item uuid name b :
  Bidict.contains uuid b = false →
  Bidict.len (with_item uuid name b) = Bidict.len b + 1.
Proof.
  intros H%contains_false. unfold Bidict.len, with_item. cbn.
  rewrite map_size_insert_None by done. lia.
Qed.

Lemma len_without_item uuid name v b :
  Bidict.getitem uuid b = Some v →
  Bidict.len (without_item uuid name b) = Bidict.len b - 1.
Proof.
  intros H. unfold Bidict.len, without_item. cbn.
  rewrite map_size_delete_Some by (by eexists).
  assert (size (Bidict.fwdm b) ≠ 0%nat); [|lia].
  intros H0%map_size_empty_inv. unfold Bidict.getitem in H. by rewrite H0 in H.
Qed.

Lemma cache_after_add_fresh name uuid cache :
  Bidict.inv_contains name cache = false →
  Bidict.contains uuid cache = false →
  cache_after_add name uuid cache = inr (with_item uuid name cache).
Proof.
  intros Hname Huuid. unfold cache_after_add. rewrite Hname.
  by apply inv_setitem_fresh.
Qed.

Lemma join_run (name uuid : pystr) (rest : list Action) (s : State) :
  ACCEPT_JOIN_EVENTS s = true →
  Bidict.inv_contains name (PLAYER_LIST s) = false →
  Bidict.contains uuid (PLAYER_LIST s) = false →
  Bidict.inv_contains name (UUID_CACHE s) = false →
  Bidict.contains uuid (UUID_CACHE s) = false →
  all_respond world (WEBHOOKS s) = true →
  handle_tab_list config world (AddPlayerAction name uuid :: rest) s =
  mkOut (Ok tt)
    (set_UUID_CACHE (with_item uuid name (UUID_CACHE s))
       (set_PLAYER_LIST (with_item uuid name (PLAYER_LIST s)) s))
    (posts_to (WEBHOOKS s) (join_payload name uuid)
     ++ if es_enabled config
        then [LogConnection uuid CONNECTED (Some (Bidict.len (PLAYER_LIST s) + 1))]
        else []).
Proof.
  intros Hacc Hname Huuid Hcname Hcuuid Hall.
  unfold handle_tab_list. rewrite handle_actions_cons. cbn [handle_action].
  rewrite handle_add_new by done. cbv zeta.
  rewrite inv_setitem_fresh by done. fold (with_item uuid name (PLAYER_LIST s)).
  rewrite cache_after_add_fresh by done. rewrite Hacc, Hall.
  rewrite attempted_all by done. by rewrite len_with_item.
Qed.

(** X9.  A join.  While join events are accepted, an AddPlayerAction for a
    player who is in neither the player list nor the cache, when every
    webhook answers, posts the join notification once to each webhook, in
    the order of [WEBHOOKS], enters the player in the player list and in
    the cache, writes the analytics record with the new size of the list,
    and ends the handling of the packet.  Afterwards the uuid gives the
    name in the player list and the name gives the uuid in the cache. *)
Theorem X9_join_is_announced_once_to_every_webhook
    (name uuid : pystr) (rest : list Action) (s : State) :
  ACCEPT_JOIN_EVENTS s = true →
  Bidict.inv_contains name (PLAYER_LIST s) = false →
  Bidict.contains uuid (PLAYER_LIST s) = false →
  Bidict.inv_contains name (UUID_CACHE s) = false →
  Bidict.contains uuid (UUID_CACHE s) = false →
  all_respond world (WEBHOOKS s) = true →
  let out := handle_tab_list config world (AddPlayerAction name uuid :: rest) s in
  out = mkOut (Ok tt)
          (set_UUID_CACHE (with_item uuid name (UUID_CACHE s))
             (set_PLAYER_LIST (with_item uuid name (PLAYER_LIST s)) s))
          (posts_to (WEBHOOKS s) (join_payload name uuid)
           ++ if es_enabled config
              then [LogConnection uuid CONNECTED
                      (Some (Bidict.len (PLAYER_LIST s) + 1))]
              else [])
  ∧ Bidict.getitem uuid (PLAYER_LIST (final out)) = Some name
  ∧ Bidict.inv_getitem name (UUID_CACHE (final out)) = Some uuid.
Proof.
  intros Hacc Hname Huuid Hcname Hcuuid Hall. cbv zeta.
  rewrite join_run by done. split; [done|].
  cbn [final]. sstate. unfold Bidict.inv_getitem, Bidict.getitem, with_item. cbn.
  by rewrite !lookup_insert_eq.
Qed.

Lemma delitem_Some uuid name b :
  Bidict.getitem uuid b = Some name →
  Bidict.delitem uuid b = inr (without_item uuid name b).
Proof. unfold Bidict.getitem, Bidict.delitem. by intros ->. Qed.

Lemma delitem_None uuid b :
  Bidict.contains uuid b = false → Bidict.delitem uuid b = inl KeyError.
Proof. rewrite contains_false. unfold Bidict.getitem, Bidict.delitem. by intros ->. Qed.

Lemma leave_run
    (uuid name listed : pystr) (rest : list Action) (s : State) :
  Bidict.getitem uuid (UUID_CACHE s) = Some name →
  Bidict.getitem uuid (PLAYER_LIST s) = Some listed →
  all_respond world (WEBHOOKS s) = true →
  handle_tab_list config world (RemovePlayerAction uuid :: rest) s =
  after (posts_to (WEBHOOKS s) (leave_payload (Some name) uuid)
         ++ if es_enabled config
            then [LogConnection uuid DISCONNECTED (Some (Bidict.len (PLAYER_LIST s) - 1))]
            else [])
        (handle_tab_list config world rest
           (set_PLAYER_LIST (without_item uuid listed (PLAYER_LIST s))
              (set_UUID_CACHE (without_item uuid name (UUID_CACHE s)) s))).
Proof.
  intros Hname Hlisted Hall.
  unfold handle_tab_list. rewrite handle_actions_cons. cbn [handle_action].
  assert (mc_uuid_to_username world uuid s =
          mkOut (Ok (Some name)) (set_UUID_CACHE (UUID_CACHE s) s) []) as Hrun
    by (rewrite set_UUID_CACHE_same; by apply mc_uuid_to_username_hit).
  rewrite (handle_remove_run _ _ _ _ _ _ _ Hrun). cbv zeta.
  rewrite Hall, attempted_all by done.
  rewrite (delitem_Some _ _ _ Hname), (delitem_Some _ _ _ Hlisted).
  by rewrite (len_without_item _ _ _ _ Hlisted).
Qed.

(** X10.  A leave.  A RemovePlayerAction for a player who is in the cache
    and in the player list, when every webhook answers, makes no request to
    the name service, posts the leave notification under the cached name
    once to each webhook, takes the player out of the cache and out of the
    player list, writes the analytics record with the new size of the
    list, and goes on with the rest of the packet. *)
Theorem X10_leave_is_announced_and_the_player_forgotten
    (uuid name listed : pystr) (rest : list Action) (s : State) :
  Bidict.getitem uuid (UUID_CACHE s) = Some name →
  Bidict.getitem uuid (PLAYER_LIST s) = Some listed →
  all_respond world (WEBHOOKS s) = true →
  let s1 := set_PLAYER_LIST (without_item uuid listed (PLAYER_LIST s))
              (set_UUID_CACHE (without_item uuid name (UUID_CACHE s)) s) in
  handle_tab_list config world (RemovePlayerAction uuid :: rest) s =
  after (posts_to (WEBHOOKS s) (leave_payload (Some name) uuid)
         ++ if es_enabled config
            then [LogConnection uuid DISCONNECTED (Some (Bidict.len (PLAYER_LIST s) - 1))]
            else [])
        (handle_tab_list config world rest s1)
  ∧ Bidict.contains uuid (UUID_CACHE s1) = false
  ∧ Bidict.contains uuid (PLAYER_LIST s1) = false.
Proof.
  intros Hname Hlisted Hall s1. split; [by apply leave_run|].
  split; apply contains_false; unfold Bidict.getitem; cbn; apply lookup_delete_eq.
Qed.

(** X11.  A leave of a player the bridge cannot name.  When the lookup of
    the name returns [None] (the uuid is not cached and the name service
    does not give a name that can be stored), the leave notification is
    posted with a null username, and the action then raises [KeyError] at
    the deletion from the cache: the handling of the packet ends there and
    the player stays in the player list. *)
Theorem X11_leave_of_an_unknown_player_raises
    (uuid : pystr) (rest : list Action) (s : State) :
  result (mc_uuid_to_username world uuid s) = Ok None →
  all_respond world (WEBHOOKS s) = true →
  handle_tab_list config world (RemovePlayerAction uuid :: rest) s =
  mkOut (Raised KeyError) s
    (HttpGet (names_url (replace (py "-") [] uuid))
     :: posts_to (WEBHOOKS s) (leave_payload None uuid)).
Proof.
  intros Hnone Hall.
  assert (Bidict.contains uuid (UUID_CACHE s) = false) as Hmiss.
  { destruct (Bidict.contains uuid (UUID_CACHE s)) eqn:H; [|done].
    apply contains_getitem in H as [n H].
    by rewrite (mc_uuid_to_username_hit _ _ _ _ H) in Hnone. }
  assert (mc_uuid_to_username world uuid s =
          mkOut (Ok None) (set_UUID_CACHE (UUID_CACHE s) s)
                [HttpGet (names_url (replace (py "-") [] uuid))]) as Hrun.
  { rewrite set_UUID_CACHE_same. revert Hnone.
    rewrite (mc_uuid_to_username_miss _ _ _ Hmiss). cbv zeta.
    destruct (mojang_names world _) as [resp|]; [|done].
    destruct (current_name resp) as [n|]; [|done].
    by destruct (Bidict.setitem uuid n (UUID_CACHE s)). }
  unfold handle_tab_list. rewrite handle_actions_cons. cbn [handle_action].
  rewrite (handle_remove_run _ _ _ _ _ _ _ Hrun). cbv zeta.
  rewrite Hall, attempted_all by done.
  rewrite (delitem_None _ _ Hmiss). by rewrite set_UUID_CACHE_same.
Qed.

Lemma delitem_inl uuid b e :
  Bidict.delitem uuid b = inl e → e = KeyError ∧ Bidict.contains uuid b = false.
Proof.
  unfold Bidict.delitem. destruct (Bidict.fwdm b !! uuid) eqn:H; [done|].
  intros [= <-]. split; [done|]. by apply contains_false.
Qed.

Lemma delitem_inr uuid b b' :
  Bidict.delitem uuid b = inr b' → Bidict.contains uuid b' = false.
Proof.
  unfold Bidict.delitem. destruct (Bidict.fwdm b !! uuid) eqn:H; [|done].
  intros [= <-]. apply contains_false. unfold Bidict.getitem. cbn.
  apply lookup_delete_eq.
Qed.

(** X12.  A leave that comes twice.  A RemovePlayerAction for a uuid that
    is not in the player list (the player has been removed already) is
    announced all the same: when every webhook answers, the leave
    notification is posted to each of them, under the name the lookup
    gives, and the action then raises [KeyError].  The player list is as it
    was, and the cache holds no entry for the uuid afterwards. *)
Theorem X12_second_leave_is_announced_and_raises
    (uuid : pystr) (rest : list Action) (s : State) :
  Bidict.contains uuid (PLAYER_LIST s) = false →
  all_respond world (WEBHOOKS s) = true →
  let out := handle_tab_list config world (RemovePlayerAction uuid :: rest) s in
  result out = Raised KeyError
  ∧ (∃ name lookups,
       trace out = lookups ++ posts_to (WEBHOOKS s) (leave_payload name uuid)
       ∧ Forall http_get lookups)
  ∧ PLAYER_LIST (final out) = PLAYER_LIST s
  ∧ Bidict.contains uuid (UUID_CACHE (final out)) = false.
Proof.
  intros Hgone Hall. cbv zeta.
  unfold handle_tab_list. rewrite handle_actions_cons. cbn [handle_action].
  destruct (mc_uuid_to_username_total world uuid s) as (name & cache & t & Hrun & Ht).
  rewrite (handle_remove_run _ _ _ _ _ _ _ Hrun). cbv zeta.
  rewrite Hall, attempted_all by done.
  destruct (Bidict.delitem uuid cache) as [e|cache'] eqn:Hdel.
  - apply delitem_inl in Hdel as [-> Hmiss]. cbn [result final trace].
    split; [done|]. split; [by exists name, t|]. done.
  - rewrite (delitem_None _ _ Hgone). cbn [result final trace].
    split; [done|]. split; [by exists name, t|]. split; [done|].
    by apply delitem_inr in Hdel.
Qed.

(** X13.  Leaving and joining again.  With the cache and the player list
    one-to-one and holding a player under the same name, a packet that
    removes the player and adds them again, while join events are accepted
    and every webhook answers, posts the leave and then the join to every
    webhook and ends in the very state it started from. *)
Theorem X13_leave_then_join_restores_the_state
    (uuid name : pystr) (rest : list Action) (s : State) :
  Bidict.wf (UUID_CACHE s) →
  Bidict.wf (PLAYER_LIST s) →
  Bidict.getitem uuid (UUID_CACHE s) = Some name →
  Bidict.getitem uuid (PLAYER_LIST s) = Some name →
  ACCEPT_JOIN_EVENTS s = true →
  all_respond world (WEBHOOKS s) = true →
  handle_tab_list config world
    (RemovePlayerAction uuid :: AddPlayerAction name uuid :: rest) s =
  mkOut (Ok tt) s
    ((posts_to (WEBHOOKS s) (leave_payload (Some name) uuid)
      ++ if es_enabled config
         then [LogConnection uuid DISCONNECTED (Some (Bidict.len (PLAYER_LIST s) - 1))]
         else [])
     ++ posts_to (WEBHOOKS s) (join_payload name uuid)
     ++ if es_enabled config
        then [LogConnection uuid CONNECTED (Some (Bidict.len (PLAYER_LIST s)))]
        else []).
Proof.
  intros Hwfc Hwfp Hcache Hlist Hacc Hall.
  rewrite (leave_run uuid name name (AddPlayerAction name uuid :: rest) s
             Hcache Hlist Hall).
  set (s1 := set_PLAYER_LIST _ _).
  assert (∀ b, Bidict.wf b → Bidict.getitem uuid b = Some name →
               with_item uuid name (without_item uuid name b) = b) as Hback.
  { intros [f i] Hwf Hf. unfold with_item, without_item. cbn in *.
    unfold Bidict.getitem in Hf. cbn in Hf.
    rewrite insert_delete_id by done.
    rewrite insert_delete_id by (by apply Hwf). done. }
  rewrite join_run; try done;
    try (first [apply inv_contains_false
               |apply contains_false; unfold Bidict.getitem];
         cbn; apply lookup_delete_eq).
  unfold after. cbn [result final trace]. f_equal.
  - subst s1. sstate. rewrite !Hback by done. by destruct s.
  - subst s1. sstate. f_equal. f_equal.
    rewrite (len_without_item _ _ _ _ Hlist).
    replace (Bidict.len (PLAYER_LIST s) - 1 + 1) with (Bidict.len (PLAYER_LIST s)) by lia.
    done.
Qed.

End MorePresence.

Section MorePresence2.
Context (config : Configuration) (world : World).

Lemma kept_refl s : kept s s.
Proof. by unfold kept. Qed.

Lemma kept_trans s1 s2 s3 : kept s1 s2 → kept s2 s3 → kept s1 s3.
Proof.
  unfold kept. intros (H1 & H2 & H3 & H4 & H5 & H6) (K1 & K2 & K3 & K4 & K5 & K6).
  repeat split; try congruence. auto.
Qed.

(** X14.  What no tab-list packet does.  Whatever its actions and however
    its handling ends, a packet leaves [WEBHOOKS], [BOT_USERNAME], the
    throttle ([PREVIOUS_MESSAGE], [NEXT_MESSAGE_TIME]) and the list kept at
    the last disconnect as they were, and it never turns the acceptance of
    join events off. *)
Theorem X14_tab_list_packet_keeps_the_other_globals
    (actions : list Action) (s : State) :
  kept s (final (handle_tab_list config world actions s)).
Proof.
  unfold handle_tab_list. revert s.
  induction actions as [|action rest IH]; intros s; [apply kept_refl|].
  rewrite handle_actions_cons.
  pose proof (handle_action_kept config world action s) as Hstep.
  destruct (handle_action config world action s) as [[[]|err] s1 t1]; try done.
  cbn in *. eapply kept_trans; [done|apply IH].
Qed.

Lemma count_disconnected_posts uuid webhooks payload :
  count_disconnected uuid ((λ x, WebhookPost x payload) <$> webhooks) = 0%nat.
Proof. by induction webhooks. Qed.

Lemma adds_no_disconnected players s u :
  Bidict.fwdm (PREVIOUS_PLAYER_LIST s) = ∅ →
  count_disconnected u (trace (handle_actions config world (adds players) s)) = 0%nat.
Proof.
  revert s. induction players as [|[name uuid] players IH]; intros s Hprev; [done|].
  cbn [adds fmap list_fmap fst snd]. rewrite handle_actions_cons. cbn [handle_action].
  destruct (Bidict.inv_contains name (PLAYER_LIST s)) eqn:Hdup.
  { by rewrite handle_add_duplicate. }
  rewrite handle_add_new by done. cbv zeta.
  destruct (Bidict.inv_setitem name uuid (PLAYER_LIST s)) as [err|now]; [done|].
  destruct (cache_after_add name uuid (UUID_CACHE s)) as [err|cache]; [done|].
  destruct (ACCEPT_JOIN_EVENTS s).
  - destruct (all_respond world (WEBHOOKS s)); cbn [trace].
    + rewrite count_disconnected_app, count_disconnected_posts.
      by destruct (es_enabled config).
    + apply count_disconnected_posts.
  - assert (elements (Bidict.keys (PREVIOUS_PLAYER_LIST s) ∖ Bidict.keys now) = [])
      as Hdiff.
    { apply elements_empty_iff. unfold Bidict.keys. rewrite Hprev.
      intros x. rewrite elem_of_difference, dom_empty, !elem_of_empty. tauto. }
    rewrite Hdiff.
    destruct (bool_decide (name = BOT_USERNAME s)); unfold after; cbn [trace];
      rewrite count_disconnected_app, IH by done;
      by destruct (es_enabled config).
Qed.

(** X15.  A second disconnect loses the players gone.  [handle_disconnect]
    keeps a copy of the player list as it is then; called twice with no
    backfill in between (an exception of the connection after a disconnect
    packet), it keeps a copy of the list it has just emptied.  In the
    session that follows, whoever the backfill lists, no DISCONNECTED
    record is written for anyone. *)
Theorem X15_second_disconnect_loses_the_players_gone
    (players : list (pystr * pystr)) (u : pystr) (s : State) :
  let s2 := final (handle_join_game
                     (final (handle_disconnect (final (handle_disconnect s))))) in
  PREVIOUS_PLAYER_LIST s2 = Bidict.empty
  ∧ count_disconnected u (trace (handle_tab_list config world (adds players) s2)) = 0%nat.
Proof.
  cbv zeta. split; [done|]. by apply adds_no_disconnected.
Qed.

Lemma inv_setitem_new name uuid b b' :
  Bidict.inv_contains name b = false →
  Bidict.inv_setitem name uuid b = inr b' →
  Bidict.contains uuid b = false ∧ b' = with_item uuid name b.
Proof.
  intros Hname Hset.
  destruct (Bidict.contains uuid b) eqn:Huuid.
  - apply contains_getitem in Huuid as [v Hv].
    by rewrite (inv_setitem_duplicate _ _ _ _ Hname Hv) in Hset.
  - rewrite inv_setitem_fresh in Hset by done. by injection Hset as <-.
Qed.

Lemma getitem_with_item uuid name b u n :
  Bidict.contains uuid b = false →
  Bidict.getitem u (with_item uuid name b) = Some n ↔
  (n, u) = (name, uuid) ∨ Bidict.getitem u b = Some n.
Proof.
  rewrite contains_false. unfold Bidict.getitem, with_item. cbn. intros Hnew.
  destruct (decide (u = uuid)) as [->|Hne].
  - rewrite lookup_insert_eq, Hnew. split; [intros [= ->]; by left|].
    by intros [[= -> ]|[=]].
  - rewrite lookup_insert_ne by done. split; [by right|].
    by intros [[= -> ->]|?].
Qed.

(** X16.  What a completed backfill leaves in the player list.  When a
    packet that lists [players] and then the bridge's own name is handled
    while join events are not accepted and ends with join events accepted,
    the player list holds, besides what it held before, exactly the
    players listed and the bridge itself, each uuid under the name it was
    listed with. *)
Theorem X16_completed_backfill_fills_the_player_list
    (players : list (pystr * pystr)) (bot_uuid : pystr) (s : State) :
  ACCEPT_JOIN_EVENTS s = false →
  Forall (λ p, p.1 ≠ BOT_USERNAME s) players →
  let packet := adds players ++ [AddPlayerAction (BOT_USERNAME s) bot_uuid] in
  let out := handle_tab_list config world packet s in
  ACCEPT_JOIN_EVENTS (final out) = true →
  result out = Ok tt
  ∧ ∀ u n, Bidict.getitem u (PLAYER_LIST (final out)) = Some n ↔
           (n, u) ∈ players ∨ (n, u) = (BOT_USERNAME s, bot_uuid)
           ∨ Bidict.getitem u (PLAYER_LIST s) = Some n.
Proof.
  intros Hacc Hplayers. cbv zeta. unfold handle_tab_list. revert s Hacc Hplayers.
  induction players as [|[name uuid] players IH]; intros s Hacc Hplayers;
    cbn [adds fmap list_fmap app fst snd].
  - rewrite handle_actions_cons. cbn [handle_action handle_actions].
    destruct (Bidict.inv_contains (BOT_USERNAME s) (PLAYER_LIST s)) eqn:Hdup.
    { rewrite handle_add_duplicate by done. cbn. congruence. }
    rewrite handle_add_new by done. cbv zeta. rewrite Hacc.
    destruct (Bidict.inv_setitem _ bot_uuid (PLAYER_LIST s)) as [err|now] eqn:Hset;
      [cbn; congruence|].
    destruct (cache_after_add _ bot_uuid (UUID_CACHE s)) as [err|cache];
      [cbn; congruence|].
    rewrite bool_decide_eq_true_2 by done. unfold after, ret. cbn.
    intros _. split; [done|]. intros u n.
    destruct (inv_setitem_new _ _ _ _ Hdup Hset) as [Hnew ->].
    rewrite getitem_with_item by done. split.
    + intros [?|?]; auto.
    + intros [?%elem_of_nil|[?|?]]; auto. done.
  - apply Forall_cons in Hplayers as [Hname Hplayers]. cbn in Hname.
    rewrite handle_actions_cons. cbn [handle_action].
    destruct (Bidict.inv_contains name (PLAYER_LIST s)) eqn:Hdup.
    { rewrite handle_add_duplicate by done. cbn. congruence. }
    rewrite handle_add_new by done. cbv zeta. rewrite Hacc.
    destruct (Bidict.inv_setitem name uuid (PLAYER_LIST s)) as [err|now] eqn:Hset;
      [cbn; congruence|].
    destruct (cache_after_add name uuid (UUID_CACHE s)) as [err|cache];
      [cbn; congruence|].
    rewrite bool_decide_eq_false_2 by done.
    set (s1 := set_UUID_CACHE cache (set_PLAYER_LIST now s)).
    unfold after. cbn [final trace result]. intros Hdone.
    destruct (IH s1) as (Hres & Hlist); try done.
    change (BOT_USERNAME s1) with (BOT_USERNAME s) in Hres, Hlist.
    split; [done|]. intros u n. rewrite Hlist. subst s1. sstate.
    destruct (inv_setitem_new _ _ _ _ Hdup Hset) as [Hnew ->].
    rewrite getitem_with_item by done. rewrite elem_of_cons. tauto.
Qed.

End MorePresence2.

(* ===================================================================== *)
(** ** More on the relay, game to chat *)
(* ===================================================================== *)

Section MoreChat.
Context (config : Configuration) (world : World).

Lemma when_log_raw_message_trace packet s e :
  e ∈ trace (when (es_enabled config) (log_raw_message packet) s) →
  ∃ type, e = LogRawMessage type (json_data packet).
Proof.
  destruct (es_enabled config); cbn [when]; [|by intros ?%elem_of_nil].
  unfold log_raw_message, chat_type.
  repeat case_if; mrun; sout; cbn;
    first [intros ->%list_elem_of_singleton; by eexists | by intros ?%elem_of_nil].
Qed.

Lemma when_log_raw_message_final packet s :
  final (when (es_enabled config) (log_raw_message packet) s) = s.
Proof.
  destruct (es_enabled config); cbn [when]; [|done].
  unfold log_raw_message, chat_type. repeat case_if; by mrun.
Qed.

(** The handler on a line that has not the shape of a player's message. *)
Lemma handle_chat_other_run packet components chat_string s :
  extra packet = Some components →
  chat_string_of components [] = Some chat_string →
  match_player_chat chat_string = None →
  handle_chat config world packet s =
  when (es_enabled config) (log_raw_message packet) s.
Proof.
  intros Hextra Hstring Hmatch. unfold handle_chat. rewrite Hextra.
  erewrite bind_run by (by rewrite concat_text_run, Hstring).
  by rewrite after_nil, Hmatch.
Qed.

(** The handler on what a player other than the bridge typed. *)
Lemma handle_chat_relay_run packet components chat_string name original s r cache t :
  extra packet = Some components →
  chat_string_of components [] = Some chat_string →
  match_player_chat chat_string = Some (name, original) →
  lower name ≠ lower (BOT_USERNAME s) →
  mc_username_to_uuid world name s = mkOut (Ok r) (set_UUID_CACHE cache s) t →
  handle_chat config world packet s =
  let s1 := set_UUID_CACHE cache s in
  let posts := posts_to (attempted world (WEBHOOKS s))
                 (chat_payload name r (relay_text original)) in
  if all_respond world (WEBHOOKS s)
  then after (t ++ posts
              ++ if es_enabled config
                 then [LogChatMessage r name original chat_string] else [])
             (when (es_enabled config) (log_raw_message packet) s1)
  else mkOut (Raised RequestException) s1 (t ++ posts).
Proof.
  intros Hextra Hstring Hmatch Hother Hrun. unfold handle_chat. rewrite Hextra.
  erewrite bind_run by (by rewrite concat_text_run, Hstring).
  rewrite after_nil, Hmatch.
  rewrite (bind_run _ _ _ _ _ _ Hrun). mrun. sstate.
  rewrite bool_decide_eq_false_2 by done. cbv zeta.
  rewrite bind_post_to_webhooks. sstate. fold (relay_text original).
  unfold posts_to.
  destruct (all_respond world (WEBHOOKS s)); [|by sout].
  destruct (es_enabled config); cbn [when]; mrun.
  - unfold after. cbn [result final trace]. f_equal.
    by rewrite <- !app_assoc.
  - unfold after. cbn [result final trace]. f_equal.
    by rewrite !app_nil_r.
Qed.

(** The handler on what the bridge itself said. *)
Lemma handle_chat_own_trace packet components chat_string name original s e :
  extra packet = Some components →
  chat_string_of components [] = Some chat_string →
  match_player_chat chat_string = Some (name, original) →
  lower name = lower (BOT_USERNAME s) →
  e ∈ trace (handle_chat config world packet s) → http_get e ∨ analytics e.
Proof.
  intros Hextra Hstring Hmatch Hown. unfold handle_chat. rewrite Hextra.
  erewrite bind_run by (by rewrite concat_text_run, Hstring).
  rewrite after_nil, Hmatch.
  destruct (mc_username_to_uuid_total world name s) as (r & cache & t & Hrun & Ht).
  rewrite (bind_run _ _ _ _ _ _ Hrun). mrun. sstate.
  rewrite bool_decide_eq_true_2 by done.
  rewrite Forall_forall in Ht.
  destruct (es_enabled config); cbn [when].
  2:{ unfold after, ret; cbn. rewrite app_nil_r. auto. }
  destruct (match_bot_chat _ _) as [[display_name text]|].
  2:{ unfold after, ret; cbn. rewrite app_nil_r. auto. }
  destruct (mc_username_to_uuid_total world display_name (set_UUID_CACHE cache s))
    as (r2 & cache2 & t2 & Hrun2 & Ht2).
  rewrite Forall_forall in Ht2.
  rewrite (bind_run _ _ _ _ _ _ Hrun2). mrun. unfold after; cbn.
  intros [He|[He|[->|He]%elem_of_cons]%elem_of_app]%elem_of_app; auto.
  - by right.
  - right. by eapply log_raw_message_trace.
Qed.

(** X17.  A line that is not a player's message is not relayed.  For a chat
    packet whose text has not the shape of the pattern (a join or death
    message, a message of the server), the handler looks nobody up, posts
    to no webhook and changes no global: all it does is write the raw
    analytics record, and with the analytics disabled nothing at all. *)
Theorem X17_other_lines_are_not_relayed
    (packet : ChatPacket) (components : list (option pystr))
    (chat_string : pystr) (s : State) :
  extra packet = Some components →
  chat_string_of components [] = Some chat_string →
  match_player_chat chat_string = None →
  let out := handle_chat config world packet s in
  final out = s
  ∧ (∀ e, e ∈ trace out → ∃ type, e = LogRawMessage type (json_data packet))
  ∧ (es_enabled config = false → out = mkOut (Ok tt) s []).
Proof.
  intros Hextra Hstring Hmatch. cbv zeta.
  rewrite (handle_chat_other_run _ _ _ _ Hextra Hstring Hmatch).
  split; [apply when_log_raw_message_final|].
  split; [apply when_log_raw_message_trace|]. by intros ->.
Qed.

Lemma chat_string_of_none before after_it acc :
  chat_string_of (before ++ None :: after_it) acc = None.
Proof.
  revert acc. induction before as [|[text|] before IH]; intros acc; cbn; [done| |done].
  apply IH.
Qed.

(** X18.  A component without text.  When a component of the ["extra"] list
    has no ["text"], the handler raises [KeyError] while it puts the text
    together: nothing is looked up, posted or recorded, whatever the
    components before it say. *)
Theorem X18_component_without_text_raises
    (packet : ChatPacket) (before after_it : list (option pystr)) (s : State) :
  extra packet = Some (before ++ None :: after_it) →
  handle_chat config world packet s = mkOut (Raised KeyError) s [].
Proof.
  intros Hextra. unfold handle_chat. rewrite Hextra.
  apply bind_run_raised. rewrite concat_text_run.
  by rewrite chat_string_of_none.
Qed.


(** X20.  No mention gets through.  Whatever the packet, the state and the
    answers of the outside world, in the content of every payload that
    [handle_chat] posts each [@] is followed by a zero-width space, so
    that Discord reads no mention from what was typed in the game. *)
Theorem X20_posted_text_mentions_nobody
    (packet : ChatPacket) (s : State) (webhook : pystr) (payload : Payload) :
  WebhookPost webhook payload ∈ trace (handle_chat config world packet s) →
  mentions_broken (content payload) = true.
Proof.
  destruct (extra packet) as [components|] eqn:Hextra.
  2:{ unfold handle_chat. rewrite Hextra. by intros ?%elem_of_nil. }
  destruct (chat_string_of components []) as [chat_string|] eqn:Hstring.
  2:{ unfold handle_chat. rewrite Hextra.
      erewrite bind_run_raised by (by rewrite concat_text_run, Hstring).
      by intros ?%elem_of_nil. }
  destruct (match_player_chat chat_string) as [[name original]|] eqn:Hmatch.
  2:{ rewrite (handle_chat_other_run _ _ _ _ Hextra Hstring Hmatch).
      by intros (type & [=])%when_log_raw_message_trace. }
  destruct (decide (lower name = lower (BOT_USERNAME s))) as [Hown|Hother].
  { intros He.
    by destruct (handle_chat_own_trace _ _ _ _ _ _ _ Hextra Hstring Hmatch Hown He)
      as [[url [=]]|[]]. }
  destruct (mc_username_to_uuid_total world name s) as (r & cache & t & Hrun & Ht).
  rewrite Forall_forall in Ht.
  rewrite (handle_chat_relay_run _ _ _ _ _ _ _ _ _ Hextra Hstring Hmatch Hother Hrun).
  cbv zeta.
  assert (∀ l, WebhookPost webhook payload
               ∈ posts_to l (chat_payload name r (relay_text original)) →
               mentions_broken (content payload) = true) as Hposts.
  { intros l (x & [= _ ->] & _)%list_elem_of_fmap. cbn.
    apply relay_text_mentions_broken. }
  destruct (all_respond world (WEBHOOKS s)); unfold after; cbn [trace].
  - rewrite <- !app_assoc.
    intros [He|[He|[He|He]%elem_of_app]%elem_of_app]%elem_of_app.
    + by destruct (Ht _ He) as [url [=]].
    + by eapply Hposts.
    + destruct (es_enabled config); [|by apply elem_of_nil in He].
      by apply list_elem_of_singleton in He.
    + by apply when_log_raw_message_trace in He as (type & [=]).
  - intros [He|He]%elem_of_app.
    + by destruct (Ht _ He) as [url [=]].
    + by eapply Hposts.
Qed.

End MoreChat.

(* ===================================================================== *)
(** ** More on the relay, chat to game *)
(* ===================================================================== *)

Section MoreRelay.
Context (config : Configuration) (world : World).


Lemma ascii_replace_surrogate c s :
  c ∈ s → is_surrogate c = true → ascii_replace s = None.
Proof.
  intros Hin Hc. induction s as [|x s IH]; [by apply elem_of_nil in Hin|].
  cbn [ascii_replace]. apply elem_of_cons in Hin as [<-|Hin].
  - unfold ascii_replace_char. rewrite Hc.
    assert ((c <? 128)%N = false) as ->; [|done].
    unfold is_surrogate in Hc. apply andb_prop in Hc as [Hc%N.leb_le _].
    apply N.ltb_ge. lia.
  - rewrite (IH Hin). by destruct (ascii_replace_char x).
Qed.

(** X22.  Where the branch of a linked account raises.  When the name of
    the linked account cannot be found, the branch raises [TypeError] at
    the length of the name; when the name is found and the text holds a
    lone surrogate, it raises [UnicodeEncodeError] at the encoding.  In
    both cases the lookup is all that has happened: nothing is replied,
    sent or written to the game, and the throttle is as it was. *)
Theorem X22_linked_branch_raises_before_it_sends
    (message : Message) (uuid : pystr) (channels : list (option (list (pystr * pystr))))
    (now_gate now_relay : Z) (s : State) :
  let out := on_message_linked config world message uuid channels now_gate now_relay s in
  (result (mc_uuid_to_username world uuid s) = Ok None →
   out = mkOut (Raised TypeError) s [HttpGet (names_url (replace (py "-") [] uuid))])
  ∧ (∀ name c,
       result (mc_uuid_to_username world uuid s) = Ok (Some name) →
       c ∈ clean_content message → is_surrogate c = true →
       result out = Raised UnicodeEncodeError
       ∧ Forall http_get (trace out)
       ∧ PREVIOUS_MESSAGE (final out) = PREVIOUS_MESSAGE s
       ∧ NEXT_MESSAGE_TIME (final out) = NEXT_MESSAGE_TIME s).
Proof.
  cbv zeta. split.
  - intros Hnone.
    assert (mc_uuid_to_username world uuid s =
            mkOut (Ok None) s [HttpGet (names_url (replace (py "-") [] uuid))]) as Hrun.
    { destruct (Bidict.contains uuid (UUID_CACHE s)) eqn:H.
      - apply contains_getitem in H as [n H].
        by rewrite (mc_uuid_to_username_hit _ _ _ _ H) in Hnone.
      - revert Hnone. rewrite (mc_uuid_to_username_miss _ _ _ H). cbv zeta.
        destruct (mojang_names world _) as [resp|]; [|done].
        destruct (current_name resp) as [n|]; [|done].
        by destruct (Bidict.setitem uuid n (UUID_CACHE s)). }
    unfold on_message_linked. rewrite (bind_run _ _ _ _ _ _ Hrun). by mrun.
  - intros name c Hname Hin Hc.
    destruct (linked_name_run world uuid name s Hname) as (cache & t & Hrun & Ht & _).
    unfold on_message_linked. rewrite (bind_run _ _ _ _ _ _ Hrun). mrun.
    rewrite (ascii_replace_surrogate _ _ Hin Hc). mrun.
    unfold after. cbn [result final trace]. by rewrite app_nil_r.
Qed.

End MoreRelay.

(* ===================================================================== *)
(** ** The Discord side *)
(* ===================================================================== *)

Section RunFacts.
Context {A B C : Type}.

Lemma and_then_run (m : D A) (f : A → D B) s a s1 t1 :
  m s = mkRun (Ok a) s1 t1 →
  and_then m f s
  = mkRun (outcome (f a s1)) (state_after (f a s1)) (t1 ++ calls (f a s1)).
Proof. intros H. unfold and_then. rewrite H. by destruct (f a s1). Qed.

Lemma and_then_raised (m : D A) (f : A → D B) s e s1 t1 :
  m s = mkRun (Raised e) s1 t1 → and_then m f s = mkRun (Raised e) s1 t1.
Proof. intros H. unfold and_then. by rewrite H. Qed.

Lemma and_then_pure (a : A) (f : A → D B) s : and_then (pure a) f s = f a s.
Proof. unfold and_then, pure. by destruct (f a s). Qed.

Lemma and_then_throw e (f : A → D B) s :
  and_then (throw e) f s = mkRun (Raised e) s [].
Proof. reflexivity. Qed.

Lemma and_then_assoc (m : D A) (f : A → D B) (g : B → D C) s :
  and_then (and_then m f) g s = and_then m (λ a, and_then (f a) g) s.
Proof.
  unfold and_then. destruct (m s) as [[a|e] s1 t1]; [|done].
  destruct (f a s1) as [[b|e] s2 t2]; [|done].
  destruct (g b s2) as [r s3 t3]. by rewrite app_assoc.
Qed.

End RunFacts.

Section RunFacts1.
Context {B : Type}.

Lemma and_then_update g (f : unit → D B) s : and_then (update g) f s = f tt (g s).
Proof. unfold and_then, update. by destruct (f tt (g s)). Qed.

Lemma and_then_call c (f : unit → D B) s :
  and_then (call c) f s
  = mkRun (outcome (f tt s)) (state_after (f tt s)) (c :: calls (f tt s)).
Proof. unfold and_then, call. by destruct (f tt s). Qed.

End RunFacts1.

Lemma run_eta {A} (r : Run A) : mkRun (outcome r) (state_after r) (calls r) = r.
Proof. by destruct r. Qed.

Ltac dstep :=
  first
    [ rewrite and_then_assoc
    | rewrite and_then_pure
    | rewrite and_then_update
    | rewrite and_then_call
    | rewrite and_then_throw ];
  cbv beta.

Ltac drun := repeat dstep; cbn [outcome state_after calls app].

Section OnReady.
Context (platform : Platform).

Lemma set_WEBHOOKS_twice w w' s : set_WEBHOOKS w (set_WEBHOOKS w' s) = set_WEBHOOKS w s.
Proof. reflexivity. Qed.

Lemma set_WEBHOOKS_same s : set_WEBHOOKS (WEBHOOKS s) s = s.
Proof. by destruct s. Qed.

Lemma collect_hooks_run webhooks found s :
  collect_hooks webhooks found s =
  mkRun (Ok (found || existsb is_minecraft_hook webhooks))
        (set_WEBHOOKS (WEBHOOKS s ++ minecraft_urls webhooks) s) [].
Proof.
  revert found s. induction webhooks as [|[name url] rest IH]; intros found s.
  { cbn. by rewrite orb_false_r, app_nil_r, set_WEBHOOKS_same. }
  cbn [collect_hooks fst snd].
  change (bool_decide (name = py "_minecraft")) with (is_minecraft_hook (name, url)).
  unfold minecraft_urls. cbn [existsb List.filter].
  destruct (is_minecraft_hook (name, url)).
  - unfold append_webhook. drun. rewrite IH. cbn [WEBHOOKS set_WEBHOOKS].
    rewrite set_WEBHOOKS_twice, orb_true_r. cbn [fmap list_fmap snd orb].
    unfold minecraft_urls. by rewrite <- app_assoc.
  - by rewrite IH.
Qed.

Lemma on_ready_channel_listed id webhooks s :
  on_ready_channel platform (id, Some webhooks) s =
  let s1 := set_WEBHOOKS (WEBHOOKS s ++ minecraft_urls webhooks) s in
  if existsb is_minecraft_hook webhooks then mkRun (Ok tt) s1 []
  else mkRun (match create_webhook platform id with
              | Some _ => Ok tt
              | None => Raised HTTPException
              end)
             s1 [CreateWebhook id].
Proof.
  unfold on_ready_channel. cbn [fst snd]. drun.
  erewrite and_then_run by apply collect_hooks_run. cbn [orb app].
  destruct (existsb is_minecraft_hook webhooks); cbn [negb]; [done|].
  unfold create_hook. drun. by destruct (create_webhook platform id).
Qed.

Lemma on_ready_channel_unlisted id s :
  on_ready_channel platform (id, None) s = mkRun (Raised HTTPException) s [].
Proof. reflexivity. Qed.

(** The loop of [on_ready] over channels that can all be listed and given
    a webhook, and what follows them. *)
Lemma on_ready_loop before rest s :
  Forall (λ channel, is_Some channel.2) before →
  Forall (λ id, is_Some (create_webhook platform id)) (lacking before) →
  each (before ++ rest) (on_ready_channel platform) s =
  let r := each rest (on_ready_channel platform)
             (set_WEBHOOKS (WEBHOOKS s ++ listed_urls before) s) in
  mkRun (outcome r) (state_after r) ((CreateWebhook <$> lacking before) ++ calls r).
Proof.
  revert s. induction before as [|[id [webhooks|]] before IH]; intros s Hlisted Hcreate.
  - cbn. by rewrite app_nil_r, set_WEBHOOKS_same, run_eta.
  - apply Forall_cons in Hlisted as [_ Hlisted].
    cbn [app each listed_urls lacking] in *.
    destruct (existsb is_minecraft_hook webhooks) eqn:Hfound.
    + erewrite and_then_run
        by (rewrite on_ready_channel_listed; cbv zeta; by rewrite Hfound).
      rewrite IH by done. cbv zeta.
      cbn [outcome state_after calls app WEBHOOKS set_WEBHOOKS].
      by rewrite set_WEBHOOKS_twice, <- app_assoc.
    + apply Forall_cons in Hcreate as [[url Hurl] Hcreate].
      erewrite and_then_run
        by (rewrite on_ready_channel_listed; cbv zeta; by rewrite Hfound, Hurl).
      rewrite IH by done. cbv zeta.
      cbn [outcome state_after calls app WEBHOOKS set_WEBHOOKS fmap list_fmap].
      by rewrite set_WEBHOOKS_twice, <- app_assoc.
  - apply Forall_cons in Hlisted as [[? [=]] _].
Qed.

Lemma minecraft_urls_none webhooks :
  existsb is_minecraft_hook webhooks = false → minecraft_urls webhooks = [].
Proof.
  unfold minecraft_urls. induction webhooks as [|w rest IH]; [done|].
  cbn [existsb List.filter]. intros [-> Hrest]%orb_false_elim. by apply IH.
Qed.

(** X23.  What [on_ready] leaves in [WEBHOOKS].  When the webhooks of every
    registered channel can be listed and a webhook can be created where
    one is wanting, [WEBHOOKS] holds afterwards the urls of the webhooks
    named [_minecraft] of the registered channels, channel by channel, and
    nothing of what it held before.  A webhook is created in each channel
    that has none of that name, and the url of a webhook created is not
    entered: such a channel receives nothing until [on_ready] runs
    again. *)
Theorem X23_on_ready_rebuilds_the_webhook_list
    (channels : list (Z * option (list (pystr * pystr)))) (s : State) :
  Forall (λ channel, is_Some channel.2) channels →
  Forall (λ id, is_Some (create_webhook platform id)) (lacking channels) →
  on_ready platform channels s =
  mkRun (Ok tt) (set_WEBHOOKS (listed_urls channels) s)
        (CreateWebhook <$> lacking channels).
Proof.
  intros Hlisted Hcreate. unfold on_ready. drun.
  rewrite <- (app_nil_r channels) at 1. rewrite on_ready_loop by done.
  cbn. by rewrite app_nil_r.
Qed.

(** X24.  Where [on_ready] stops.  When the webhooks of a channel cannot be
    listed, or a channel has no webhook named [_minecraft] and none can be
    created, the handler raises there: [WEBHOOKS], emptied at the start,
    holds the urls taken from the channels before that one only, and the
    channels after it are not looked at. *)
Theorem X24_on_ready_stops_at_the_first_failure
    (before rest : list (Z * option (list (pystr * pystr)))) (id : Z)
    (webhooks : list (pystr * pystr)) (s : State) :
  Forall (λ channel, is_Some channel.2) before →
  Forall (λ id, is_Some (create_webhook platform id)) (lacking before) →
  on_ready platform (before ++ (id, None) :: rest) s
  = mkRun (Raised HTTPException) (set_WEBHOOKS (listed_urls before) s)
          (CreateWebhook <$> lacking before)
  ∧ (existsb is_minecraft_hook webhooks = false →
     create_webhook platform id = None →
     on_ready platform (before ++ (id, Some webhooks) :: rest) s
     = mkRun (Raised HTTPException) (set_WEBHOOKS (listed_urls before) s)
             (CreateWebhook <$> (lacking before ++ [id]))).
Proof.
  intros Hlisted Hcreate. unfold on_ready. split.
  - drun. rewrite on_ready_loop by done. cbv zeta. cbn [each].
    erewrite and_then_raised by apply on_ready_channel_unlisted.
    cbn. by rewrite app_nil_r.
  - intros Hnone Hfail. drun. rewrite on_ready_loop by done. cbv zeta. cbn [each].
    erewrite and_then_raised
      by (rewrite on_ready_channel_listed; cbv zeta; by rewrite Hnone, Hfail).
    cbn. by rewrite minecraft_urls_none, app_nil_r, fmap_app.
Qed.

End OnReady.

Section OnMessage.
Context (config : Configuration) (world : World) (platform : Platform)
        (admin_users : list Z).

Lemma core_run {A} (m : M A) s :
  core m s = mkRun (result (m s)) (final (m s)) (Did <$> trace (m s)).
Proof. unfold core. by destruct (m s). Qed.

Lemma private_reply_run to_dm mention msg s :
  private_reply world to_dm mention msg s =
  mkOut (Ok tt) s
    (DiscordSend to_dm msg
     :: if reply_forbidden world
        then [DiscordSend false
                (mention ++ py ", please allow private messages from this bot.")]
        else []).
Proof. unfold private_reply. mrun. by destruct (reply_forbidden world). Qed.

Lemma delete_message_run s :
  delete_message platform s =
  mkRun (if message_delete platform then Ok tt else Raised HTTPException) s
        [MessageDelete].
Proof. unfold delete_message. drun. by destruct (message_delete platform). Qed.

Lemma channel_reply_run msg s :
  channel_reply platform msg s =
  mkRun (if channel_send platform then Ok tt else Raised HTTPException) s
        [Did (DiscordSend false msg)].
Proof. unfold channel_reply. drun. by destruct (channel_send platform). Qed.

Lemma private_reply_calls to_dm mention msg s c :
  c ∈ calls (core (private_reply world to_dm mention msg) s) →
  ∃ private text, c = Did (DiscordSend private text).
Proof.
  rewrite core_run, private_reply_run. cbn [trace calls].
  intros (e & -> & He)%list_elem_of_fmap.
  apply elem_of_cons in He as [->|He]; [by eexists _, _|].
  destruct (reply_forbidden world); [|by apply elem_of_nil in He].
  apply list_elem_of_singleton in He as ->. by eexists _, _.
Qed.

(** X25.  Who is relayed.  Of a message that is no command, something is
    sent on to the game or to the webhooks of the channels only when its
    author is not a bot, its channel is registered, the message could be
    deleted and the author's account has a Minecraft account linked.  The
    message is deleted from a registered channel whether the author is
    linked or not; it is left alone in a channel that is not registered
    and when a bot wrote it.  An account that is known but has no
    Minecraft account linked gets no reply at all: its message is deleted
    and nothing else happens. *)
Theorem X25_only_linked_accounts_in_registered_channels_are_relayed
    (message : Message) (author_bot channel_should_chat : bool)
    (discord_user : option (option pystr))
    (channels : list (option (list (pystr * pystr))))
    (now_gate now_relay : Z) (s : State) :
  let run := on_message_chat config world platform message author_bot
               channel_should_chat discord_user channels now_gate now_relay s in
  (∀ c, c ∈ calls run → relays c →
        author_bot = false ∧ channel_should_chat = true
        ∧ message_delete platform = true
        ∧ ∃ minecraft_uuid, discord_user = Some (Some minecraft_uuid))
  ∧ (MessageDelete ∈ calls run ↔ author_bot = false ∧ channel_should_chat = true)
  ∧ (author_bot = true ∨ channel_should_chat = false → run = mkRun (Ok tt) s [])
  ∧ (discord_user = Some None → ∀ c, c ∈ calls run → c = MessageDelete).
Proof.
  cbv zeta. unfold on_message_chat.
  destruct author_bot; cbn [negb].
  { cbn [pure calls]. split; [|split; [|split]].
    - by intros c ?%elem_of_nil.
    - split; [by intros ?%elem_of_nil|by intros [[=] _]].
    - done.
    - by intros _ c ?%elem_of_nil. }
  destruct channel_should_chat.
  2:{ cbn [pure calls]. split; [|split; [|split]].
      - by intros c ?%elem_of_nil.
      - split; [by intros ?%elem_of_nil|by intros [_ [=]]].
      - done.
      - by intros _ c ?%elem_of_nil. }
  destruct (message_delete platform) eqn:Hdel.
  2:{ erewrite and_then_raised by (by rewrite delete_message_run, Hdel).
      cbn [calls]. split; [|split; [|split]].
      - by intros c ->%list_elem_of_singleton.
      - split; [done|]. intros _. by left.
      - by intros [[=]|[=]].
      - by intros _ c ->%list_elem_of_singleton. }
  erewrite and_then_run by (by rewrite delete_message_run, Hdel).
  cbn [app calls].
  split; [|split; [|split]].
  - intros c [->|Hc]%elem_of_cons; [done|]. intros Hrelay.
    destruct discord_user as [[minecraft_uuid|]|].
    + repeat split; by eauto.
    + by apply elem_of_nil in Hc.
    + by apply private_reply_calls in Hc as (private & text & ->).
  - split; [done|]. intros _. by left.
  - by intros [[=]|[=]].
  - intros -> c [->|Hc]%elem_of_cons; [done|]. by apply elem_of_nil in Hc.
Qed.

(** X26.  [mc!chathere].  The command registers something only for an
    administrator, in a guild channel, for a channel that is not in the
    table yet: otherwise no row is written, no webhook is created and
    [WEBHOOKS] stays as it is.  In that case the row is written first:
    when the webhook can then be created its url is appended to
    [WEBHOOKS]; when it cannot, the command raises with the channel
    registered and [WEBHOOKS] as it was. *)
Theorem X26_chathere_registers_for_administrators_only
    (message : Message) (author_id this_channel : Z) (registered : bool) (s : State) :
  let run := chathere world platform admin_users message author_id this_channel
               registered s in
  (guild_channel message = false ∨ author_id ∉ admin_users ∨ registered = true →
   WEBHOOKS (state_after run) = WEBHOOKS s
   ∧ ∀ c, c ∈ calls run → ¬ registers c)
  ∧ (guild_channel message = true → author_id ∈ admin_users → registered = false →
     match create_webhook platform this_channel with
     | Some url =>
         state_after run = set_WEBHOOKS (WEBHOOKS s ++ [url]) s
         ∧ calls run
           = [AddChannel this_channel; CreateWebhook this_channel;
              Did (DiscordSend false
                     (py "The bot will now start chatting here! To stop this, run `mc!stopchathere`."))]
     | None =>
         run = mkRun (Raised HTTPException) s
                     [AddChannel this_channel; CreateWebhook this_channel]
     end).
Proof.
  cbv zeta. unfold chathere. split.
  - intros Hnot.
    destruct (guild_channel message); cbn [negb].
    2:{ rewrite channel_reply_run. cbn [state_after calls]. split; [done|].
        intros c ->%list_elem_of_singleton Hc. exact Hc. }
    case_bool_decide as Hadmin; cbn [negb].
    2:{ destruct (message_delete platform) eqn:Hdel.
        - erewrite and_then_run by (by rewrite delete_message_run, Hdel).
          rewrite core_run, private_reply_run.
          cbn [state_after calls final trace fmap list_fmap app]. split; [done|].
          intros c [->|[->|Hc]%elem_of_cons]%elem_of_cons Hr; [exact Hr|exact Hr|].
          destruct (reply_forbidden world); [|by apply elem_of_nil in Hc].
          apply list_elem_of_singleton in Hc as ->. exact Hr.
        - erewrite and_then_raised by (by rewrite delete_message_run, Hdel).
          cbn [state_after calls]. split; [done|].
          intros c ->%list_elem_of_singleton Hc. exact Hc. }
    destruct registered; cbn [negb].
    + rewrite channel_reply_run. cbn [state_after calls]. split; [done|].
      intros c ->%list_elem_of_singleton Hc. exact Hc.
    + by destruct Hnot as [[=]|[?|[=]]].
  - intros -> Hadmin ->. cbn [negb]. rewrite bool_decide_eq_true_2 by done.
    cbn [negb]. unfold create_hook. drun.
    destruct (create_webhook platform this_channel) as [url|]; drun; [|done].
    unfold append_webhook. drun. rewrite channel_reply_run. done.
Qed.

(** X27.  [mc!stopchathere].  For an administrator in a guild channel the
    command deletes the row of the channel and then raises [TypeError] at
    the loop over the channel: no reply is sent, no webhook is deleted.
    Whoever sends the command and wherever, [WEBHOOKS] stays as it is:
    what is said in the game keeps being posted to the webhook of the
    channel. *)
Theorem X27_stopchathere_leaves_the_webhook_list
    (message : Message) (author_id this_channel deleted : Z) (s : State) :
  let run := stopchathere world platform admin_users message author_id this_channel
               deleted s in
  WEBHOOKS (state_after run) = WEBHOOKS s
  ∧ (guild_channel message = true → author_id ∈ admin_users →
     run = mkRun (Raised TypeError) s [DeleteChannel this_channel]).
Proof.
  cbv zeta. unfold stopchathere. split.
  - destruct (guild_channel message); cbn [negb].
    2:{ by rewrite channel_reply_run. }
    case_bool_decide as Hadmin; cbn [negb].
    + by drun.
    + destruct (message_delete platform) eqn:Hdel.
      * erewrite and_then_run by (by rewrite delete_message_run, Hdel).
        by rewrite core_run, private_reply_run.
      * by erewrite and_then_raised by (by rewrite delete_message_run, Hdel).
  - intros -> Hadmin. cbn [negb]. rewrite bool_decide_eq_true_2 by done.
    cbn [negb]. by drun.
Qed.

End OnMessage.

(* ===================================================================== *)
(** ** The presence tracker and the cache together *)
(* ===================================================================== *)

Section Together.
Context (config : Configuration) (world : World).

Lemma cache_after_add_names name uuid cache cache' :
  cache_after_add name uuid cache = inr cache' →
  Bidict.inv_contains name cache' = true
  ∧ ∀ n, Bidict.inv_contains n cache = true → Bidict.inv_contains n cache' = true.
Proof.
  unfold cache_after_add. destruct (Bidict.inv_contains name cache) eqn:Hname.
  { by intros [= <-]. }
  intros Hset. destruct (inv_setitem_new _ _ _ _ Hname Hset) as [_ ->].
  unfold Bidict.inv_contains, Bidict.contains, with_item. cbn. split.
  - apply bool_decide_eq_true_2. rewrite lookup_insert_eq. by eexists.
  - intros n Hn%bool_decide_eq_true_1. apply bool_decide_eq_true_2.
    destruct (decide (n = name)) as [->|Hne].
    + rewrite lookup_insert_eq. by eexists.
    + by rewrite lookup_insert_ne.
Qed.

Lemma backfill_caches players bot_uuid s n :
  ACCEPT_JOIN_EVENTS s = false →
  Forall (λ p, p.1 ≠ BOT_USERNAME s) players →
  let out := handle_actions config world
               (adds players ++ [AddPlayerAction (BOT_USERNAME s) bot_uuid]) s in
  ACCEPT_JOIN_EVENTS (final out) = true →
  n ∈ players.*1 ∨ n = BOT_USERNAME s ∨ Bidict.inv_contains n (UUID_CACHE s) = true →
  Bidict.inv_contains n (UUID_CACHE (final out)) = true.
Proof.
  intros Hacc Hplayers. cbv zeta. revert s Hacc Hplayers.
  induction players as [|[name uuid] players IH]; intros s Hacc Hplayers;
    cbn [adds fmap list_fmap app fst snd].
  - rewrite handle_actions_cons. cbn [handle_action handle_actions].
    destruct (Bidict.inv_contains (BOT_USERNAME s) (PLAYER_LIST s)) eqn:Hdup.
    { rewrite handle_add_duplicate by done. cbn. congruence. }
    rewrite handle_add_new by done. cbv zeta. rewrite Hacc.
    destruct (Bidict.inv_setitem _ bot_uuid (PLAYER_LIST s)) as [err|now];
      [cbn; congruence|].
    destruct (cache_after_add _ bot_uuid (UUID_CACHE s)) as [err|cache] eqn:Hadd;
      [cbn; congruence|].
    rewrite bool_decide_eq_true_2 by done. unfold after, ret. cbn.
    destruct (cache_after_add_names _ _ _ _ Hadd) as [Hbot Hold].
    intros _ [?%elem_of_nil|[->|?]]; by auto.
  - apply Forall_cons in Hplayers as [Hname Hplayers]. cbn in Hname.
    rewrite handle_actions_cons. cbn [handle_action].
    destruct (Bidict.inv_contains name (PLAYER_LIST s)) eqn:Hdup.
    { rewrite handle_add_duplicate by done. cbn. congruence. }
    rewrite handle_add_new by done. cbv zeta. rewrite Hacc.
    destruct (Bidict.inv_setitem name uuid (PLAYER_LIST s)) as [err|now];
      [cbn; congruence|].
    destruct (cache_after_add name uuid (UUID_CACHE s)) as [err|cache] eqn:Hadd;
      [cbn; congruence|].
    rewrite bool_decide_eq_false_2 by done.
    set (s1 := set_UUID_CACHE cache (set_PLAYER_LIST now s)).
    unfold after. cbn [final trace result]. intros Hdone Hn.
    destruct (cache_after_add_names _ _ _ _ Hadd) as [Hhere Hold].
    apply (IH s1); try done.
    change (BOT_USERNAME s1) with (BOT_USERNAME s). subst s1. sstate.
    destruct Hn as [[->|Hn]%elem_of_cons|[->|Hn]]; auto.
Qed.

(** X28.  A completed backfill fills the cache.  When a packet that lists
    [players] and then the bridge's own name is handled while join events
    are not accepted and ends with join events accepted, the name of every
    player listed, and the bridge's own, is in the cache: looking any of
    them up by name afterwards, as [handle_chat] does for a speaker, makes
    no request to the name service, whatever the service would answer. *)
Theorem X28_listed_players_are_looked_up_without_a_request
    (later : World) (players : list (pystr * pystr)) (bot_uuid name : pystr)
    (s : State) :
  ACCEPT_JOIN_EVENTS s = false →
  Forall (λ p, p.1 ≠ BOT_USERNAME s) players →
  let packet := adds players ++ [AddPlayerAction (BOT_USERNAME s) bot_uuid] in
  let s1 := final (handle_tab_list config world packet s) in
  ACCEPT_JOIN_EVENTS s1 = true →
  name ∈ players.*1 ∨ name = BOT_USERNAME s →
  ∃ uuid, mc_username_to_uuid later name s1 = mkOut (Ok (Some uuid)) s1 [].
Proof.
  intros Hacc Hplayers. cbv zeta. intros Hdone Hname.
  assert (Bidict.inv_contains name
            (UUID_CACHE (final (handle_tab_list config world
               (adds players ++ [AddPlayerAction (BOT_USERNAME s) bot_uuid]) s)))
          = true) as Hcached.
  { apply backfill_caches; try done. tauto. }
  apply contains_getitem in Hcached as [uuid Huuid]. exists uuid.
  by apply mc_username_to_uuid_hit.
Qed.

End Together.

(* ===================================================================== *)
(** ** The further properties on the scenario *)
(* ===================================================================== *)

Section MoreOnTheScenario.
Import Scenario Guild.

Lemma X2_witness :
  ascii_replace (py "a" ++ [128512%N]) = Some (py "a" ++ replicate 4 65533%N)
  ∧ (remove_emoji (py "a" ++ replicate 4 65533%N) = py "a" ++ replicate 4 65533%N
     ∧ forallb ascii_or_replacement (py "a" ++ replicate 4 65533%N) = true
     ∧ length (py "a" ++ replicate 4 65533%N)
       = sum_list (utf8_width <$> (py "a" ++ [128512%N]))).
Proof.
  split; [vm_compute; reflexivity|].
  apply (X2_nothing_left_for_remove_emoji (py "a" ++ [128512%N])).
  vm_compute; reflexivity.
Defined.

Lemma X3_witness :
  ascii_replace (clean_content blank_message) = Some (py "   ")
  ∧ 2 + len alice ≤ 256
  ∧ (message_forms alice (py "   ") (clean_content blank_message) = None
     ↔ forallb ascii_blank (clean_content blank_message) = true).
Proof.
  split; [vm_compute; reflexivity|]. split; [vm_compute; discriminate|].
  apply (X3_dropped_exactly_when_all_ascii_blanks alice (clean_content blank_message)
           (py "   ")).
  - vm_compute; reflexivity.
  - vm_compute; discriminate.
Defined.

Lemma X4_witness :
  has_colour_code (py "Survival") = false
  ∧ strip_colour (py "Survival") = py "Survival".
Proof.
  split; [vm_compute; reflexivity|].
  apply (proj1 (proj2 (proj2 (X4_strip_colour_leaves_no_colour_code (py "Survival"))))).
  vm_compute; reflexivity.
Defined.

Lemma X6_witness :
  let first := mc_uuid_to_username renamed alice_uuid starting in
  result first = Ok (Some alicia)
  ∧ mc_uuid_to_username online alice_uuid (final first)
    = mkOut (Ok (Some alicia)) (final first) [].
Proof.
  cbv zeta. split; [vm_compute; reflexivity|].
  apply (X6_resolved_name_is_not_asked_for_again renamed online alice_uuid alicia starting).
  vm_compute; reflexivity.
Defined.

Lemma X7_witness :
  result (mc_uuid_to_username online bob_uuid active) = Ok None
  ∧ mc_uuid_to_username online bob_uuid active
    = mkOut (Ok None) active [HttpGet (names_url (replace (py "-") [] bob_uuid))].
Proof.
  split; [vm_compute; reflexivity|].
  apply (proj1 (X7_failed_lookup_is_not_remembered online bob_uuid bob active)).
  vm_compute; reflexivity.
Defined.

Lemma X8_witness :
  Bidict.contains alice_raw (UUID_CACHE active) = false
  ∧ Bidict.inv_getitem alice (UUID_CACHE active) = Some alice_uuid
  ∧ mojang_names named (replace (py "-") [] alice_raw) = Some [alice]
  ∧ current_name [alice] = Some alice
  ∧ mc_uuid_to_username named alice_raw active
    = mkOut (Ok None) active [HttpGet (names_url (replace (py "-") [] alice_raw))].
Proof.
  split; [vm_compute; reflexivity|]. split; [vm_compute; reflexivity|].
  split; [vm_compute; reflexivity|]. split; [vm_compute; reflexivity|].
  apply (X8_name_cached_for_another_uuid named alice_raw alice_uuid alice [alice] active);
    vm_compute; reflexivity.
Defined.

Lemma X9_witness :
  ACCEPT_JOIN_EVENTS active = true
  ∧ Bidict.inv_contains bob (PLAYER_LIST active) = false
  ∧ Bidict.contains bob_uuid (PLAYER_LIST active) = false
  ∧ Bidict.inv_contains bob (UUID_CACHE active) = false
  ∧ Bidict.contains bob_uuid (UUID_CACHE active) = false
  ∧ all_respond online (WEBHOOKS active) = true
  ∧ trace (handle_tab_list logged online [AddPlayerAction bob bob_uuid] active)
    = [WebhookPost hook1 (join_payload bob bob_uuid);
       WebhookPost hook2 (join_payload bob bob_uuid);
       LogConnection bob_uuid CONNECTED (Some 3)].
Proof.
  split; [reflexivity|]. split; [vm_compute; reflexivity|].
  split; [vm_compute; reflexivity|]. split; [vm_compute; reflexivity|].
  split; [vm_compute; reflexivity|]. split; [vm_compute; reflexivity|].
  rewrite (proj1 (X9_join_is_announced_once_to_every_webhook logged online bob
                    bob_uuid [] active
                    ltac:(reflexivity) ltac:(vm_compute; reflexivity)
                    ltac:(vm_compute; reflexivity) ltac:(vm_compute; reflexivity)
                    ltac:(vm_compute; reflexivity) ltac:(vm_compute; reflexivity))).
  vm_compute; reflexivity.
Defined.

Lemma X10_witness :
  Bidict.getitem alice_uuid (UUID_CACHE active) = Some alice
  ∧ Bidict.getitem alice_uuid (PLAYER_LIST active) = Some alice
  ∧ all_respond online (WEBHOOKS active) = true
  ∧ trace (handle_tab_list logged online [RemovePlayerAction alice_uuid] active)
    = [WebhookPost hook1 (leave_payload (Some alice) alice_uuid);
       WebhookPost hook2 (leave_payload (Some alice) alice_uuid);
       LogConnection alice_uuid DISCONNECTED (Some 1)].
Proof.
  split; [vm_compute; reflexivity|]. split; [vm_compute; reflexivity|].
  split; [vm_compute; reflexivity|].
  rewrite (proj1 (X10_leave_is_announced_and_the_player_forgotten logged online
                    alice_uuid alice alice [] active
                    ltac:(vm_compute; reflexivity) ltac:(vm_compute; reflexivity)
                    ltac:(vm_compute; reflexivity))).
  vm_compute; reflexivity.
Defined.

Lemma X11_witness :
  result (mc_uuid_to_username online bob_uuid active) = Ok None
  ∧ all_respond online (WEBHOOKS active) = true
  ∧ handle_tab_list quiet online [RemovePlayerAction bob_uuid] active
    = mkOut (Raised KeyError) active
        (HttpGet (names_url (replace (py "-") [] bob_uuid))
         :: posts_to (WEBHOOKS active) (leave_payload None bob_uuid)).
Proof.
  split; [vm_compute; reflexivity|]. split; [vm_compute; reflexivity|].
  apply (X11_leave_of_an_unknown_player_raises quiet online bob_uuid [] active);
    vm_compute; reflexivity.
Defined.

Lemma X12_witness :
  let once := handle_tab_list quiet online [RemovePlayerAction alice_uuid] active in
  Bidict.contains alice_uuid (PLAYER_LIST (final once)) = false
  ∧ all_respond online (WEBHOOKS (final once)) = true
  ∧ result (handle_tab_list quiet online [RemovePlayerAction alice_uuid] (final once))
    = Raised KeyError.
Proof.
  cbv zeta. split; [vm_compute; reflexivity|]. split; [vm_compute; reflexivity|].
  apply (X12_second_leave_is_announced_and_raises quiet online alice_uuid []);
    vm_compute; reflexivity.
Defined.

Lemma X13_witness :
  Bidict.wf (UUID_CACHE active)
  ∧ Bidict.wf (PLAYER_LIST active)
  ∧ Bidict.getitem alice_uuid (UUID_CACHE active) = Some alice
  ∧ Bidict.getitem alice_uuid (PLAYER_LIST active) = Some alice
  ∧ ACCEPT_JOIN_EVENTS active = true
  ∧ all_respond online (WEBHOOKS active) = true
  ∧ final (handle_tab_list quiet online
             [RemovePlayerAction alice_uuid; AddPlayerAction alice alice_uuid] active)
    = active.
Proof.
  assert (Bidict.wf (UUID_CACHE active)) as Hwf
    by (apply BidictFacts.wfb_wf; vm_compute; reflexivity).
  split; [exact Hwf|]. split; [exact Hwf|].
  split; [vm_compute; reflexivity|]. split; [vm_compute; reflexivity|].
  split; [reflexivity|]. split; [vm_compute; reflexivity|].
  rewrite (X13_leave_then_join_restores_the_state quiet online alice_uuid alice []
             active Hwf Hwf); [reflexivity|vm_compute; reflexivity..].
Defined.

Lemma X16_witness :
  let packet := adds [(bob, bob_uuid)]
                ++ [AddPlayerAction (BOT_USERNAME reconnected) bot_uuid] in
  let out := handle_tab_list quiet online packet reconnected in
  ACCEPT_JOIN_EVENTS reconnected = false
  ∧ ACCEPT_JOIN_EVENTS (final out) = true
  ∧ (result out = Ok tt
     ∧ ∀ u n, Bidict.getitem u (PLAYER_LIST (final out)) = Some n ↔
              (n, u) ∈ [(bob, bob_uuid)] ∨ (n, u) = (BOT_USERNAME reconnected, bot_uuid)
              ∨ Bidict.getitem u (PLAYER_LIST reconnected) = Some n).
Proof.
  cbv zeta. split; [reflexivity|]. split; [vm_compute; reflexivity|].
  apply (X16_completed_backfill_fills_the_player_list quiet online
           [(bob, bob_uuid)] bot_uuid reconnected).
  - reflexivity.
  - repeat constructor; vm_compute; discriminate.
  - vm_compute; reflexivity.
Defined.

Lemma X17_witness :
  let out := handle_chat logged online server_chat active in
  extra server_chat = Some [Some (py "alice joined the game")]
  ∧ chat_string_of [Some (py "alice joined the game")] []
    = Some (py "alice joined the game")
  ∧ match_player_chat (py "alice joined the game") = None
  ∧ (final out = active
     ∧ (∀ e, e ∈ trace out → ∃ type, e = LogRawMessage type (json_data server_chat))
     ∧ (es_enabled logged = false → out = mkOut (Ok tt) active [])).
Proof.
  cbv zeta. split; [reflexivity|]. split; [vm_compute; reflexivity|].
  split; [vm_compute; reflexivity|].
  apply (X17_other_lines_are_not_relayed logged online server_chat
           [Some (py "alice joined the game")] (py "alice joined the game") active);
    vm_compute; reflexivity.
Defined.

Lemma X18_witness :
  let packet := mkChatPacket (py "{extra: [{text: <alice> }, {translate: x}]}")
                  (Some [Some (py "<alice> "); None]) 0 in
  extra packet = Some ([Some (py "<alice> ")] ++ None :: [])
  ∧ handle_chat logged online packet active = mkOut (Raised KeyError) active [].
Proof.
  cbv zeta. split; [reflexivity|].
  apply (X18_component_without_text_raises logged online _ [Some (py "<alice> ")] []).
  reflexivity.
Defined.


Lemma X20_witness :
  let payload := chat_payload alice (Some alice_uuid)
                   (py "@" ++ [8203%N] ++ py "everyone hi") in
  trace (handle_chat quiet online ping_chat active)
  = [WebhookPost hook1 payload; WebhookPost hook2 payload]
  ∧ mentions_broken (content payload) = true.
Proof.
  cbv zeta.
  assert (trace (handle_chat quiet online ping_chat active)
          = [WebhookPost hook1 (chat_payload alice (Some alice_uuid)
                                  (py "@" ++ [8203%N] ++ py "everyone hi"));
             WebhookPost hook2 (chat_payload alice (Some alice_uuid)
                                  (py "@" ++ [8203%N] ++ py "everyone hi"))]) as Htrace
    by (vm_compute; reflexivity).
  split; [exact Htrace|].
  apply (X20_posted_text_mentions_nobody quiet online ping_chat active hook1).
  rewrite Htrace. left.
Defined.


Lemma X22_witness :
  result (mc_uuid_to_username online bob_uuid active) = Ok None
  ∧ on_message_linked quiet online hi bob_uuid channels 10 10 active
    = mkOut (Raised TypeError) active
        [HttpGet (names_url (replace (py "-") [] bob_uuid))].
Proof.
  split; [vm_compute; reflexivity|].
  apply (proj1 (X22_linked_branch_raises_before_it_sends quiet online hi bob_uuid
                  channels 10 10 active)).
  vm_compute; reflexivity.
Defined.

Lemma X23_witness :
  Forall (λ channel, is_Some channel.2) registered_channels
  ∧ Forall (λ id, is_Some (create_webhook discord id)) (lacking registered_channels)
  ∧ on_ready discord registered_channels active
    = mkRun (Ok tt) (set_WEBHOOKS (listed_urls registered_channels) active)
            (CreateWebhook <$> lacking registered_channels).
Proof.
  assert (Forall (λ channel : Z * option (list (pystr * pystr)), is_Some channel.2)
            registered_channels) as Hlisted
    by (repeat constructor; by eexists).
  assert (Forall (λ id, is_Some (create_webhook discord id))
            (lacking registered_channels)) as Hcreate
    by (repeat constructor; by eexists).
  split; [exact Hlisted|]. split; [exact Hcreate|].
  exact (X23_on_ready_rebuilds_the_webhook_list discord registered_channels active
           Hlisted Hcreate).
Defined.

Lemma X24_witness :
  Forall (λ channel : Z * option (list (pystr * pystr)), is_Some channel.2)
    [(1, Some [(py "_minecraft", hook1)])]
  ∧ Forall (λ id, is_Some (create_webhook discord id))
      (lacking [(1, Some [(py "_minecraft", hook1)])])
  ∧ on_ready discord ([(1, Some [(py "_minecraft", hook1)])] ++ (2, None) :: []) active
    = mkRun (Raised HTTPException)
            (set_WEBHOOKS (listed_urls [(1, Some [(py "_minecraft", hook1)])]) active)
            (CreateWebhook <$> lacking [(1, Some [(py "_minecraft", hook1)])]).
Proof.
  assert (Forall (λ channel : Z * option (list (pystr * pystr)), is_Some channel.2)
            [(1, Some [(py "_minecraft", hook1)])]) as Hlisted
    by (repeat constructor; by eexists).
  assert (Forall (λ id, is_Some (create_webhook discord id))
            (lacking [(1, Some [(py "_minecraft", hook1)])])) as Hcreate
    by constructor.
  split; [exact Hlisted|]. split; [exact Hcreate|].
  exact (proj1 (X24_on_ready_stops_at_the_first_failure discord
                  [(1, Some [(py "_minecraft", hook1)])] [] 2 [] active
                  Hlisted Hcreate)).
Defined.

Lemma X25_witness :
  on_message_chat quiet online discord hi false true (Some None) channels 10 10 active
  = mkRun (Ok tt) active [MessageDelete]
  ∧ ∀ c, c ∈ calls (on_message_chat quiet online discord hi false true (Some None)
                      channels 10 10 active) → c = MessageDelete.
Proof.
  split; [vm_compute; reflexivity|].
  apply (proj2 (proj2 (proj2
           (X25_only_linked_accounts_in_registered_channels_are_relayed quiet online
              discord hi false true (Some None) channels 10 10 active)))).
  reflexivity.
Defined.

Lemma X26_witness :
  guild_channel hi = true
  ∧ 42 ∈ admins
  ∧ create_webhook no_webhooks 1 = None
  ∧ chathere online no_webhooks admins hi 42 1 false active
    = mkRun (Raised HTTPException) active [AddChannel 1; CreateWebhook 1].
Proof.
  assert (42 ∈ admins) as Hadmin by (by left).
  split; [reflexivity|]. split; [exact Hadmin|]. split; [reflexivity|].
  exact (proj2 (X26_chathere_registers_for_administrators_only online no_webhooks
                  admins hi 42 1 false active) eq_refl Hadmin eq_refl).
Defined.

Lemma X27_witness :
  guild_channel hi = true
  ∧ 42 ∈ admins
  ∧ stopchathere online discord admins hi 42 1 1 active
    = mkRun (Raised TypeError) active [DeleteChannel 1].
Proof.
  assert (42 ∈ admins) as Hadmin by (by left).
  split; [reflexivity|]. split; [exact Hadmin|].
  exact (proj2 (X27_stopchathere_leaves_the_webhook_list online discord admins hi
                  42 1 1 active) eq_refl Hadmin).
Defined.

Lemma X28_witness :
  let packet := adds [(bob, bob_uuid)]
                ++ [AddPlayerAction (BOT_USERNAME reconnected) bot_uuid] in
  let s1 := final (handle_tab_list quiet online packet reconnected) in
  ACCEPT_JOIN_EVENTS reconnected = false
  ∧ ACCEPT_JOIN_EVENTS s1 = true
  ∧ bob ∈ [(bob, bob_uuid)].*1
  ∧ ∃ uuid, mc_username_to_uuid hook1_down bob s1 = mkOut (Ok (Some uuid)) s1 [].
Proof.
  cbv zeta. split; [reflexivity|]. split; [vm_compute; reflexivity|].
  assert (bob ∈ [(bob, bob_uuid)].*1) as Hin by (by left).
  split; [exact Hin|].
  apply (X28_listed_players_are_looked_up_without_a_request quiet online hook1_down
           [(bob, bob_uuid)] bot_uuid bob reconnected).
  - reflexivity.
  - repeat constructor; vm_compute; discriminate.
  - vm_compute; reflexivity.
  - by left.
Defined.

End MoreOnTheScenario.
